(** * SproutSMP: the process supervisor behind the Minecraft server wrapper

    A shallow embedding of [scripts/process-manager.js] (class
    [ProcessManager]) and of the lifecycle routes of [server.js], followed by
    the properties of the supervision core that the specification states.

    JavaScript objects that the code mutates ([this.processes], the module
    globals of [server.js]) and everything outside the program (file system,
    clock, operating system) live in one explicit [State]; every method is a
    computation in a state-and-exception monad over it. *)

From Stdlib Require Import Ascii.
From stdpp Require Import gmap strings list fin_maps pretty.

Local Open Scope string_scope.
Local Open Scope list_scope.
Local Open Scope Z_scope.

(** ** JavaScript basics *)

(** The line feed written after every console command. *)
Definition nl : string := String (Ascii.ascii_of_nat 10) EmptyString.

(** Thrown values: [new Error(msg)] of the program itself, and the
    [TypeError] the engine raises on a property access through
    [null]/[undefined]. *)
Inductive JsError :=
| Error (msg : string)
| TypeError (msg : string).

Definition message (e : JsError) : string :=
  match e with Error m => m | TypeError m => m end.

(** What V8 reports for [x.on(...)] / [x.write(...)] when [x] is undefined. *)
Definition undefined_read (prop : string) : JsError :=
  TypeError ("Cannot read properties of undefined (reading '" +:+ prop +:+ "')").

(** A [Date] object, seen through the two observers the program uses. *)
Record Date := { getTime : Z; toISOString : string }.

(** [s.replace(/[:.]/g, '-')] *)
Fixpoint replace_colon_dot (s : string) : string :=
  match s with
  | EmptyString => EmptyString
  | String c r =>
      String (if bool_decide (c = ":"%char) || bool_decide (c = "."%char)
              then "-"%char else c)
             (replace_colon_dot r)
  end.

(** [s.includes(sub)] *)
Fixpoint includes (s sub : string) : bool :=
  String.prefix sub s ||
  match s with
  | EmptyString => false
  | String _ r => includes r sub
  end.

(** [s.split('\n')]: the lines of a text, the last one possibly empty. *)
Fixpoint split_lines_from (cur : string) (s : string) : list string :=
  match s with
  | EmptyString => [cur]
  | String c r =>
      if bool_decide (c = Ascii.ascii_of_nat 10)
      then cur :: split_lines_from EmptyString r
      else split_lines_from (cur +:+ String c EmptyString) r
  end.

Definition split_lines (s : string) : list string := split_lines_from EmptyString s.

(** ** Paths and the file system (Node's [path] and [fs] modules) *)

(** A path is its list of segments; [path.join] appends segments and lets
    [".."] drop the last one. Each argument is taken as one segment. *)
Abbreviation path := (list string) (only parsing).

Definition path_join (base : path) (segments : list string) : path :=
  foldl (fun acc seg => if bool_decide (seg = "..") then removelast acc else acc ++ [seg])
        base segments.

Definition render (p : path) : string := "/" +:+ String.concat "/" p.

Inductive Entry :=
| File (content : string)
| Directory.

Definition isDirectory (e : Entry) : bool :=
  match e with Directory => true | File _ => false end.

Module Fs.

(** What is left of [p] below [dir], when [p] lies at or below [dir]. *)
Fixpoint below (dir p : path) : option path :=
  match dir, p with
  | [], _ => Some p
  | d :: dir', s :: p' => if bool_decide (d = s) then below dir' p' else None
  | _ :: _, [] => None
  end.

(** [p] names the entry [name] directly inside [dir]. *)
Definition child_name (dir p : path) : option string :=
  match below dir p with
  | Some [name] => Some name
  | _ => None
  end.

Definition exists_ (fs : gmap path Entry) (p : path) : bool :=
  match fs !! p with Some _ => true | None => false end.

(** [mkdir -p]: walk down from [done], creating what is missing; a file
    in the way is an error ([EEXIST]/[ENOTDIR]). *)
Fixpoint mkdir_from (fs : gmap path Entry) (done : path) (rest : list string)
  : option (gmap path Entry) :=
  match fs !! done with
  | Some (File _) => None
  | _ =>
      let fs' := <[done := Directory]> fs in
      match rest with
      | [] => Some fs'
      | seg :: rest' => mkdir_from fs' (done ++ [seg]) rest'
      end
  end.

Definition mkdir_recursive (fs : gmap path Entry) (p : path) : option (gmap path Entry) :=
  mkdir_from fs [] p.

(** [copyFileSync]: the source must be a regular file, the destination's
    directory must exist and the destination must not be a directory. *)
Definition copy_file (fs : gmap path Entry) (src dst : path) : option (gmap path Entry) :=
  match fs !! src with
  | Some (File data) =>
      match fs !! removelast dst, fs !! dst with
      | Some Directory, Some Directory => None
      | Some Directory, _ => Some (<[dst := File data]> fs)
      | _, _ => None
      end
  | _ => None
  end.

(** [readdirSync]: the names directly inside a directory. *)
Definition readdir (fs : gmap path Entry) (p : path) : option (list string) :=
  match fs !! p with
  | Some Directory => Some (omap (fun kv => child_name p kv.1) (map_to_list fs))
  | _ => None
  end.

(** Opening a write stream with flag ['a'] creates the file when absent. *)
Definition open_append (fs : gmap path Entry) (p : path) : gmap path Entry :=
  match fs !! p with
  | None => <[p := File ""]> fs
  | Some _ => fs
  end.

Definition append (fs : gmap path Entry) (p : path) (data : string) : gmap path Entry :=
  match fs !! p with
  | Some (File old) => <[p := File (old +:+ data)]> fs
  | Some Directory => fs
  | None => <[p := File data]> fs
  end.

End Fs.

(** ** Child processes and the operating system *)

(** A pipe end of a child, named by a descriptor number. *)
Definition Stream := N.

(** A [ChildProcess] handle. After a failed spawn, [pid] is undefined and
    the three pipes may be missing (Node's documented behaviour). *)
Record ChildProcess := {
  cp_pid : option Z;
  cp_stdin : option Stream;
  cp_stdout : option Stream;
  cp_stderr : option Stream }.

(** [spawnOptions]; [stdio] is always three pipes. *)
Record SpawnOptions := { cwd : path; detached : bool; windowsHide : bool }.

Inductive SpawnOutcome :=
| SpawnThrows (e : JsError)
| Spawned (child : ChildProcess).

(** What the program does to the world outside the file system. *)
Inductive Effect :=
| ESpawn (command : string) (args : list string) (options : SpawnOptions)
| EKill (target : Z) (signal : string)      (* process.kill; target < 0: a process group *)
| EChildKill (child : ChildProcess) (signal : string)      (* child.kill(signal) *)
| EExec (command : string)                  (* child_process.exec(command, ...) *)
| EWrite (stream : Stream) (data : string)  (* a write on a pipe *)
| EUnref (child : ChildProcess)
| EConsoleError (text : string)
| EBroadcast (status : string) (pid : option (option Z)).

(** Everything the program reads from or changes outside its own heap.
    The [os_*] fields are the answers of the operating system. *)
Record World := {
  dirname : path;                     (* __dirname of process-manager.js *)
  fs : gmap path Entry;
  clock : nat -> Date;                (* successive readings of the system clock *)
  ticks : nat;                        (* readings taken so far *)
  os_platform : string;               (* os.platform() *)
  os_spawn : string -> list string -> SpawnOptions -> SpawnOutcome;
  os_kill : Z -> string -> option JsError;   (* None: delivered; Some e: kill throws e *)
  os_probe : Z -> option JsError;            (* process.kill(pid, 0) *)
  os_execSync : string -> option string;     (* output, or None when the command fails *)
  os_write : Stream -> string -> option JsError;
  trace : list Effect }.

(** ** The heap: [ProcessManager], and the globals of [server.js] *)

(** The [config] object handed to [startMinecraftServer]; an absent field
    is [undefined]. [customArgs] is carried by the server's record only. *)
Record Config := {
  jarFile : option string;
  minMemory : option string;
  maxMemory : option string;
  jvmArgs : option (list string);
  serverArgs : option (list string);
  workingDir : option path;
  useAikarFlags : option bool;
  customArgs : option string }.

(** [processInfo], the Instance Descriptor. *)
Record ProcessInfo := {
  pid : option Z;
  startTime : Date;
  config : Config;
  logFile : path;
  errorLogFile : path;
  process : ChildProcess }.

Record ProcessManager := {
  isWindows : bool;
  isLinux : bool;
  processes : gmap string ProcessInfo;
  logDir : path }.

(** [serverConfig] of [server.js]: the five keys of its initialiser, and
    the two further keys that [startMinecraftServer] reads. The initialiser
    leaves these two out; they are there when the [config.json] merged in as
    the module loads ([{ ...serverConfig, ...savedConfig }]) has them. Keys
    that no code reads are not kept. *)
Record ServerConfig := {
  sc_jarFile : string;
  sc_minMemory : string;
  sc_maxMemory : string;
  sc_useAikarFlags : bool;
  sc_customArgs : string;
  sc_jvmArgs : option (list string);
  sc_serverArgs : option (list string) }.

Record State := {
  processManager : ProcessManager;
  serverStatus : string;
  serverConfig : ServerConfig;
  serverPath : path;                  (* CONFIG.serverPath *)
  world : World }.

Definition with_world (f : World -> World) (st : State) : State :=
  {| processManager := processManager st; serverStatus := serverStatus st;
     serverConfig := serverConfig st; serverPath := serverPath st;
     world := f (world st) |}.

Definition with_processes
  (f : gmap string ProcessInfo -> gmap string ProcessInfo) (st : State) : State :=
  {| processManager :=
       {| isWindows := isWindows (processManager st);
          isLinux := isLinux (processManager st);
          processes := f (processes (processManager st));
          logDir := logDir (processManager st) |};
     serverStatus := serverStatus st; serverConfig := serverConfig st;
     serverPath := serverPath st; world := world st |}.

Definition with_processManager (pm : ProcessManager) (st : State) : State :=
  {| processManager := pm; serverStatus := serverStatus st;
     serverConfig := serverConfig st; serverPath := serverPath st;
     world := world st |}.

Definition with_serverStatus (s : string) (st : State) : State :=
  {| processManager := processManager st; serverStatus := s;
     serverConfig := serverConfig st; serverPath := serverPath st;
     world := world st |}.

Definition with_fs (f : gmap path Entry -> gmap path Entry) (w : World) : World :=
  {| dirname := dirname w; fs := f (fs w); clock := clock w; ticks := ticks w;
     os_platform := os_platform w;
     os_spawn := os_spawn w; os_kill := os_kill w; os_probe := os_probe w;
     os_execSync := os_execSync w; os_write := os_write w; trace := trace w |}.

Definition with_trace (f : list Effect -> list Effect) (w : World) : World :=
  {| dirname := dirname w; fs := fs w; clock := clock w; ticks := ticks w;
     os_platform := os_platform w;
     os_spawn := os_spawn w; os_kill := os_kill w; os_probe := os_probe w;
     os_execSync := os_execSync w; os_write := os_write w; trace := f (trace w) |}.

Definition tick (w : World) : World :=
  {| dirname := dirname w; fs := fs w; clock := clock w; ticks := S (ticks w);
     os_platform := os_platform w;
     os_spawn := os_spawn w; os_kill := os_kill w; os_probe := os_probe w;
     os_execSync := os_execSync w; os_write := os_write w; trace := trace w |}.

(** ** The monad of JavaScript computations *)

(** How a call ends: with a value, with a thrown error (for an [async]
    function: a rejected promise), or without an answer in the model: the
    fuel given to a recursive method ran out, or an argument lies outside
    the range the model covers. *)
Inductive Completion (A : Type) :=
| Return (a : A)
| Throw (e : JsError)
| OutOfFuel.
Arguments Return {A} a.
Arguments Throw {A} e.
Arguments OutOfFuel {A}.

Definition M (A : Type) : Type := State -> Completion A * State.

Definition ret {A} (a : A) : M A := fun st => (Return a, st).

Definition throw {A} (e : JsError) : M A := fun st => (Throw e, st).

Definition bind {A B} (m : M A) (k : A -> M B) : M B :=
  fun st =>
    match m st with
    | (Return a, st') => k a st'
    | (Throw e, st') => (Throw e, st')
    | (OutOfFuel, st') => (OutOfFuel, st')
    end.

(** [try { body } catch (error) { handler }]: what [body] did before it
    threw stays done. *)
Definition try_catch {A} (body : M A) (handler : JsError -> M A) : M A :=
  fun st =>
    match body st with
    | (Throw e, st') => handler e st'
    | other => other
    end.

Definition gets {A} (f : State -> A) : M A := fun st => (Return (f st), st).

Definition modify (f : State -> State) : M unit := fun st => (Return tt, f st).

Notation "'let*' x ':=' m 'in' k" := (bind m (fun x => k))
  (at level 10, x name, m at level 100, k at level 200).

Fixpoint for_each {A} (items : list A) (body : A -> M unit) : M unit :=
  match items with
  | [] => ret tt
  | item :: rest => let* _ := body item in for_each rest body
  end.

Definition emit (e : Effect) : M unit :=
  modify (with_world (with_trace (fun t => t ++ [e]))).

(** ** Primitives: Node's library calls as computations *)

Definition new_Date : M Date :=
  fun st => (Return (clock (world st) (ticks (world st))), with_world tick st).

Definition Date_now : M Z := let* d := new_Date in ret (getTime d).

Definition existsSync (p : path) : M bool :=
  gets (fun st => Fs.exists_ (fs (world st)) p).

Definition fs_update (op : gmap path Entry -> option (gmap path Entry)) (failure : string)
  : M unit :=
  fun st =>
    match op (fs (world st)) with
    | Some fs' => (Return tt, with_world (with_fs (fun _ => fs')) st)
    | None => (Throw (Error failure), st)
    end.

Definition mkdirSync_recursive (p : path) : M unit :=
  fs_update (fun f => Fs.mkdir_recursive f p) ("EEXIST: file already exists, mkdir " +:+ render p).

Definition copyFileSync (src dst : path) : M unit :=
  fs_update (fun f => Fs.copy_file f src dst)
            ("copyfile " +:+ render src +:+ " -> " +:+ render dst).

Definition readdirSync (p : path) : M (list string) :=
  fun st =>
    match Fs.readdir (fs (world st)) p with
    | Some names => (Return names, st)
    | None => (Throw (Error ("ENOTDIR: not a directory, scandir " +:+ render p)), st)
    end.

Definition statSync (p : path) : M Entry :=
  fun st =>
    match fs (world st) !! p with
    | Some e => (Return e, st)
    | None => (Throw (Error ("ENOENT: no such file or directory, stat " +:+ render p)), st)
    end.

(** [fs.createWriteStream(p, { flags: 'a' })]; the stream is named by its file. *)
Definition createWriteStream (p : path) : M path :=
  let* _ := modify (with_world (with_fs (fun f => Fs.open_append f p))) in ret p.

(** [logStream.write(text)] *)
Definition file_write (stream : path) (text : string) : M unit :=
  modify (with_world (with_fs (fun f => Fs.append f stream text))).

(** [logStream.end()] *)
Definition file_end (stream : path) : M unit := ret tt.

(** [emitter.on(event, listener)] through a pipe that may be undefined. *)
Definition on_ (emitter : option Stream) : M unit :=
  match emitter with
  | Some _ => ret tt
  | None => throw (undefined_read "on")
  end.

(** [child.stdin.write(data)] *)
Definition pipe_write (pipe : option Stream) (data : string) : M unit :=
  match pipe with
  | None => throw (undefined_read "write")
  | Some fd =>
      fun st =>
        match os_write (world st) fd data with
        | Some e => (Throw e, st)
        | None => emit (EWrite fd data) st
        end
  end.

(** [spawn(command, args, options)]: the call is recorded, then the
    operating system answers. *)
Definition spawn (command : string) (args : list string) (options : SpawnOptions)
  : M ChildProcess :=
  let* _ := emit (ESpawn command args options) in
  fun st =>
    match os_spawn (world st) command args options with
    | SpawnThrows e => (Throw e, st)
    | Spawned child => (Return child, st)
    end.

(** [process.kill(target, signal)] *)
Definition process_kill (target : Z) (signal : string) : M unit :=
  fun st =>
    match os_kill (world st) target signal with
    | Some e => (Throw e, st)
    | None => emit (EKill target signal) st
    end.

Definition child_kill (child : ChildProcess) (signal : string) : M unit :=
  emit (EChildKill child signal).

(** [exec(command, callback)]: started and not awaited. *)
Definition exec (command : string) : M unit := emit (EExec command).

Definition execSync (command : string) : M string :=
  fun st =>
    match os_execSync (world st) command with
    | Some out => (Return out, st)
    | None => (Throw (Error ("Command failed: " +:+ command)), st)
    end.

Definition unref (child : ChildProcess) : M unit := emit (EUnref child).

Definition console_error (text : string) : M unit := emit (EConsoleError text).

(** [this.processes.get / set / delete] *)
Definition processes_get (name : string) : M (option ProcessInfo) :=
  gets (fun st => processes (processManager st) !! name).

Definition processes_set (name : string) (info : ProcessInfo) : M unit :=
  modify (with_processes (fun m => <[name := info]> m)).

Definition processes_delete (name : string) : M unit :=
  modify (with_processes (fun m => delete name m)).

(** Template-literal renderings of values that may be undefined or null. *)
Definition show_pid (p : option Z) : string :=
  match p with Some z => pretty z | None => "undefined" end.

Definition show_code (c : option Z) : string :=
  match c with Some z => pretty z | None => "null" end.

Definition show_signal (s : option string) : string :=
  match s with Some name => name | None => "null" end.

(** JavaScript truthiness of a pid. *)
Definition truthy_pid (p : option Z) : bool :=
  match p with Some z => negb (z =? 0) | None => false end.

(** ** [class ProcessManager] *)

(** [constructor()] *)
Definition ProcessManager_new : M unit :=
  let* platform := gets (fun st => os_platform (world st)) in
  let* here := gets (fun st => dirname (world st)) in
  let logDir := path_join here [".."; "logs"] in
  let* _ := modify (with_processManager
                      {| isWindows := bool_decide (platform = "win32");
                         isLinux := bool_decide (platform = "linux");
                         processes := ∅;
                         logDir := logDir |}) in
  let* found := existsSync logDir in
  if negb found then mkdirSync_recursive logDir else ret tt.

(** Aikar's flags: the block pushed when [useAikarFlags] is set. *)
Definition aikarFlags : list string :=
  [ "-XX:+UseG1GC";
    "-XX:+ParallelRefProcEnabled";
    "-XX:MaxGCPauseMillis=200";
    "-XX:+UnlockExperimentalVMOptions";
    "-XX:+DisableExplicitGC";
    "-XX:+AlwaysPreTouch";
    "-XX:G1NewSizePercent=30";
    "-XX:G1MaxNewSizePercent=40";
    "-XX:G1HeapRegionSize=8M";
    "-XX:G1ReservePercent=20";
    "-XX:G1HeapWastePercent=5";
    "-XX:G1MixedGCCountTarget=4";
    "-XX:InitiatingHeapOccupancyPercent=15";
    "-XX:G1MixedGCLiveThresholdPercent=90";
    "-XX:G1RSetUpdatingPauseTimePercent=5";
    "-XX:SurvivorRatio=32";
    "-XX:+PerfDisableSharedMem";
    "-XX:MaxTenuringThreshold=1" ].

(** [args.push(...items)] *)
Definition push (args items : list string) : list string := args ++ items.

(** "Build JVM arguments": the statements between the jar check and the
    log-file names, on the destructured locals. *)
Definition buildArgs (minMemory maxMemory : string) (useAikarFlags : bool)
    (jvmArgs : list string) (jarFile : string) (serverArgs : list string) : list string :=
  let args := [] in
  let args := push args ["-Xms" +:+ minMemory; "-Xmx" +:+ maxMemory] in
  let args := if useAikarFlags then push args aikarFlags else args in
  let args := push args jvmArgs in
  let args := push args ["-jar"; jarFile; "--nogui"] in
  let args := push args serverArgs in
  args.

(** What [startMinecraftServer] resolves with. *)
Record StartResult := {
  r_pid : option Z;
  r_startTime : Date;
  r_logFile : path;
  r_errorLogFile : path }.

Definition startMinecraftServer (config : Config) : M StartResult :=
  let* here := gets (fun st => dirname (world st)) in
  let jarFile := default "server.jar" (jarFile config) in
  let minMemory := default "1G" (minMemory config) in
  let maxMemory := default "2G" (maxMemory config) in
  let jvmArgs := default [] (jvmArgs config) in
  let serverArgs := default [] (serverArgs config) in
  let workingDir := default (path_join here [".."; "minecraft-server"]) (workingDir config) in
  let useAikarFlags := default false (useAikarFlags config) in
  (* Validate jar file exists *)
  let jarPath := path_join workingDir [jarFile] in
  let* found := existsSync jarPath in
  if negb found then throw (Error ("Server jar file not found: " +:+ render jarPath)) else
  let args := buildArgs minMemory maxMemory useAikarFlags jvmArgs jarFile serverArgs in
  (* Create log files *)
  let* now := new_Date in
  let timestamp := replace_colon_dot (toISOString now) in
  let* logDir := gets (fun st => logDir (processManager st)) in
  let logFile := path_join logDir ["minecraft-server-" +:+ timestamp +:+ ".log"] in
  let errorLogFile := path_join logDir ["minecraft-server-error-" +:+ timestamp +:+ ".log"] in
  let* isWindows := gets (fun st => isWindows (processManager st)) in
  let spawnOptions :=
    {| cwd := workingDir; detached := negb isWindows; windowsHide := isWindows |} in
  try_catch
    (let* child := spawn "java" args spawnOptions in
     let* startTime := new_Date in
     let processInfo :=
       {| pid := cp_pid child; startTime := startTime; config := config;
          logFile := logFile; errorLogFile := errorLogFile; process := child |} in
     let* _ := processes_set "minecraft-server" processInfo in
     (* Set up logging *)
     let* logStream := createWriteStream logFile in
     let* errorLogStream := createWriteStream errorLogFile in
     let* _ := on_ (cp_stdout child) in        (* child.stdout.on('data', ...) *)
     let* _ := on_ (cp_stderr child) in        (* child.stderr.on('data', ...) *)
     (* child.on('close', ...) and child.on('error', ...) only add listeners *)
     let* _ := if negb isWindows then unref child else ret tt in
     ret {| r_pid := cp_pid child; r_startTime := startTime;
            r_logFile := logFile; r_errorLogFile := errorLogFile |})
    (fun error => throw (Error ("Failed to start Minecraft server: " +:+ message error))).

(** The listeners attached by [startMinecraftServer]; [logStream] and
    [errorLogStream] are the streams its closure holds. *)
Definition stdout_data (logStream : path) (data : string) : M unit :=
  let* now := new_Date in
  let timestamp := toISOString now in
  let logLine := "[" +:+ timestamp +:+ "] " +:+ data in
  file_write logStream logLine.

Definition stderr_data (errorLogStream : path) (data : string) : M unit :=
  let* now := new_Date in
  let timestamp := toISOString now in
  let logLine := "[" +:+ timestamp +:+ "] " +:+ data in
  file_write errorLogStream logLine.

Definition child_close (logStream errorLogStream : path)
    (code : option Z) (signal : option string) : M unit :=
  let* now := new_Date in
  let timestamp := toISOString now in
  let logLine := "[" +:+ timestamp +:+ "] Process exited with code " +:+ show_code code
                 +:+ " and signal " +:+ show_signal signal +:+ nl in
  let* _ := file_write logStream logLine in
  let* _ := file_end logStream in
  let* _ := file_end errorLogStream in
  processes_delete "minecraft-server".

Definition child_error (errorLogStream : path) (error : JsError) : M unit :=
  let* now := new_Date in
  let timestamp := toISOString now in
  let logLine := "[" +:+ timestamp +:+ "] Process error: " +:+ message error +:+ nl in
  file_write errorLogStream logLine.

(** [killProcess(processName, signal = 'SIGKILL')] *)
Definition killProcess (processName : string) (signal : string) : M unit :=
  let* processInfo := processes_get processName in
  match processInfo with
  | None => throw (Error ("Process " +:+ processName +:+ " not found"))
  | Some processInfo =>
      let child := process processInfo in
      let pid := pid processInfo in
      try_catch
        (let* isWindows := gets (fun st => isWindows (processManager st)) in
         if isWindows then
           (* On Windows, use taskkill for force termination *)
           if bool_decide (signal = "SIGKILL")
           then exec ("taskkill /F /PID " +:+ show_pid pid)
           else child_kill child signal
         else
           (* On Unix systems, kill the process group *)
           if truthy_pid (cp_pid child)
           then process_kill (- default 0 (cp_pid child)) signal
           else ret tt)
        (fun error =>
           let* _ := console_error ("Failed to kill process " +:+ processName +:+ ":") in
           throw error)
  end.

(** *** Graceful stop *)

(** The promise a [stopProcess] call hands out, and the pieces of its
    closure that its two callbacks share. *)
Inductive Promise (A : Type) :=
| Pending
| Fulfilled (value : A)
| Rejected (reason : JsError).
Arguments Pending {A}.
Arguments Fulfilled {A} value.
Arguments Rejected {A} reason.

(** [resolve]/[reject]: only the first settlement counts. *)
Definition settle {A} (p outcome : Promise A) : Promise A :=
  match p with Pending => outcome | _ => p end.

Record ExitInfo := { code : option Z; signal : option string }.

Record StopCall := {
  stop_promise : Promise ExitInfo;
  stop_timer : bool }.                 (* [timeoutId] is still scheduled *)

(** [stopProcess(processName, timeout = 30000)] up to the point where it
    returns its promise: lookup, [setTimeout], [child.on('close')] and the
    shutdown request. An exception inside the executor rejects the promise. *)
Definition stopProcess (processName : string) (timeout : Z) : M StopCall :=
  let* processInfo := processes_get processName in
  match processInfo with
  | None => throw (Error ("Process " +:+ processName +:+ " not found"))
  | Some processInfo =>
      let child := process processInfo in
      let request :=
        (* Send graceful shutdown command for Minecraft server *)
        if bool_decide (processName = "minecraft-server")
        then try_catch (pipe_write (cp_stdin child) ("stop" +:+ nl))
                       (fun _ => killProcess processName "SIGTERM")
        else killProcess processName "SIGTERM" in
      fun st =>
        match request st with
        | (Return _, st') => (Return {| stop_promise := Pending; stop_timer := true |}, st')
        | (Throw e, st') => (Return {| stop_promise := Rejected e; stop_timer := true |}, st')
        | (OutOfFuel, st') => (OutOfFuel, st')
        end
  end.

(** Node's [TIMEOUT_MAX]: [setTimeout] keeps a delay from 1 to 2^31-1
    milliseconds as it is given and runs any other delay as 1 ms. *)
Definition TIMEOUT_MAX : Z := 2147483647.

(** The timeouts that the model covers, from 0 to [TIMEOUT_MAX]: for these
    the timer does not run out before the timeout is over, and
    [`${timeout}`] is the number in decimal digits. (A larger timeout runs
    out after 1 ms, and from 10^21 on a number prints with an exponent.) *)
Definition honoured (timeout : Z) : bool :=
  bool_decide (0 <= timeout <= TIMEOUT_MAX).

(** The [setTimeout] callback; for a timeout that is not [honoured] the
    model gives no answer. *)
Definition stop_timeout (processName : string) (timeout : Z) (call : StopCall) : M StopCall :=
  if honoured timeout
  then ret {| stop_promise :=
                settle (stop_promise call)
                       (Rejected (Error ("Process " +:+ processName +:+ " did not stop within "
                                         +:+ pretty timeout +:+ "ms")));
              stop_timer := false |}
  else fun st => (OutOfFuel, st).

(** The ['close'] listener added by [stopProcess]. *)
Definition stop_close (code : option Z) (signal : option string) (call : StopCall)
  : M StopCall :=
  (* clearTimeout(timeoutId); resolve({ code, signal }) *)
  ret {| stop_promise :=
           settle (stop_promise call) (Fulfilled {| code := code; signal := signal |});
         stop_timer := false |}.

(** [sendCommand(processName, command)] *)
Definition sendCommand (processName command : string) : M bool :=
  let* processInfo := processes_get processName in
  match processInfo with
  | None => throw (Error ("Process " +:+ processName +:+ " not found"))
  | Some processInfo =>
      let child := process processInfo in
      try_catch
        (let* _ := pipe_write (cp_stdin child) (command +:+ nl) in ret true)
        (fun error =>
           let* _ := console_error ("Failed to send command to " +:+ processName +:+ ":") in
           ret false)
  end.

(** *** Status and liveness *)

Definition dq : string := String (Ascii.ascii_of_nat 34) EmptyString.

(** [isProcessRunning(pid)] *)
Definition isProcessRunning (pid : option Z) : M bool :=
  try_catch
    (let* isWindows := gets (fun st => isWindows (processManager st)) in
     if isWindows then
       (* On Windows, use tasklist to check if process exists *)
       let* result := execSync ("tasklist /FI " +:+ dq +:+ "PID eq " +:+ show_pid pid +:+ dq) in
       match pid with
       | Some z => ret (includes result (pretty z))
       | None => throw (undefined_read "toString")
       end
     else
       (* On Unix systems, send signal 0 to check if process exists *)
       match pid with
       | Some z =>
           fun st =>
             match os_probe (world st) z with
             | Some e => (Throw e, st)
             | None => (Return true, st)
             end
       | None => throw (TypeError "The pid argument must be of type number")
       end)
    (fun _ => ret false).

(** The object [getProcessStatus] returns: [{ running: false }] alone, or
    all seven fields. *)
Inductive ProcessStatus :=
| NotTracked
| Tracked (running : bool) (pid : option Z) (startTime : Date) (uptime : Z)
          (config : Config) (logFile errorLogFile : path).

Definition running (s : ProcessStatus) : bool :=
  match s with
  | NotTracked => false
  | Tracked r _ _ _ _ _ _ => r
  end.

(** [getProcessStatus(processName)] *)
Definition getProcessStatus (processName : string) : M ProcessStatus :=
  let* processInfo := processes_get processName in
  match processInfo with
  | None => ret NotTracked
  | Some processInfo =>
      (* Check if process is still running *)
      let* isRunning := isProcessRunning (pid processInfo) in
      let* now := Date_now in
      ret (Tracked isRunning (pid processInfo) (startTime processInfo)
                   (now - getTime (startTime processInfo))
                   (config processInfo) (logFile processInfo) (errorLogFile processInfo))
  end.

(** [cleanup()]: "Clean up orphaned processes". *)
Definition cleanup : M unit :=
  let* entries := gets (fun st => map_to_list (processes (processManager st))) in
  for_each entries (fun entry =>
    let* alive := isProcessRunning (pid entry.2) in
    if negb alive then processes_delete entry.1 else ret tt).

(** *** Backups *)

(** [copyDirectory(source, destination)]; [fuel] bounds the nesting of
    recursive calls. *)
Fixpoint copyDirectory (fuel : nat) (source destination : path) : M unit :=
  match fuel with
  | O => fun st => (OutOfFuel, st)
  | S fuel' =>
      let* found := existsSync destination in
      let* _ := if negb found then mkdirSync_recursive destination else ret tt in
      let* items := readdirSync source in
      for_each items (fun item =>
        let sourcePath := path_join source [item] in
        let destPath := path_join destination [item] in
        let* stat := statSync sourcePath in
        if isDirectory stat
        then copyDirectory fuel' sourcePath destPath
        else copyFileSync sourcePath destPath)
  end.

Definition filesToBackup : list string :=
  [ "server.properties"; "whitelist.json"; "ops.json";
    "banned-players.json"; "banned-ips.json" ].

Record Backup := {
  backupPath : path;
  timestamp : string;
  files : list string }.

(** The loop over [filesToBackup]; returns [backedUpFiles]. *)
Fixpoint backup_files (workingDir backupPath : path) (todo backedUpFiles : list string)
  : M (list string) :=
  match todo with
  | [] => ret backedUpFiles
  | file :: rest =>
      let sourcePath := path_join workingDir [file] in
      let destPath := path_join backupPath [file] in
      let* found := existsSync sourcePath in
      let* backedUpFiles :=
        if found
        then let* _ := copyFileSync sourcePath destPath in ret (backedUpFiles ++ [file])
        else ret backedUpFiles in
      backup_files workingDir backupPath rest backedUpFiles
  end.

(** [createBackup(processName)] *)
Definition createBackup (fuel : nat) (processName : string) : M Backup :=
  let* processInfo := processes_get processName in
  match processInfo with
  | None => throw (Error ("Process " +:+ processName +:+ " not found"))
  | Some processInfo =>
      let config := config processInfo in
      let* here := gets (fun st => dirname (world st)) in
      (* config.workingDir || path.join(...): a path is never the empty
         string, so only a missing [workingDir] is falsy *)
      let workingDir :=
        default (path_join here [".."; "minecraft-server"]) (workingDir config) in
      let backupDir := path_join here [".."; "backups"] in
      let* found := existsSync backupDir in
      let* _ := if negb found then mkdirSync_recursive backupDir else ret tt in
      let* now := new_Date in
      let timestamp := replace_colon_dot (toISOString now) in
      let backupPath := path_join backupDir ["backup-" +:+ timestamp] in
      (* Create backup directory *)
      let* _ := mkdirSync_recursive backupPath in
      let* backedUpFiles := backup_files workingDir backupPath filesToBackup [] in
      (* Backup world directory if it exists *)
      let worldDir := path_join workingDir ["world"] in
      let* foundWorld := existsSync worldDir in
      let* backedUpFiles :=
        if foundWorld
        then let worldBackupDir := path_join backupPath ["world"] in
             let* _ := copyDirectory fuel worldDir worldBackupDir in
             ret (backedUpFiles ++ ["world/"])
        else ret backedUpFiles in
      ret {| backupPath := backupPath; timestamp := timestamp; files := backedUpFiles |}
  end.

(** ** The lifecycle routes of [server.js] *)

Inductive Json :=
| JString (s : string)
| JBool (b : bool)
| JNumber (z : Z)
| JUndefined.

(** [res.status(n).json({ ... })]; the status is 200 unless set. *)
Record Response := { res_status : nat; res_body : list (string * Json) }.

Definition json_pid (p : option Z) : Json :=
  match p with Some z => JNumber z | None => JUndefined end.

(** [broadcastToClients({ type: 'status', status, pid?, startTime? })] *)
Definition broadcastToClients (status : string) (pid : option (option Z)) : M unit :=
  emit (EBroadcast status pid).

(** [{ ...serverConfig, workingDir: CONFIG.serverPath }]: every key of
    [serverConfig] goes through, and [workingDir] comes last. *)
Definition launch_config (sc : ServerConfig) (serverPath : path) : Config :=
  {| jarFile := Some (sc_jarFile sc);
     minMemory := Some (sc_minMemory sc);
     maxMemory := Some (sc_maxMemory sc);
     jvmArgs := sc_jvmArgs sc;
     serverArgs := sc_serverArgs sc;
     workingDir := Some serverPath;
     useAikarFlags := Some (sc_useAikarFlags sc);
     customArgs := Some (sc_customArgs sc) |}.

(** [app.get('/api/server/status', ...)]; the body spreads the status
    object, of which the model keeps [running] and [pid]. *)
Definition api_server_status : M Response :=
  let* status := getProcessStatus "minecraft-server" in
  ret {| res_status := 200;
         res_body :=
           ("status", JString (if running status then "running" else "stopped"))
           :: ("running", JBool (running status))
           :: match status with
              | NotTracked => []
              | Tracked _ p _ _ _ _ _ => [("pid", json_pid p)]
              end |}.

(** [app.post('/api/server/start', ...)] *)
Definition api_server_start : M Response :=
  try_catch
    (let* status := getProcessStatus "minecraft-server" in
     if running status
     then ret {| res_status := 400;
                 res_body := [("error", JString "Server is already running")] |}
     else
       let* _ := modify (with_serverStatus "starting") in
       let* _ := broadcastToClients "starting" None in
       let* serverConfig := gets serverConfig in
       let* serverPath := gets serverPath in
       let* processInfo := startMinecraftServer (launch_config serverConfig serverPath) in
       let* _ := modify (with_serverStatus "running") in
       let* _ := broadcastToClients "running" (Some (r_pid processInfo)) in
       ret {| res_status := 200;
              res_body :=
                [ ("success", JBool true);
                  ("message", JString "Server started successfully");
                  ("pid", json_pid (r_pid processInfo));
                  ("startTime", JString (toISOString (r_startTime processInfo)));
                  ("logFile", JString (render (r_logFile processInfo)));
                  ("errorLogFile", JString (render (r_errorLogFile processInfo))) ] |})
    (fun error =>
       let* _ := modify (with_serverStatus "stopped") in
       let* _ := broadcastToClients "stopped" None in
       ret {| res_status := 500; res_body := [("error", JString (message error))] |}).

(** The callback that [app.post('/api/server/restart', ...)] hands to
    [setTimeout(..., 2000)]: it starts the server without looking at the
    status again. *)
Definition restart_timer : M unit :=
  try_catch
    (let* _ := modify (with_serverStatus "starting") in
     let* _ := broadcastToClients "starting" None in
     let* serverConfig := gets serverConfig in
     let* serverPath := gets serverPath in
     let* processInfo := startMinecraftServer (launch_config serverConfig serverPath) in
     let* _ := modify (with_serverStatus "running") in
     broadcastToClients "running" (Some (r_pid processInfo)))
    (fun error =>
       let* _ := modify (with_serverStatus "stopped") in
       broadcastToClients "stopped" None).

(** [app.post('/api/server/kill', ...)] *)
Definition api_server_kill : M Response :=
  try_catch
    (let* status := getProcessStatus "minecraft-server" in
     if negb (running status)
     then ret {| res_status := 400; res_body := [("error", JString "Server is not running")] |}
     else
       let* _ := killProcess "minecraft-server" "SIGKILL" in
       let* _ := modify (with_serverStatus "stopped") in
       let* _ := broadcastToClients "stopped" None in
       ret {| res_status := 200;
              res_body := [ ("success", JBool true);
                            ("message", JString "Server killed successfully") ] |})
    (fun error =>
       ret {| res_status := 500; res_body := [("error", JString (message error))] |}).

(** [app.post('/api/server/command', ...)]; [command] is [req.body.command]. *)
Definition api_server_command (command : option string) : M Response :=
  match command with
  | None | Some "" =>
      ret {| res_status := 400; res_body := [("error", JString "Command is required")] |}
  | Some command =>
      try_catch
        (let* success := sendCommand "minecraft-server" command in
         if success
         then ret {| res_status := 200;
                     res_body := [ ("success", JBool true);
                                   ("message", JString "Command sent successfully") ] |}
         else ret {| res_status := 500;
                     res_body := [("error", JString "Failed to send command")] |})
        (fun error =>
           ret {| res_status := 500; res_body := [("error", JString (message error))] |})
  end.

(** ** Concrete worlds for the examples *)

(** Clock readings one millisecond apart. *)
Definition example_clock (n : nat) : Date :=
  {| getTime := 1700000000000 + Z.of_nat n;
     toISOString := "2023-11-14T22:13:20.00" +:+ pretty n +:+ "Z" |}.

Definition example_dirs : list (path * Entry) :=
  [ ([], Directory);
    (["srv"], Directory);
    (["srv"; "wrapper"], Directory);
    (["srv"; "wrapper"; "scripts"], Directory);
    (["srv"; "wrapper"; "logs"], Directory);
    (["srv"; "wrapper"; "minecraft-server"], Directory) ].

Definition example_server_files : list (path * Entry) :=
  [ (["srv"; "wrapper"; "minecraft-server"; "server.jar"], File "PK-jar");
    (["srv"; "wrapper"; "minecraft-server"; "server.properties"], File "motd=Sprout");
    (["srv"; "wrapper"; "minecraft-server"; "ops.json"], File "[]");
    (["srv"; "wrapper"; "minecraft-server"; "world"], Directory);
    (["srv"; "wrapper"; "minecraft-server"; "world"; "level.dat"], File "level");
    (["srv"; "wrapper"; "minecraft-server"; "world"; "region"], Directory);
    (["srv"; "wrapper"; "minecraft-server"; "world"; "region"; "r.0.0.mca"], File "chunks") ].

(** A healthy child: pid 4242 and three pipes. *)
Definition example_child : ChildProcess :=
  {| cp_pid := Some 4242; cp_stdin := Some 10%N; cp_stdout := Some 11%N;
     cp_stderr := Some 12%N |}.

(** A child that could not be spawned and got no pipes, as Node hands it
    out when the process table or the descriptor table is full. *)
Definition unspawned_child : ChildProcess :=
  {| cp_pid := None; cp_stdin := None; cp_stdout := None; cp_stderr := None |}.

(** A child whose spawn failed after the pipes were set up (for instance
    [java] is not on the PATH): the failure arrives later as an ['error']
    event. *)
Definition failed_child : ChildProcess :=
  {| cp_pid := None; cp_stdin := Some 10%N; cp_stdout := Some 11%N;
     cp_stderr := Some 12%N |}.

(** A world in which [spawn] answers with [child] and exactly the pids in
    [live] exist. *)
Definition example_world (platform : string) (files : list (path * Entry))
    (child : SpawnOutcome) (live : list Z) : World :=
  {| dirname := ["srv"; "wrapper"; "scripts"];
     fs := list_to_map (example_dirs ++ files);
     clock := example_clock;
     ticks := 0;
     os_platform := platform;
     os_spawn := fun _ _ _ => child;
     os_kill := fun target _ =>
       if bool_decide (Z.abs target ∈ live) then None else Some (Error "kill ESRCH");
     os_probe := fun p =>
       if bool_decide (p ∈ live) then None else Some (Error "kill ESRCH");
     os_execSync := fun command =>
       Some (if existsb (fun p => includes command ("PID eq " +:+ pretty p +:+ dq)) live
             then "java.exe " +:+ String.concat " " (pretty <$> live) +:+ " Console"
             else "INFO: No tasks are running which match the specified criteria.");
     os_write := fun _ _ => None;
     trace := [] |}.

(** [server.js] right after its module body ran on a host without a
    saved [config.json]: the constructor has run, nothing is tracked. *)
Definition boot (w : World) : State :=
  (ProcessManager_new
     {| processManager :=
          {| isWindows := false; isLinux := false; processes := ∅; logDir := [] |};
        serverStatus := "stopped";
        serverConfig :=
          {| sc_jarFile := "server.jar"; sc_minMemory := "1G"; sc_maxMemory := "2G";
             sc_useAikarFlags := true; sc_customArgs := "";
             sc_jvmArgs := None; sc_serverArgs := None |};
        serverPath := ["srv"; "wrapper"; "minecraft-server"];
        world := w |}).2.

(** The state reached when [m] is run from [st]. *)
Definition after {A} (m : M A) (st : State) : State := (m st).2.

(** ** Vocabulary of the specification *)

(** The launch config with no field given. *)
Definition empty_config : Config :=
  {| jarFile := None; minMemory := None; maxMemory := None; jvmArgs := None;
     serverArgs := None; workingDir := None; useAikarFlags := None; customArgs := None |}.

(** The specification's reading of an omitted field: the config in which
    every launch field is supplied, the omitted ones with the fixed values
    the specification lists. [here] is the directory of the module. *)
Definition with_defaults (here : path) (config : Config) : Config :=
  {| jarFile := Some (default "server.jar" (jarFile config));
     minMemory := Some (default "1G" (minMemory config));
     maxMemory := Some (default "2G" (maxMemory config));
     jvmArgs := Some (default [] (jvmArgs config));
     serverArgs := Some (default [] (serverArgs config));
     workingDir := Some (default (removelast here ++ ["minecraft-server"]) (workingDir config));
     useAikarFlags := Some (default false (useAikarFlags config));
     customArgs := customArgs config |}.

(** The Descriptor with its stored [config] replaced. *)
Definition set_config (c : Config) (info : ProcessInfo) : ProcessInfo :=
  {| pid := pid info; startTime := startTime info; config := c;
     logFile := logFile info; errorLogFile := errorLogFile info;
     process := process info |}.

(** The argument vector in the order the specification gives. *)
Definition argument_vector (config : Config) : list string :=
  ["-Xms" +:+ default "1G" (minMemory config); "-Xmx" +:+ default "2G" (maxMemory config)]
  ++ (if default false (useAikarFlags config) then aikarFlags else [])
  ++ default [] (jvmArgs config)
  ++ ["-jar"; default "server.jar" (jarFile config); "--nogui"]
  ++ default [] (serverArgs config).

(** The jar that [startMinecraftServer] looks for. *)
Definition jar_path (here : path) (config : Config) : path :=
  path_join (default (path_join here [".."; "minecraft-server"]) (workingDir config))
            [default "server.jar" (jarFile config)].

(** The answer of the liveness probe in a given state. *)
Definition alive (st : State) (p : option Z) : bool :=
  match (isProcessRunning p st).1 with
  | Return b => b
  | _ => false
  end.

(** What one round of the [cleanup] loop does to the registry. *)
Definition cleanup_step (st : State) (m : gmap string ProcessInfo)
    (entry : string * ProcessInfo) : gmap string ProcessInfo :=
  if alive st (pid entry.2) then m else delete entry.1 m.

(** The specification's "the process and its entire process group/tree":
    a signal addressed to the group of [p] (negative target), or a
    [taskkill] of [p] with the tree switch [/T]. *)
Definition kills_tree (p : Z) (e : Effect) : bool :=
  match e with
  | EKill target _ => bool_decide (target = - p)
  | EExec command => includes command ("/PID " +:+ pretty p) && includes command "/T"
  | _ => false
  end.

(** The effects [m] adds to the trace of [st]. *)
Definition effects_of {A} (m : M A) (st : State) : list Effect :=
  drop (length (trace (world st))) (trace (world (after m st))).

(** What a log holds after the chunks arrived one ['data'] event each,
    the first one stamped with reading [n] of the clock. *)
Fixpoint stamped_chunks (clock : nat -> Date) (n : nat) (chunks : list string) : string :=
  match chunks with
  | [] => ""
  | chunk :: rest =>
      "[" +:+ toISOString (clock n) +:+ "] " +:+ chunk +:+ stamped_chunks clock (S n) rest
  end.

(** A log line carries a capture prefix. *)
Definition has_capture_prefix (line : string) : Prop :=
  exists ts, String.prefix ("[" +:+ ts +:+ "] ") line = true.

(** *** The event loop around one [stopProcess] call *)

Inductive Event :=
| TimerExpires
| ChildCloses (code : option Z) (signal : option string).

(** One event reaches the listeners: an expired timer runs its callback
    unless [clearTimeout] came first; a closing child runs the ['close']
    listener of [startMinecraftServer], then the one of [stopProcess]. *)
Definition deliver (info : ProcessInfo) (processName : string) (timeout : Z)
    (ev : Event) (call : StopCall) : M StopCall :=
  match ev with
  | TimerExpires =>
      if stop_timer call then stop_timeout processName timeout call else ret call
  | ChildCloses code signal =>
      let* _ := child_close (logFile info) (errorLogFile info) code signal in
      stop_close code signal call
  end.

Fixpoint deliver_all (info : ProcessInfo) (processName : string) (timeout : Z)
    (events : list Event) (call : StopCall) : M StopCall :=
  match events with
  | [] => ret call
  | ev :: rest =>
      let* call := deliver info processName timeout ev call in
      deliver_all info processName timeout rest call
  end.

(** [await stopProcess(processName, timeout)] while [events] happen in
    this order; answers the state of the promise afterwards. *)
Definition stop_and_wait (processName : string) (timeout : Z) (events : list Event)
  : M (Promise ExitInfo) :=
  let* processInfo := processes_get processName in
  let* call := stopProcess processName timeout in
  match processInfo with
  | None => ret (stop_promise call)
  | Some info =>
      let* call := deliver_all info processName timeout events call in
      ret (stop_promise call)
  end.

(** The shutdown request of a [stopProcess] call went out and its promise
    is pending. *)
Definition stop_pending (processName : string) (timeout : Z) (st : State) : bool :=
  match (stopProcess processName timeout st).1 with
  | Return call => match stop_promise call with Pending => true | _ => false end
  | _ => false
  end.

(** *** Conditions on the file system, as checks that can be run *)

(** The state [st] with its file system replaced. *)
Definition set_fs (f : gmap path Entry) (st : State) : State :=
  with_world (with_fs (fun _ => f)) st.

(** Below [dir], every entry sits in a directory and no name is [".."]. *)
Definition tree_ok (f : gmap path Entry) (dir : path) : bool :=
  forallb
    (fun kv =>
       match Fs.below dir kv.1 with
       | Some q =>
           negb (bool_decide (".." ∈ q))
           && match q with
              | [] => true
              | _ => match f !! (dir ++ removelast q) with
                     | Some Directory => true
                     | _ => false
                     end
              end
       | None => true
       end)
    (map_to_list f).

(** Every entry below [dir] is fewer than [n] levels down. *)
Definition depth_below (f : gmap path Entry) (dir : path) (n : nat) : bool :=
  forallb
    (fun kv =>
       match Fs.below dir kv.1 with
       | Some q => bool_decide (length q < n)%nat
       | None => true
       end)
    (map_to_list f).

(** Nothing exists at or below [dir]. *)
Definition fresh (f : gmap path Entry) (dir : path) : bool :=
  forallb
    (fun kv => match Fs.below dir kv.1 with Some _ => false | None => true end)
    (map_to_list f).

(** No regular file stands at [p] or at one of its ancestors. *)
Definition no_file_on_the_way (f : gmap path Entry) (p : path) : bool :=
  forallb
    (fun k => match f !! take k p with Some (File _) => false | _ => true end)
    (seq 0 (S (length p))).

(** Neither path lies at or below the other. *)
Definition apart (a b : path) : bool :=
  match Fs.below a b, Fs.below b a with
  | None, None => true
  | _, _ => false
  end.

(** None of the names is a directory inside [dir]. *)
Definition no_directory_among (f : gmap path Entry) (dir : path) (names : list string) : bool :=
  forallb
    (fun name => match f !! (dir ++ [name]) with Some Directory => false | _ => true end)
    names.

(** [p] is a directory or does not exist. *)
Definition not_a_file (f : gmap path Entry) (p : path) : bool :=
  match f !! p with Some (File _) => false | _ => true end.

(** What [copyDirectory] needs of the file system: the source is a
    well-formed directory tree less than [fuel] levels deep, source and
    destination lie apart, nothing exists at the destination and all of its
    ancestors are directories. *)
Definition copy_ready (f : gmap path Entry) (src dst : path) (fuel : nat) : Prop :=
  f !! src = Some Directory
  /\ (forall q e, f !! (src ++ q) = Some e ->
        (".." ∉ q) /\ (q <> [] -> f !! (src ++ removelast q) = Some Directory))
  /\ (forall q, is_Some (f !! (src ++ q)) -> (length q < fuel)%nat)
  /\ ~ (src `prefix_of` dst)
  /\ ~ (dst `prefix_of` src)
  /\ (forall q, f !! (dst ++ q) = None)
  /\ (forall q, q `prefix_of` dst -> q <> dst -> f !! q = Some Directory).

(** [f'] is [f] with the tree at [src] copied to [dst]. *)
Definition copied (f f' : gmap path Entry) (src dst : path) : Prop :=
  (forall q, f' !! (dst ++ q) = f !! (src ++ q))
  /\ (forall p, ~ (dst `prefix_of` p) -> f' !! p = f !! p).

(** The directory a backup of [info] reads from, and the one that a
    backup started in [st] writes to. *)
Definition backup_source (st : State) (info : ProcessInfo) : path :=
  default (removelast (dirname (world st)) ++ ["minecraft-server"])
          (workingDir (config info)).

Definition backup_stamp (st : State) : string :=
  replace_colon_dot (toISOString (clock (world st) (ticks (world st)))).

Definition backup_target (st : State) : path :=
  removelast (dirname (world st)) ++ ["backups"; "backup-" +:+ backup_stamp st].

(** Every error that [m] can throw satisfies [P]. *)
Definition raises {A} (P : JsError -> Prop) (m : M A) : Prop :=
  forall st e, (m st).1 = Throw e -> P e.

(** An error of the file system: its message starts with the name of the
    failing call or with an error code, not with "Process". *)
Definition file_error (e : JsError) : Prop :=
  match message e with
  | String c _ => c <> "P"%char
  | EmptyString => True
  end.

(** The list of names [createBackup] reports. *)
Definition backed_up (f : gmap path Entry) (dir : path) : list string :=
  filter (fun name => Fs.exists_ f (dir ++ [name]) = true) filesToBackup
  ++ (if Fs.exists_ f (dir ++ ["world"]) then ["world/"] else []).

(** ** Example states *)

(** A Unix host with the server files in place and a healthy [java]. *)
Definition unix_boot : State :=
  boot (example_world "linux" example_server_files (Spawned example_child) [4242]).

(** A launch config that spells out some fields and omits others. *)
Definition example_config : Config :=
  {| jarFile := Some "server.jar"; minMemory := Some "2G"; maxMemory := None;
     jvmArgs := Some ["-Dfile.encoding=UTF-8"]; serverArgs := Some ["--port"; "25566"];
     workingDir := None; useAikarFlags := Some true; customArgs := None |}.

(** The same world once every supervised process is gone. *)
Definition gone (w : World) : World :=
  {| dirname := dirname w; fs := fs w; clock := clock w; ticks := ticks w;
     os_platform := os_platform w; os_spawn := os_spawn w;
     os_kill := fun _ _ => Some (Error "kill ESRCH");
     os_probe := fun _ => Some (Error "kill ESRCH");
     os_execSync := fun _ =>
       Some "INFO: No tasks are running which match the specified criteria.";
     os_write := os_write w; trace := trace w |}.

(** The server is up: [POST /api/server/start] went through. *)
Definition unix_running : State := after api_server_start unix_boot.

(** The child died behind the supervisor's back and its ['close'] event
    has not been delivered. *)
Definition unix_crashed : State := with_world gone unix_running.

(** The operator killed the server through [POST /api/server/kill]; the
    process is gone, its ['close'] event has not been delivered. *)
Definition unix_killed : State := with_world gone (after api_server_kill unix_running).

(** The child ran to its end and its ['close'] listener has run. *)
Definition unix_exited : State :=
  after (child_close
           ["srv"; "wrapper"; "logs"; "minecraft-server-2023-11-14T22-13-20-000Z.log"]
           ["srv"; "wrapper"; "logs"; "minecraft-server-error-2023-11-14T22-13-20-000Z.log"]
           (Some 0) None)
        unix_crashed.



(** A Windows host with the server up. *)
Definition windows_running : State :=
  after api_server_start
        (boot (example_world "win32" example_server_files (Spawned example_child) [4242])).

(** Hosts on which [java] cannot be spawned. *)
Definition exhausted_boot : State :=
  boot (example_world "linux" example_server_files (Spawned unspawned_child) []).

Definition no_java_boot : State :=
  boot (example_world "linux" example_server_files (Spawned failed_child) []).

(** The crashed server on a host where [whitelist.json] is a directory. *)
Definition unix_crashed_odd : State :=
  with_world
    (with_fs (fun f => <[["srv"; "wrapper"; "minecraft-server"; "whitelist.json"] := Directory]> f))
    unix_crashed.

(** The Descriptor that [unix_running] holds. *)
Definition example_info : ProcessInfo :=
  {| pid := Some 4242;
     startTime := example_clock 1;
     config := launch_config (serverConfig unix_boot) (serverPath unix_boot);
     logFile := ["srv"; "wrapper"; "logs"; "minecraft-server-2023-11-14T22-13-20-000Z.log"];
     errorLogFile :=
       ["srv"; "wrapper"; "logs"; "minecraft-server-error-2023-11-14T22-13-20-000Z.log"];
     process := example_child |}.

(** * Further parts of the program *)

(** ** More of [class ProcessManager] *)

(** [getAllProcesses()]; the result object as a map from names to statuses. *)
Fixpoint getAllProcesses_loop (entries : list (string * ProcessInfo))
    (result : gmap string ProcessStatus) : M (gmap string ProcessStatus) :=
  match entries with
  | [] => ret result
  | entry :: rest =>
      let* status := getProcessStatus entry.1 in
      getAllProcesses_loop rest (<[entry.1 := status]> result)
  end.

Definition getAllProcesses : M (gmap string ProcessStatus) :=
  let* entries := gets (fun st => map_to_list (processes (processManager st))) in
  getAllProcesses_loop entries ∅.

(** ** What a computation leaves alone *)

(** Every run of [m] takes a state to one that [R] relates it to, whether
    [m] returns, throws or runs out of fuel. *)
Definition respects {A : Type} (R : relation State) (m : M A) : Prop :=
  forall st, R st (m st).2.

(** The part [proj] of the state is handed on as it was found. *)
Definition same {X : Type} (proj : State -> X) : relation State :=
  fun st st' => proj st' = proj st.

Definition disk (st : State) : gmap path Entry := fs (world st).

Definition sent (st : State) : list Effect := trace (world st).

(** No name other than ["minecraft-server"] enters the registry. *)
Definition no_other_name : relation State :=
  fun st st' =>
    forall name, name <> "minecraft-server" ->
      processes (processManager st) !! name = None ->
      processes (processManager st') !! name = None.

(** ** The listeners of a started child *)

(** What [startMinecraftServer] hands to [child.stdout.on('data', ...)],
    [child.stderr.on('data', ...)], [child.on('close', ...)] and
    [child.on('error', ...)]. *)
Record Listeners := {
  on_stdout_data : string -> M unit;
  on_stderr_data : string -> M unit;
  on_close : option Z -> option string -> M unit;
  on_error : JsError -> M unit }.

(** [startMinecraftServer] once more, statement for statement, keeping the
    four listeners it attaches: each is the function above its [on] call in
    the source, closed over the streams opened just before. *)
Definition startMinecraftServer_listeners (config : Config) : M (StartResult * Listeners) :=
  let* here := gets (fun st => dirname (world st)) in
  let jarFile := default "server.jar" (jarFile config) in
  let minMemory := default "1G" (minMemory config) in
  let maxMemory := default "2G" (maxMemory config) in
  let jvmArgs := default [] (jvmArgs config) in
  let serverArgs := default [] (serverArgs config) in
  let workingDir := default (path_join here [".."; "minecraft-server"]) (workingDir config) in
  let useAikarFlags := default false (useAikarFlags config) in
  let jarPath := path_join workingDir [jarFile] in
  let* found := existsSync jarPath in
  if negb found then throw (Error ("Server jar file not found: " +:+ render jarPath)) else
  let args := buildArgs minMemory maxMemory useAikarFlags jvmArgs jarFile serverArgs in
  let* now := new_Date in
  let timestamp := replace_colon_dot (toISOString now) in
  let* logDir := gets (fun st => logDir (processManager st)) in
  let logFile := path_join logDir ["minecraft-server-" +:+ timestamp +:+ ".log"] in
  let errorLogFile := path_join logDir ["minecraft-server-error-" +:+ timestamp +:+ ".log"] in
  let* isWindows := gets (fun st => isWindows (processManager st)) in
  let spawnOptions :=
    {| cwd := workingDir; detached := negb isWindows; windowsHide := isWindows |} in
  try_catch
    (let* child := spawn "java" args spawnOptions in
     let* startTime := new_Date in
     let processInfo :=
       {| pid := cp_pid child; startTime := startTime; config := config;
          logFile := logFile; errorLogFile := errorLogFile; process := child |} in
     let* _ := processes_set "minecraft-server" processInfo in
     let* logStream := createWriteStream logFile in
     let* errorLogStream := createWriteStream errorLogFile in
     let* _ := on_ (cp_stdout child) in
     let onStdoutData := stdout_data logStream in
     let* _ := on_ (cp_stderr child) in
     let onStderrData := stderr_data errorLogStream in
     let onClose := child_close logStream errorLogStream in
     let onError := child_error errorLogStream in
     let* _ := if negb isWindows then unref child else ret tt in
     ret ({| r_pid := cp_pid child; r_startTime := startTime;
             r_logFile := logFile; r_errorLogFile := errorLogFile |},
          {| on_stdout_data := onStdoutData; on_stderr_data := onStderrData;
             on_close := onClose; on_error := onError |}))
    (fun error => throw (Error ("Failed to start Minecraft server: " +:+ message error))).

(** ** One more check on the file system *)

(** Every proper ancestor of [p] is a directory. *)
Definition under_directories (f : gmap path Entry) (p : path) : bool :=
  forallb
    (fun k => match f !! take k p with Some Directory => true | _ => false end)
    (seq 0 (length p)).

(** ** The stop and restart routes of [server.js] *)

(** [await promise]: the value of a fulfilled promise; the reason of a
    rejected one, thrown; no answer while the promise is pending. *)
Definition await {A : Type} (m : M (Promise A)) : M A :=
  let* p := m in
  match p with
  | Fulfilled value => ret value
  | Rejected reason => throw reason
  | Pending => fun st => (OutOfFuel, st)
  end.

(** What the stop route sends: [res.status(n).json({ error })], or
    [res.json({ success: true, message: 'Server stopped successfully',
    exitCode: result.code, signal: result.signal })]. *)
Inductive StopAnswer :=
| StopRefused (status : nat) (error : string)
| StopDone (exitCode : option Z) (signal : option string).

(** [app.post('/api/server/stop', ...)], with the [events] that happen
    while the handler awaits [stopProcess]. *)
Definition api_server_stop (events : list Event) : M StopAnswer :=
  try_catch
    (let* status := getProcessStatus "minecraft-server" in
     if negb (running status)
     then ret (StopRefused 400 "Server is not running")
     else
       let* _ := modify (with_serverStatus "stopping") in
       let* _ := broadcastToClients "stopping" None in
       let* result := await (stop_and_wait "minecraft-server" 30000 events) in
       let* _ := modify (with_serverStatus "stopped") in
       let* _ := broadcastToClients "stopped" None in
       ret (StopDone (code result) (signal result)))
    (fun error => ret (StopRefused 500 (message error))).

(** [app.post('/api/server/restart', ...)]: the response, and whether the
    handler got as far as [setTimeout(..., 2000)], whose callback is
    [restart_timer]. *)
Definition api_server_restart (events : list Event) : M (Response * bool) :=
  try_catch
    (let* status := getProcessStatus "minecraft-server" in
     let* _ :=
       if running status
       then
         let* _ := modify (with_serverStatus "stopping") in
         let* _ := broadcastToClients "stopping" None in
         let* _ := await (stop_and_wait "minecraft-server" 30000 events) in
         ret tt
       else ret tt in
     (* Wait a moment before starting *)
     ret ({| res_status := 200;
             res_body := [ ("success", JBool true);
                           ("message", JString "Server restart initiated") ] |}, true))
    (fun error =>
       let* _ := modify (with_serverStatus "stopped") in
       let* _ := broadcastToClients "stopped" None in
       ret ({| res_status := 500; res_body := [("error", JString (message error))] |}, false)).

(** The restart request followed, when it was scheduled, by its timer. *)
Definition restart_and_wait (events : list Event) : M Response :=
  let* answer := api_server_restart events in
  let* _ := if answer.2 then restart_timer else ret tt in
  ret answer.1.

(** ** Vocabulary for the routes *)

(** What the status route would report as [running]. *)
Definition server_running (st : State) : bool :=
  match (getProcessStatus "minecraft-server" st).1 with
  | Return status => running status
  | _ => false
  end.

(** The server directory has lost its jar. *)
Definition unix_no_jar : State :=
  set_fs (delete ["srv"; "wrapper"; "minecraft-server"; "server.jar"] (fs (world unix_boot)))
         unix_boot.

(** ** Sessions *)

(** What the handlers keep in [req.session]. *)
Record Session := { authenticated : bool; username : option string }.

(** The session of a client that has not logged in, or whose session was
    destroyed. *)
Definition new_session : Session := {| authenticated := false; username := None |}.

(** [CONFIG.defaultUsername] and [CONFIG.defaultPassword] *)
Definition defaultUsername : string := "admin".
Definition defaultPassword : string := "admin123".

(** [app.post('/api/login', ...)]; [username] and [password] are the
    fields of [req.body], which only compare equal to a string when they
    are strings. *)
Definition api_login (username password : option string) (session : Session)
  : Response * Session :=
  if bool_decide (username = Some defaultUsername)
     && bool_decide (password = Some defaultPassword)
  then ({| res_status := 200;
           res_body := [("success", JBool true); ("message", JString "Login successful")] |},
        {| authenticated := true; username := username |})
  else ({| res_status := 401; res_body := [("error", JString "Invalid credentials")] |},
        session).

(** [app.post('/api/logout', ...)] *)
Definition api_logout (session : Session) : Response * Session :=
  ({| res_status := 200;
      res_body := [("success", JBool true); ("message", JString "Logged out successfully")] |},
   new_session).

(** [requireAuth] in front of the handler [next]. *)
Definition requireAuth {A : Type} (session : Session) (next : M A) : M (Response + A) :=
  if authenticated session
  then let* answer := next in ret (inr answer)
  else ret (inl {| res_status := 401;
                   res_body := [("error", JString "Authentication required")] |}).

(** ** The configuration route *)

Definition with_serverConfig (sc : ServerConfig) (st : State) : State :=
  {| processManager := processManager st; serverStatus := serverStatus st;
     serverConfig := sc; serverPath := serverPath st; world := world st |}.

(** The fields of [req.body] that [POST /api/config] reads, each absent
    or of the type the config gives it. *)
Record ConfigBody := {
  b_jarFile : option string;
  b_minMemory : option string;
  b_maxMemory : option string;
  b_useAikarFlags : option bool;
  b_customArgs : option string }.

(** [value || fallback] for a string that may be undefined. *)
Definition or_else (value : option string) (fallback : string) : string :=
  match value with
  | None => fallback
  | Some EmptyString => fallback
  | Some s => s
  end.

(** [fs.writeFileSync]: the directory must exist and the target must not
    be a directory. *)
Definition write_file (f : gmap path Entry) (p : path) (data : string)
  : option (gmap path Entry) :=
  match f !! removelast p, f !! p with
  | Some Directory, Some Directory => None
  | Some Directory, _ => Some (<[p := File data]> f)
  | _, _ => None
  end.

(** [fs.writeJsonSync(p, value)] of fs-extra, for a rendering [stringify]
    of the value. *)
Definition writeJsonSync {A : Type} (stringify : A -> string) (p : path) (value : A)
  : M unit :=
  fs_update (fun f => write_file f p (stringify value +:+ nl))
            ("ENOENT: no such file or directory, open " +:+ render p).

(** [app.get('/api/config', ...)] *)
Definition api_config_get : M ServerConfig := gets serverConfig.

(** [app.post('/api/config', ...)]; the object it assigns to
    [serverConfig] has the five keys written out in the route and no
    other. *)
Definition api_config_post (stringify : ServerConfig -> string) (body : ConfigBody)
  : M Response :=
  let* current := gets serverConfig in
  let updated :=
    {| sc_jarFile := or_else (b_jarFile body) (sc_jarFile current);
       sc_minMemory := or_else (b_minMemory body) (sc_minMemory current);
       sc_maxMemory := or_else (b_maxMemory body) (sc_maxMemory current);
       sc_useAikarFlags :=
         match b_useAikarFlags body with
         | Some flag => flag
         | None => sc_useAikarFlags current
         end;
       sc_customArgs := or_else (b_customArgs body) (sc_customArgs current);
       sc_jvmArgs := None;
       sc_serverArgs := None |} in
  let* _ := modify (with_serverConfig updated) in
  (* Save config to file *)
  let* here := gets (fun st => dirname (world st)) in
  let* _ := writeJsonSync stringify (path_join here [".."; "config.json"]) updated in
  ret {| res_status := 200;
         res_body := [("success", JBool true); ("message", JString "Configuration updated")] |}.

(** A body without any field. *)
Definition empty_body : ConfigBody :=
  {| b_jarFile := None; b_minMemory := None; b_maxMemory := None;
     b_useAikarFlags := None; b_customArgs := None |}.

(** The five keys of a config, without [jvmArgs] and [serverArgs]. *)
Definition five_keys (sc : ServerConfig) : ServerConfig :=
  {| sc_jarFile := sc_jarFile sc; sc_minMemory := sc_minMemory sc;
     sc_maxMemory := sc_maxMemory sc; sc_useAikarFlags := sc_useAikarFlags sc;
     sc_customArgs := sc_customArgs sc; sc_jvmArgs := None; sc_serverArgs := None |}.

(** The config that [body] asks for, read field by field: a config of
    five keys. *)
Definition requested (body : ConfigBody) (sc : ServerConfig) : ServerConfig :=
  {| sc_jarFile := default (sc_jarFile sc) (b_jarFile body);
     sc_minMemory := default (sc_minMemory sc) (b_minMemory body);
     sc_maxMemory := default (sc_maxMemory sc) (b_maxMemory body);
     sc_useAikarFlags := default (sc_useAikarFlags sc) (b_useAikarFlags body);
     sc_customArgs := default (sc_customArgs sc) (b_customArgs body);
     sc_jvmArgs := None;
     sc_serverArgs := None |}.

(** [sc] with its [customArgs] replaced. *)
Definition with_customArgs (args : string) (sc : ServerConfig) : ServerConfig :=
  {| sc_jarFile := sc_jarFile sc; sc_minMemory := sc_minMemory sc;
     sc_maxMemory := sc_maxMemory sc; sc_useAikarFlags := sc_useAikarFlags sc;
     sc_customArgs := args; sc_jvmArgs := sc_jvmArgs sc; sc_serverArgs := sc_serverArgs sc |}.

(** The config of the example host after a [config.json] edited by hand
    was merged in. *)
Definition edited_config : ServerConfig :=
  {| sc_jarFile := "server.jar"; sc_minMemory := "1G"; sc_maxMemory := "2G";
     sc_useAikarFlags := false; sc_customArgs := "--forceUpgrade";
     sc_jvmArgs := Some ["-Dfile.encoding=UTF-8"]; sc_serverArgs := Some ["--port"; "25566"] |}.

(** No string field of [body] is the empty string. *)
Definition no_empty_field (body : ConfigBody) : bool :=
  negb (bool_decide (b_jarFile body = Some EmptyString))
  && negb (bool_decide (b_minMemory body = Some EmptyString))
  && negb (bool_decide (b_maxMemory body = Some EmptyString))
  && negb (bool_decide (b_customArgs body = Some EmptyString)).

(** The config file can be written. *)
Definition config_writable (st : State) : bool :=
  match write_file (fs (world st)) (path_join (dirname (world st)) [".."; "config.json"])
                   EmptyString with
  | Some _ => true
  | None => false
  end.

(** [body] with its [customArgs] field replaced. *)
Definition set_customArgs (value : option string) (body : ConfigBody) : ConfigBody :=
  {| b_jarFile := b_jarFile body; b_minMemory := b_minMemory body;
     b_maxMemory := b_maxMemory body; b_useAikarFlags := b_useAikarFlags body;
     b_customArgs := value |}.

(** A rendering of the config, for the examples. *)
Definition example_stringify (sc : ServerConfig) : string :=
  sc_jarFile sc +:+ " " +:+ sc_minMemory sc +:+ " " +:+ sc_maxMemory sc +:+ " "
  +:+ (if sc_useAikarFlags sc then "true" else "false") +:+ " " +:+ sc_customArgs sc.

Definition example_body : ConfigBody :=
  {| b_jarFile := Some "paper.jar"; b_minMemory := None; b_maxMemory := Some "4G";
     b_useAikarFlags := Some false; b_customArgs := None |}.

(** The directory of [server.js] is gone. *)
Definition unix_no_home : State :=
  set_fs (list_to_map [([], Directory); (["srv"], Directory)]) unix_boot.

(** ** Everything that can happen to the supervisor *)

(** A method call on the [ProcessManager], an event of a child reaching
    the listeners of [startMinecraftServer], or a request to a route. *)
Inductive Call :=
| CallStart (config : Config)
| CallStop (processName : string) (timeout : Z) (events : list Event)
| CallKill (processName signal : string)
| CallSendCommand (processName command : string)
| CallStatus (processName : string)
| CallAllProcesses
| CallCleanup
| CallBackup (fuel : nat) (processName : string)
| OnStdout (logStream : path) (data : string)
| OnStderr (errorLogStream : path) (data : string)
| OnClose (logStream errorLogStream : path) (code : option Z) (signal : option string)
| OnError (errorLogStream : path) (error : JsError)
| GetStatus
| PostStart
| PostStop (events : list Event)
| PostRestart (events : list Event)
| PostKill
| PostCommand (command : option string)
| PostConfig (stringify : ServerConfig -> string) (body : ConfigBody).

Definition perform (call : Call) (st : State) : State :=
  match call with
  | CallStart config => after (startMinecraftServer config) st
  | CallStop processName timeout events => after (stop_and_wait processName timeout events) st
  | CallKill processName signal => after (killProcess processName signal) st
  | CallSendCommand processName command => after (sendCommand processName command) st
  | CallStatus processName => after (getProcessStatus processName) st
  | CallAllProcesses => after getAllProcesses st
  | CallCleanup => after cleanup st
  | CallBackup fuel processName => after (createBackup fuel processName) st
  | OnStdout logStream data => after (stdout_data logStream data) st
  | OnStderr errorLogStream data => after (stderr_data errorLogStream data) st
  | OnClose logStream errorLogStream code signal =>
      after (child_close logStream errorLogStream code signal) st
  | OnError errorLogStream error => after (child_error errorLogStream error) st
  | GetStatus => after api_server_status st
  | PostStart => after api_server_start st
  | PostStop events => after (api_server_stop events) st
  | PostRestart events => after (restart_and_wait events) st
  | PostKill => after api_server_kill st
  | PostCommand command => after (api_server_command command) st
  | PostConfig stringify body => after (api_config_post stringify body) st
  end.

(** The state after the constructor and then [calls], in this order. *)
Definition run (calls : list Call) (st : State) : State :=
  foldl (fun s call => perform call s) (after ProcessManager_new st) calls.

(** * The installer, [scripts/install-deps.js] *)

Module Installer.

(** A command the installer ran: through [spawn] in [checkCommand], or
    through [exec] in [execCommand]. *)
Inductive Run :=
| Spawn (command : string) (args : list string)
| Exec (command : string).

(** What a promise of the installer is rejected with, or a call throws. *)
Inductive Thrown :=
| Rejection (stderr : string)        (* execCommand: reject({ error, stderr }) *)
| FsError (message : string).

(** The machine the installer runs on. [h_succeeds] and [h_exec] are the
    answers of the commands it tries; they do not change while it runs. *)
Record Host := {
  h_platform : string;                          (* os.platform() *)
  h_arch : string;                              (* os.arch() *)
  h_totalmem : Z;                               (* os.totalmem(), in bytes *)
  h_USER : option string;                       (* process.env.USER *)
  h_dirname : path;                             (* __dirname *)
  h_succeeds : string -> list string -> bool;   (* the command closes with code 0 *)
  h_exec : string -> string + string;           (* stdout, or the stderr of a failure *)
  h_fs : gmap path Entry;
  h_console : list string;                      (* what console.log printed *)
  h_errors : list Thrown;                       (* what console.error printed *)
  h_ran : list Run }.

Definition with_fs (f : gmap path Entry) (h : Host) : Host :=
  {| h_platform := h_platform h; h_arch := h_arch h; h_totalmem := h_totalmem h;
     h_USER := h_USER h; h_dirname := h_dirname h; h_succeeds := h_succeeds h;
     h_exec := h_exec h; h_fs := f; h_console := h_console h; h_errors := h_errors h;
     h_ran := h_ran h |}.

Definition with_console (lines : list string) (h : Host) : Host :=
  {| h_platform := h_platform h; h_arch := h_arch h; h_totalmem := h_totalmem h;
     h_USER := h_USER h; h_dirname := h_dirname h; h_succeeds := h_succeeds h;
     h_exec := h_exec h; h_fs := h_fs h; h_console := lines; h_errors := h_errors h;
     h_ran := h_ran h |}.

Definition with_errors (errors : list Thrown) (h : Host) : Host :=
  {| h_platform := h_platform h; h_arch := h_arch h; h_totalmem := h_totalmem h;
     h_USER := h_USER h; h_dirname := h_dirname h; h_succeeds := h_succeeds h;
     h_exec := h_exec h; h_fs := h_fs h; h_console := h_console h; h_errors := errors;
     h_ran := h_ran h |}.

Definition with_ran (runs : list Run) (h : Host) : Host :=
  {| h_platform := h_platform h; h_arch := h_arch h; h_totalmem := h_totalmem h;
     h_USER := h_USER h; h_dirname := h_dirname h; h_succeeds := h_succeeds h;
     h_exec := h_exec h; h_fs := h_fs h; h_console := h_console h; h_errors := h_errors h;
     h_ran := runs |}.

(** How a step of the installer ends. *)
Inductive Outcome (A : Type) :=
| Done (a : A)
| Failed (e : Thrown).
Arguments Done {A} a.
Arguments Failed {A} e.

Definition I (A : Type) : Type := Host -> Outcome A * Host.

Definition ret {A} (a : A) : I A := fun h => (Done a, h).

Definition bind {A B} (m : I A) (k : A -> I B) : I B :=
  fun h =>
    match m h with
    | (Done a, h') => k a h'
    | (Failed e, h') => (Failed e, h')
    end.

Definition try_catch {A} (body : I A) (handler : Thrown -> I A) : I A :=
  fun h =>
    match body h with
    | (Failed e, h') => handler e h'
    | other => other
    end.

Notation "'let!' x ':=' m 'in' k" := (bind m (fun x => k))
  (at level 10, x name, m at level 100, k at level 200).

Fixpoint for_each {A} (items : list A) (body : A -> I unit) : I unit :=
  match items with
  | [] => ret tt
  | item :: rest => let! _ := body item in for_each rest body
  end.

(** [console.log(line)]; several arguments are printed with a space
    between them. *)
Definition log (line : string) : I unit :=
  fun h => (Done tt, with_console (h_console h ++ [line]) h).

(** [os.platform() === 'win32'] and [os.platform() === 'linux'] *)
Definition isWindows : I bool := fun h => (Done (bool_decide (h_platform h = "win32")), h).
Definition isLinux : I bool := fun h => (Done (bool_decide (h_platform h = "linux")), h).

(** [checkCommand(command, args)]: never rejects. *)
Definition checkCommand (command : string) (args : list string) : I bool :=
  fun h => (Done (h_succeeds h command args), with_ran (h_ran h ++ [Spawn command args]) h).

(** [execCommand(command)] *)
Definition execCommand (command : string) : I string :=
  fun h =>
    let h' := with_ran (h_ran h ++ [Exec command]) h in
    match h_exec h command with
    | inl stdout => (Done stdout, h')
    | inr stderr => (Failed (Rejection stderr), h')
    end.

(** [error.stderr] in a [catch] block. *)
Definition stderr_of (error : Thrown) : string :=
  match error with
  | Rejection stderr => stderr
  | FsError _ => "undefined"
  end.

(** *** Strings *)

(** White space as [trim] and [parseInt] see it, within ASCII. *)
Definition is_space (c : ascii) : bool :=
  let n := nat_of_ascii c in
  ((9 <=? n)%nat && (n <=? 13)%nat) || (n =? 32)%nat.

Fixpoint trim_start (s : string) : string :=
  match s with
  | String c rest => if is_space c then trim_start rest else s
  | EmptyString => EmptyString
  end.

Fixpoint trim_end (s : string) : string :=
  match s with
  | String c rest =>
      match trim_end rest with
      | EmptyString => if is_space c then EmptyString else String c EmptyString
      | kept => String c kept
      end
  | EmptyString => EmptyString
  end.

(** [s.trim()] *)
Definition trim (s : string) : string := trim_end (trim_start s).

(** [s.substring(1)] *)
Definition substring_1 (s : string) : string :=
  match s with
  | String _ rest => rest
  | EmptyString => EmptyString
  end.

(** [s.split(sep)[0]] for a separator of one character. *)
Fixpoint before (sep : ascii) (s : string) : string :=
  match s with
  | String c rest => if Ascii.eqb c sep then EmptyString else String c (before sep rest)
  | EmptyString => EmptyString
  end.

Definition decimal_digit (c : ascii) : option Z :=
  let n := Z.of_nat (nat_of_ascii c) in
  if (48 <=? n) && (n <=? 57) then Some (n - 48) else None.

Definition hex_digit (c : ascii) : option Z :=
  let n := Z.of_nat (nat_of_ascii c) in
  if (48 <=? n) && (n <=? 57) then Some (n - 48)
  else if (65 <=? n) && (n <=? 70) then Some (n - 55)
  else if (97 <=? n) && (n <=? 102) then Some (n - 87)
  else None.

(** The number that the leading digits of [s] spell in base [radix],
    continuing from [acc]; [None] when [s] does not start with a digit and
    [acc] is [None]. *)
Fixpoint leading_number (digit : ascii -> option Z) (radix : Z) (acc : option Z) (s : string)
  : option Z :=
  match s with
  | String c rest =>
      match digit c with
      | Some d => leading_number digit radix (Some (radix * default 0 acc + d)) rest
      | None => acc
      end
  | EmptyString => acc
  end.

(** [parseInt(s)]; [None] is [NaN]. *)
Definition parseInt (s : string) : option Z :=
  let s := trim_start s in
  let (negative, s) :=
    match s with
    | String "-" rest => (true, rest)
    | String "+" rest => (false, rest)
    | _ => (false, s)
    end in
  let magnitude :=
    match s with
    | String "0" (String "x" rest) => leading_number hex_digit 16 None rest
    | String "0" (String "X" rest) => leading_number hex_digit 16 None rest
    | _ => leading_number decimal_digit 10 None s
    end in
  (fun m => if negative then - m else m) <$> magnitude.

(** [value >= bound] for a [value] that may be [NaN]. *)
Definition at_least (value : option Z) (bound : Z) : bool :=
  match value with
  | Some v => bound <=? v
  | None => false
  end.

(** ['='.repeat(50)] *)
Definition rule : string := "==================================================".

(** *** The checks *)

Definition checkJava : I bool :=
  let! _ := log "🔍 Checking Java installation..." in
  let! hasJava := checkCommand "java" ["-version"] in
  if hasJava then
    try_catch
      (let! output := execCommand "java -version" in
       let! _ := log "✅ Java is installed" in
       let! _ := log ("   Version info:" +:+ " " +:+ before (ascii_of_nat 10) output) in
       ret true)
      (fun error =>
         let! _ := log "⚠️  Java version check failed" in
         ret false)
  else
    let! _ := log "❌ Java is not installed or not in PATH" in
    ret false.

Definition installJava : I bool :=
  let! _ := log "📦 Installing Java..." in
  let! windows := isWindows in
  let! linux := isLinux in
  if windows then
    let! _ := log "🪟 Windows detected" in
    let! _ := log "Please install Java manually from:" in
    let! _ := log "   - Oracle JDK: https://www.oracle.com/java/technologies/downloads/" in
    let! _ := log "   - OpenJDK: https://adoptium.net/" in
    let! _ := log "   - Or use Chocolatey: choco install openjdk" in
    ret false
  else if linux then
    let! _ := log "🐧 Linux detected" in
    (* Try to detect package manager and install Java *)
    let! hasApt := checkCommand "apt" ["--version"] in
    let! hasYum := checkCommand "yum" ["--version"] in
    let! hasDnf := checkCommand "dnf" ["--version"] in
    try_catch
      (let! proceed :=
         if hasApt then
           let! _ := log "   Using apt package manager..." in
           let! _ := execCommand "sudo apt update" in
           let! _ := execCommand "sudo apt install -y openjdk-17-jdk" in
           ret true
         else if hasDnf then
           let! _ := log "   Using dnf package manager..." in
           let! _ := execCommand "sudo dnf install -y java-17-openjdk-devel" in
           ret true
         else if hasYum then
           let! _ := log "   Using yum package manager..." in
           let! _ := execCommand "sudo yum install -y java-17-openjdk-devel" in
           ret true
         else
           let! _ := log "   No supported package manager found" in
           let! _ := log "   Please install Java manually" in
           ret false in
       if proceed then
         let! _ := log "✅ Java installation completed" in
         ret true
       else ret false)
      (fun error =>
         let! _ := log ("❌ Java installation failed:" +:+ " " +:+ stderr_of error) in
         ret false)
  else
    let! _ := log "🍎 macOS detected" in
    let! _ := log "Please install Java manually from:" in
    let! _ := log "   - Oracle JDK: https://www.oracle.com/java/technologies/downloads/" in
    let! _ := log "   - OpenJDK: https://adoptium.net/" in
    let! _ := log "   - Or use Homebrew: brew install openjdk" in
    ret false.

Definition checkNode : I bool :=
  let! _ := log "🔍 Checking Node.js installation..." in
  let! hasNode := checkCommand "node" ["--version"] in
  if hasNode then
    try_catch
      (let! version := execCommand "node --version" in
       let versionNumber := substring_1 (trim version) in     (* Remove 'v' prefix *)
       let majorVersion := parseInt (before "." versionNumber) in
       let! _ := log "✅ Node.js is installed" in
       let! _ := log ("   Version:" +:+ " " +:+ trim version) in
       if at_least majorVersion 16 then
         let! _ := log "   ✅ Version is compatible (>= 16.0.0)" in
         ret true
       else
         let! _ := log "   ⚠️  Version is too old (< 16.0.0)" in
         let! _ := log "   Please update Node.js to version 16 or higher" in
         ret false)
      (fun error =>
         let! _ := log "⚠️  Node.js version check failed" in
         ret false)
  else
    let! _ := log "❌ Node.js is not installed or not in PATH" in
    ret false.

Definition checkNpm : I bool :=
  let! _ := log "🔍 Checking npm installation..." in
  let! hasNpm := checkCommand "npm" ["--version"] in
  if hasNpm then
    try_catch
      (let! version := execCommand "npm --version" in
       let! _ := log "✅ npm is installed" in
       let! _ := log ("   Version:" +:+ " " +:+ trim version) in
       ret true)
      (fun error =>
         let! _ := log "⚠️  npm version check failed" in
         ret false)
  else
    let! _ := log "❌ npm is not installed or not in PATH" in
    ret false.

Definition installNodeDependencies : I bool :=
  let! _ := log "📦 Installing Node.js dependencies..." in
  try_catch
    (let! _ := log "   Running npm install..." in
     let! _ := execCommand "npm install" in
     let! _ := log "✅ Node.js dependencies installed successfully" in
     ret true)
    (fun error =>
       let! _ := log ("❌ Failed to install Node.js dependencies:" +:+ " " +:+ stderr_of error) in
       ret false).

(** [fs.mkdirSync(p, { recursive: true })] *)
Definition mkdirSync_recursive (p : path) : I unit :=
  fun h =>
    match Fs.mkdir_recursive (h_fs h) p with
    | Some f => (Done tt, with_fs f h)
    | None => (Failed (FsError ("EEXIST: file already exists, mkdir " +:+ render p)), h)
    end.

Definition directories : list string := ["minecraft-server"; "backups"; "logs"].

(** The body of the loop of [createDirectories]. *)
Definition createDirectory (dir : string) : I unit :=
  let! here := fun h => (Done (h_dirname h), h) in
  let dirPath := path_join here [".."; dir] in
  let! found := fun h => (Done (Fs.exists_ (h_fs h) dirPath), h) in
  if negb found then
    let! _ := mkdirSync_recursive dirPath in
    log ("   ✅ Created directory: " +:+ dir)
  else
    log ("   ℹ️  Directory already exists: " +:+ dir).

Definition createDirectories : I bool :=
  let! _ := log "📁 Creating necessary directories..." in
  let! _ := for_each directories createDirectory in
  ret true.

(** [Math.round(bytes / (1024 * 1024 * 1024))]; the division by a power
    of two is exact in floating point. *)
Definition gigabytes (bytes : Z) : Z := (2 * bytes + 1073741824) / 2147483648.

Definition checkSystemRequirements : I bool :=
  let! _ := log "🔍 Checking system requirements..." in
  let! platform := fun h => (Done (h_platform h), h) in
  let! arch := fun h => (Done (h_arch h), h) in
  let! totalMemory := fun h => (Done (gigabytes (h_totalmem h)), h) in
  let! _ := log ("   Platform: " +:+ platform) in
  let! _ := log ("   Architecture: " +:+ arch) in
  let! _ := log ("   Total Memory: " +:+ pretty totalMemory +:+ " GB") in
  let! _ :=
    if totalMemory <? 2 then
      let! _ := log "   ⚠️  Warning: Less than 2GB RAM detected" in
      log "   Minecraft servers typically require at least 2GB RAM"
    else
      log "   ✅ Sufficient memory available" in
  ret true.

Definition checkFirewall : I bool :=
  let! _ := log "🔍 Checking firewall configuration..." in
  let! windows := isWindows in
  let! linux := isLinux in
  let! _ :=
    if windows then
      let! _ := log "🪟 Windows Firewall:" in
      let! _ := log "   Please ensure the following ports are open:" in
      let! _ := log "   - Port 3000 (Web Interface)" in
      let! _ := log "   - Port 25565 (Minecraft Server - default)" in
      log "   You may need to configure Windows Firewall manually"
    else if linux then
      let! _ := log "🐧 Linux Firewall:" in
      let! hasUfw := checkCommand "ufw" ["--version"] in
      let! hasFirewalld := checkCommand "firewall-cmd" ["--version"] in
      if hasUfw then
        let! _ := log "   UFW detected. To open ports, run:" in
        let! _ := log "   sudo ufw allow 3000" in
        log "   sudo ufw allow 25565"
      else if hasFirewalld then
        let! _ := log "   firewalld detected. To open ports, run:" in
        let! _ := log "   sudo firewall-cmd --permanent --add-port=3000/tcp" in
        let! _ := log "   sudo firewall-cmd --permanent --add-port=25565/tcp" in
        log "   sudo firewall-cmd --reload"
      else
        let! _ := log "   No common firewall detected" in
        log "   Please ensure ports 3000 and 25565 are open"
    else ret tt in
  ret true.

(** [fs.writeFileSync(p, data)] *)
Definition writeFileSync (p : path) (data : string) : I unit :=
  fun h =>
    match write_file (h_fs h) p data with
    | Some f => (Done tt, with_fs f h)
    | None => (Failed (FsError ("ENOENT: no such file or directory, open " +:+ render p)), h)
    end.

(** [fs.chmodSync(p, mode)]; the model keeps no modes. *)
Definition chmodSync (p : path) (mode : string) : I unit :=
  fun h =>
    match h_fs h !! p with
    | Some _ => (Done tt, h)
    | None => (Failed (FsError ("ENOENT: no such file or directory, chmod " +:+ render p)), h)
    end.

Definition lines (text : list string) : string := String.concat nl text.

Definition batchScript : string :=
  lines [ "@echo off";
          "echo Starting Minecraft Server Wrapper...";
          "cd /d " +:+ dq +:+ "%~dp0" +:+ dq;
          "node server.js";
          "pause" ].

Definition serviceScript : string :=
  lines [ "@echo off";
          "echo Installing Minecraft Server Wrapper as Windows Service...";
          "echo This requires administrative privileges.";
          "echo.";
          "echo Please run this script as Administrator to install the service.";
          "echo.";
          "pause";
          EmptyString;
          "REM Install as Windows Service using nssm (Node.js Service Manager)";
          "REM Download nssm from https://nssm.cc/download";
          "REM nssm install MinecraftServerWrapper " +:+ dq +:+ "%CD%\node.exe" +:+ dq
            +:+ " " +:+ dq +:+ "%CD%\server.js" +:+ dq;
          "REM nssm set MinecraftServerWrapper AppDirectory " +:+ dq +:+ "%CD%" +:+ dq;
          "REM nssm start MinecraftServerWrapper" ].

Definition bashScript : string :=
  lines [ "#!/bin/bash";
          "echo " +:+ dq +:+ "Starting Minecraft Server Wrapper..." +:+ dq;
          "cd " +:+ dq +:+ "$(dirname " +:+ dq +:+ "$0" +:+ dq +:+ ")" +:+ dq;
          "node server.js" ].

Definition systemdService (user : option string) (home : path) : string :=
  lines [ "[Unit]";
          "Description=SproutSMP Wrapper";
          "After=network.target";
          EmptyString;
          "[Service]";
          "Type=simple";
          "User=" +:+ or_else user "root";
          "WorkingDirectory=" +:+ render home;
          "ExecStart=/usr/bin/node server.js";
          "Restart=always";
          "RestartSec=10";
          "Environment=NODE_ENV=production";
          EmptyString;
          "[Install]";
          "WantedBy=multi-user.target" ].

Definition createStartupScripts : I bool :=
  let! _ := log "📝 Creating startup scripts..." in
  let! windows := isWindows in
  let! here := fun h => (Done (h_dirname h), h) in
  let! _ :=
    if windows then
      let! _ := writeFileSync (path_join here [".."; "start.bat"]) batchScript in
      let! _ := log "   ✅ Created start.bat" in
      let! _ := writeFileSync (path_join here [".."; "install-service.bat"]) serviceScript in
      log "   ✅ Created install-service.bat"
    else
      let! _ := writeFileSync (path_join here [".."; "start.sh"]) bashScript in
      let! _ := chmodSync (path_join here [".."; "start.sh"]) "755" in
      let! _ := log "   ✅ Created start.sh" in
      let! user := fun h => (Done (h_USER h), h) in
      let! _ := writeFileSync (path_join here [".."; "sproutsmpwrapper.service"])
                              (systemdService user (path_join here [".."])) in
      let! _ := log "   ✅ Created sproutsmpwrapper.service" in
      let! _ := log "   To install as systemd service:" in
      let! _ := log "   sudo cp sproutsmpwrapper.service /etc/systemd/system/" in
      let! _ := log "   sudo systemctl enable sproutsmpwrapper" in
      log "   sudo systemctl start sproutsmpwrapper" in
  ret true.

(** The final summary of [main]. *)
Definition summary (allGood : bool) : I unit :=
  let! _ := log rule in
  let! _ :=
    if allGood then
      let! _ := log "🎉 Installation completed successfully!" in
      let! _ := log EmptyString in
      let! _ := log "Next steps:" in
      let! _ := log "1. Place your Minecraft server.jar in the minecraft-server directory" in
      let! _ := log "2. Run the server wrapper:" in
      let! windows := isWindows in
      let! _ :=
        if windows then
          let! _ := log "   - Double-click start.bat, or" in
          log "   - Run: node server.js"
        else
          let! _ := log "   - Run: ./start.sh, or" in
          log "   - Run: node server.js" in
      let! _ := log "3. Open http://localhost:3000 in your browser" in
      let! _ := log "4. Login with username: admin, password: admin123" in
      log "5. Configure your server settings and start your Minecraft server!"
    else
      let! _ := log "⚠️  Installation completed with warnings" in
      log "Please resolve the issues above before running the server wrapper" in
  log rule.

Definition main : I unit :=
  let! _ := log ("Starting dependency check and installation..." +:+ nl) in
  let allGood := true in
  (* Check system requirements *)
  let! _ := checkSystemRequirements in
  let! _ := log EmptyString in
  (* Check Node.js *)
  let! nodeOk := checkNode in
  let! allGood :=
    if negb nodeOk then
      let! _ := log "Please install Node.js 16+ from https://nodejs.org/" in
      ret false
    else ret allGood in
  let! _ := log EmptyString in
  (* Check npm *)
  let! npmOk := checkNpm in
  let! allGood :=
    if negb npmOk && nodeOk then
      let! _ := log "npm should be included with Node.js installation" in
      ret false
    else ret allGood in
  let! _ := log EmptyString in
  (* Install Node.js dependencies *)
  let! allGood :=
    if nodeOk && npmOk then
      let! depsOk := installNodeDependencies in
      let allGood := if negb depsOk then false else allGood in
      let! _ := log EmptyString in
      ret allGood
    else ret allGood in
  (* Check Java *)
  let! javaOk := checkJava in
  let! allGood :=
    if negb javaOk then
      let! installed := installJava in
      if negb installed then ret false else ret allGood
    else ret allGood in
  let! _ := log EmptyString in
  (* Create directories *)
  let! _ := createDirectories in
  let! _ := log EmptyString in
  (* Check firewall *)
  let! _ := checkFirewall in
  let! _ := log EmptyString in
  (* Create startup scripts *)
  let! _ := createStartupScripts in
  let! _ := log EmptyString in
  (* Final summary *)
  summary allGood.

(** The script: the banner, then [main().catch(console.error)]. *)
Definition script : I unit :=
  let! _ := log "🚀 Minecraft Server Wrapper - Dependency Installer" in
  let! _ := log rule in
  try_catch main
    (fun error h => (Done tt, with_errors (h_errors h ++ [error]) h)).

(** *** Vocabulary for the properties *)

(** The state the installer ends in. *)
Definition after {A} (m : I A) (h : Host) : Host := (m h).2.

(** A decimal numeral and the number it spells. *)
Definition digit_char (d : nat) : ascii := ascii_of_nat (48 + d).

Fixpoint numeral (digits : list nat) : string :=
  match digits with
  | [] => EmptyString
  | d :: rest => String (digit_char d) (numeral rest)
  end.

Definition value (digits : list nat) : Z :=
  foldl (fun acc d => 10 * acc + Z.of_nat d) 0 digits.

(** The commands of [plan] that get executed: up to the first that fails. *)
Fixpoint attempted (h : Host) (plan : list string) : list Run :=
  match plan with
  | [] => []
  | command :: rest =>
      Exec command :: match h_exec h command with
                      | inl _ => attempted h rest
                      | inr _ => []
                      end
  end.

Definition all_succeed (h : Host) (plan : list string) : bool :=
  forallb (fun command => match h_exec h command with inl _ => true | inr _ => false end) plan.

(** What each check of [main] answers on a host. *)
Definition nodeOk (h : Host) : bool :=
  h_succeeds h "node" ["--version"]
  && match h_exec h "node --version" with
     | inl version => at_least (parseInt (before "." (substring_1 (trim version)))) 16
     | inr _ => false
     end.

Definition npmOk (h : Host) : bool :=
  h_succeeds h "npm" ["--version"] && all_succeed h ["npm --version"].

Definition depsOk (h : Host) : bool := all_succeed h ["npm install"].

Definition javaOk (h : Host) : bool :=
  h_succeeds h "java" ["-version"] && all_succeed h ["java -version"].

(** The commands [installJava] would use on this host. *)
Definition java_plan (h : Host) : list string :=
  if bool_decide (h_platform h = "linux") then
    if h_succeeds h "apt" ["--version"]
    then ["sudo apt update"; "sudo apt install -y openjdk-17-jdk"]
    else if h_succeeds h "dnf" ["--version"]
    then ["sudo dnf install -y java-17-openjdk-devel"]
    else if h_succeeds h "yum" ["--version"]
    then ["sudo yum install -y java-17-openjdk-devel"]
    else []
  else [].

Definition javaInstalled (h : Host) : bool :=
  match java_plan h with
  | [] => false
  | plan => all_succeed h plan
  end.

(** The verdict of [main]: what [allGood] holds when the summary is printed. *)
Definition verdict (h : Host) : bool :=
  nodeOk h && npmOk h && depsOk h && (javaOk h || javaInstalled h).

(** [h'] is [h] later in the run: the same machine with the same answers,
    and a console that has only grown. *)
Definition later (h h' : Host) : Prop :=
  h_platform h' = h_platform h /\ h_arch h' = h_arch h /\ h_totalmem h' = h_totalmem h
  /\ h_USER h' = h_USER h /\ h_dirname h' = h_dirname h
  /\ h_succeeds h' = h_succeeds h /\ h_exec h' = h_exec h
  /\ exists lines, h_console h' = h_console h ++ lines.

(** Every run of [m] leads to a later state of the host. *)
Definition steady {A} (m : I A) : Prop := forall h, later h (after m h).

(** A Linux host with Node 18, npm, apt and no Java. *)
Definition example_host : Host :=
  {| h_platform := "linux"; h_arch := "x64"; h_totalmem := 8 * 1073741824;
     h_USER := Some "mc"; h_dirname := ["srv"; "wrapper"; "scripts"];
     h_succeeds := fun command _ =>
       bool_decide (command ∈ ["node"; "npm"; "apt"; "dnf"; "ufw"]);
     h_exec := fun command =>
       if bool_decide (command = "node --version") then inl ("v18.17.0" +:+ nl)
       else if bool_decide (command = "npm --version") then inl ("9.6.7" +:+ nl)
       else if bool_decide (command = "java -version") then inr "java: not found"
       else inl EmptyString;
     h_fs := list_to_map [([], Directory); (["srv"], Directory);
                          (["srv"; "wrapper"], Directory);
                          (["srv"; "wrapper"; "scripts"], Directory);
                          (["srv"; "wrapper"; "logs"], Directory)];
     h_console := []; h_errors := []; h_ran := [] |}.

End Installer.

(** * Properties *)

Arguments path_join : simpl never.
Arguments render : simpl never.
Arguments String.append : simpl never.
Arguments replace_colon_dot : simpl never.
Arguments includes : simpl never.
Arguments buildArgs : simpl never.
Arguments aikarFlags : simpl never.

(** ** Launch Builder *)

Lemma buildArgs_order minMemory maxMemory useAikarFlags jvmArgs jarFile serverArgs :
  buildArgs minMemory maxMemory useAikarFlags jvmArgs jarFile serverArgs =
    ["-Xms" +:+ minMemory; "-Xmx" +:+ maxMemory]
    ++ (if useAikarFlags then aikarFlags else [])
    ++ jvmArgs ++ ["-jar"; jarFile; "--nogui"] ++ serverArgs.
Proof.
  unfold buildArgs, push. destruct useAikarFlags; simpl.
  - rewrite <- !app_assoc. reflexivity.
  - rewrite <- !app_assoc. reflexivity.
Qed.

Lemma aikarFlags_length : length aikarFlags = 18%nat.
Proof. reflexivity. Qed.

(** C6. Whenever the jar is found, the first thing [startMinecraftServer]
    does to the outside world is to spawn [java] with the argument vector
    [-Xms<min>], [-Xmx<max>], then the eighteen fixed tuning flags exactly
    when [useAikarFlags] is set, then the extra JVM arguments, then
    [-jar <file> --nogui], then the trailing server arguments. *)
Theorem start_argument_vector (config : Config) (st : State) :
  Fs.exists_ (fs (world st)) (jar_path (dirname (world st)) config) = true ->
  length aikarFlags = 18%nat /\
  exists options later,
    trace (world (after (startMinecraftServer config) st)) =
      trace (world st) ++ ESpawn "java" (argument_vector config) options :: later.
Proof.
  intros Hjar. split; [reflexivity|].
  unfold after, startMinecraftServer, bind, gets, existsSync. simpl.
  unfold jar_path in Hjar. rewrite Hjar. simpl.
  rewrite buildArgs_order. fold (argument_vector config).
  unfold try_catch, spawn, bind, emit, modify. simpl.
  destruct (os_spawn (world st) _ _ _) as [e|child]; simpl.
  - eexists _, []. reflexivity.
  - destruct (cp_stdout child); simpl.
    + destruct (cp_stderr child); simpl.
      * destruct (isWindows (processManager st)); simpl.
        -- eexists _, []. reflexivity.
        -- eexists _, [_]. unfold unref, emit, modify. simpl.
           rewrite <- app_assoc. reflexivity.
      * eexists _, []. reflexivity.
    + eexists _, []. reflexivity.
Qed.

Lemma start_argument_vector_witness :
  Fs.exists_ (fs (world unix_boot)) (jar_path (dirname (world unix_boot)) example_config) = true
  /\ length aikarFlags = 18%nat
  /\ exists options later,
       trace (world (after (startMinecraftServer example_config) unix_boot)) =
         trace (world unix_boot)
         ++ ESpawn "java" (argument_vector example_config) options :: later.
Proof.
  split; [vm_compute; reflexivity|].
  apply (start_argument_vector example_config unix_boot).
  vm_compute; reflexivity.
Defined.

Lemma path_join_parent (here : path) (name : string) :
  name <> ".." -> path_join here [".."; name] = removelast here ++ [name].
Proof.
  intros Hne. unfold path_join. simpl.
  rewrite bool_decide_eq_false_2 by exact Hne. reflexivity.
Qed.

(** What [startMinecraftServer] does first once the jar is found: it
    spawns [java] with the arguments it has built, in the working
    directory. *)
Lemma start_spawns_first (config : Config) (st : State) :
  Fs.exists_ (fs (world st)) (jar_path (dirname (world st)) config) = true ->
  exists later,
    effects_of (startMinecraftServer config) st =
      ESpawn "java" (argument_vector config)
             {| cwd := default (path_join (dirname (world st)) [".."; "minecraft-server"])
                               (workingDir config);
                detached := negb (isWindows (processManager st));
                windowsHide := isWindows (processManager st) |} :: later.
Proof.
  intros Hjar. unfold effects_of, after, startMinecraftServer, bind, gets, existsSync. simpl.
  unfold jar_path in Hjar. rewrite Hjar. simpl.
  rewrite buildArgs_order. fold (argument_vector config).
  unfold try_catch, spawn, bind, emit, modify. simpl.
  destruct (os_spawn (world st) _ _ _) as [e|child]; simpl.
  - exists []. apply drop_app_length.
  - destruct (cp_stdout child); simpl.
    + destruct (cp_stderr child); simpl.
      * destruct (isWindows (processManager st)); simpl.
        -- exists []. apply drop_app_length.
        -- eexists [_]. unfold unref, emit, modify. simpl.
           rewrite <- app_assoc. apply drop_app_length.
      * exists []. apply drop_app_length.
    + exists []. apply drop_app_length.
Qed.

(** Starting with a config and starting with the config in which the
    defaults are written out end the same way, in the same world, with the
    same registry up to the [config] kept in the Descriptor. *)
Lemma start_as_if_supplied (config : Config) (st : State) :
  (startMinecraftServer config st).1 =
    (startMinecraftServer (with_defaults (dirname (world st)) config) st).1
  /\ world (after (startMinecraftServer config) st) =
       world (after (startMinecraftServer (with_defaults (dirname (world st)) config)) st)
  /\ alter (set_config empty_config) "minecraft-server"
           (processes (processManager (after (startMinecraftServer config) st))) =
     alter (set_config empty_config) "minecraft-server"
           (processes (processManager
              (after (startMinecraftServer (with_defaults (dirname (world st)) config)) st))).
Proof.
  unfold after, startMinecraftServer, with_defaults, bind, gets, existsSync. simpl.
  rewrite (path_join_parent (dirname (world st)) "minecraft-server") by discriminate.
  destruct (Fs.exists_ _ _); simpl; [|auto].
  unfold try_catch, spawn, bind, emit, modify. simpl.
  destruct (os_spawn (world st) _ _ _) as [e|child]; simpl; [auto|].
  destruct (cp_stdout child); simpl.
  - destruct (cp_stderr child); simpl.
    + destruct (isWindows (processManager st)); simpl;
        (split; [reflexivity|]; split; [reflexivity|]);
        rewrite !alter_insert_eq; reflexivity.
    + split; [reflexivity|]; split; [reflexivity|].
      rewrite !alter_insert_eq; reflexivity.
  - split; [reflexivity|]; split; [reflexivity|].
    rewrite !alter_insert_eq; reflexivity.
Qed.

(** C10. [startMinecraftServer] reads an omitted config field as its fixed
    default, in the jar check and in the arguments alike: [server.jar],
    [1G], [2G], no extra JVM or server arguments, the flags off, and the
    directory [minecraft-server] beside the directory of the module. The
    jar it looks for is that file in that directory; without it the call
    throws "Server jar file not found: <path>" and changes nothing; with it
    the first thing the call does is to spawn [java], in that directory,
    with [-Xms<min> -Xmx<max>], the tuning flags when asked for, the extra
    JVM arguments, [-jar <jar> --nogui] and the server arguments. For the
    empty config that is [java -Xms1G -Xmx2G -jar server.jar --nogui] in
    the default directory. And every call ends as the call with the
    defaults written out does, in the same world, with the same registry up
    to the [config] kept in the Descriptor (the caller's record as given). *)
Theorem start_defaults (config : Config) (st : State) :
  let dir := default (removelast (dirname (world st)) ++ ["minecraft-server"])
                     (workingDir config) in
  let jar := default "server.jar" (jarFile config) in
  let args :=
    ["-Xms" +:+ default "1G" (minMemory config); "-Xmx" +:+ default "2G" (maxMemory config)]
    ++ (if default false (useAikarFlags config) then aikarFlags else [])
    ++ default [] (jvmArgs config)
    ++ ["-jar"; jar; "--nogui"]
    ++ default [] (serverArgs config) in
  let options (dir : path) :=
    {| cwd := dir; detached := negb (isWindows (processManager st));
       windowsHide := isWindows (processManager st) |} in
  (Fs.exists_ (fs (world st)) (path_join dir [jar]) = false ->
   startMinecraftServer config st =
     (Throw (Error ("Server jar file not found: " +:+ render (path_join dir [jar]))), st))
  /\ (Fs.exists_ (fs (world st)) (path_join dir [jar]) = true ->
      exists later,
        effects_of (startMinecraftServer config) st = ESpawn "java" args (options dir) :: later)
  /\ (Fs.exists_ (fs (world st))
                 (removelast (dirname (world st)) ++ ["minecraft-server"; "server.jar"]) = true ->
      exists later,
        effects_of (startMinecraftServer empty_config) st =
          ESpawn "java" ["-Xms1G"; "-Xmx2G"; "-jar"; "server.jar"; "--nogui"]
                 (options (removelast (dirname (world st)) ++ ["minecraft-server"])) :: later)
  /\ (startMinecraftServer config st).1 =
       (startMinecraftServer (with_defaults (dirname (world st)) config) st).1
  /\ world (after (startMinecraftServer config) st) =
       world (after (startMinecraftServer (with_defaults (dirname (world st)) config)) st)
  /\ alter (set_config empty_config) "minecraft-server"
           (processes (processManager (after (startMinecraftServer config) st))) =
     alter (set_config empty_config) "minecraft-server"
           (processes (processManager
              (after (startMinecraftServer (with_defaults (dirname (world st)) config)) st))).
Proof.
  cbv zeta.
  pose proof (path_join_parent (dirname (world st)) "minecraft-server") as Hdir.
  split; [|split; [|split]].
  - intros Hjar. rewrite <- Hdir in * by discriminate.
    unfold startMinecraftServer, bind, gets, existsSync. simpl.
    rewrite Hjar. reflexivity.
  - intros Hjar. rewrite <- Hdir in * by discriminate.
    apply (start_spawns_first config st Hjar).
  - intros Hjar.
    destruct (start_spawns_first empty_config st) as (later & Hrun).
    + unfold jar_path. simpl. rewrite Hdir by discriminate.
      unfold path_join. simpl. rewrite <- app_assoc. exact Hjar.
    + exists later. rewrite Hrun. simpl. rewrite Hdir by discriminate. reflexivity.
  - apply start_as_if_supplied.
Qed.

Lemma start_defaults_witness :
  Fs.exists_ (fs (world unix_boot)) ["srv"; "wrapper"; "minecraft-server"; "server.jar"] = true
  /\ exists later,
       effects_of (startMinecraftServer empty_config) unix_boot =
         ESpawn "java" ["-Xms1G"; "-Xmx2G"; "-jar"; "server.jar"; "--nogui"]
                {| cwd := ["srv"; "wrapper"; "minecraft-server"];
                   detached := true; windowsHide := false |} :: later.
Proof.
  assert (Hjar : Fs.exists_ (fs (world unix_boot))
                   ["srv"; "wrapper"; "minecraft-server"; "server.jar"] = true)
    by (vm_compute; reflexivity).
  split; [exact Hjar|].
  exact (proj1 (proj2 (start_defaults empty_config unix_boot)) Hjar).
Defined.

(** With nothing configured at all, the server in the default directory
    starts. *)
Example start_empty_config :
  (startMinecraftServer empty_config unix_boot).1 =
    Return {| r_pid := Some 4242;
              r_startTime := example_clock 1;
              r_logFile := ["srv"; "wrapper"; "logs";
                            "minecraft-server-2023-11-14T22-13-20-000Z.log"];
              r_errorLogFile := ["srv"; "wrapper"; "logs";
                                 "minecraft-server-error-2023-11-14T22-13-20-000Z.log"] |}.
Proof. vm_compute. reflexivity. Qed.

(** ** Liveness and status *)

(** The probe always answers and leaves the state alone. *)
Lemma isProcessRunning_answer (p : option Z) (st : State) :
  isProcessRunning p st = (Return (alive st p), st).
Proof.
  unfold alive, isProcessRunning, try_catch, bind, gets, execSync, ret, throw. simpl.
  destruct (isWindows (processManager st)); simpl.
  - destruct (os_execSync (world st) _); simpl; [|reflexivity].
    destruct p; reflexivity.
  - destruct p as [z|]; [|reflexivity].
    destruct (os_probe (world st) z); reflexivity.
Qed.

(** Its answer depends on the platform flag and on the operating system only. *)
Lemma alive_frame (st1 st2 : State) (p : option Z) :
  isWindows (processManager st1) = isWindows (processManager st2) ->
  os_execSync (world st1) = os_execSync (world st2) ->
  os_probe (world st1) = os_probe (world st2) ->
  alive st1 p = alive st2 p.
Proof.
  intros Hw He Hp.
  unfold alive, isProcessRunning, try_catch, bind, gets, execSync, ret, throw. simpl.
  rewrite Hw. destruct (isWindows (processManager st2)); simpl.
  - rewrite He. destruct (os_execSync (world st2) _); [|reflexivity].
    destruct p; reflexivity.
  - destruct p as [z|]; [|reflexivity]. rewrite Hp.
    destruct (os_probe (world st2) z); reflexivity.
Qed.

Lemma getProcessStatus_tracked (name : string) (info : ProcessInfo) (st : State) :
  processes (processManager st) !! name = Some info ->
  getProcessStatus name st =
    (Return (Tracked (alive st (pid info)) (pid info) (startTime info)
                     (getTime (clock (world st) (ticks (world st))) - getTime (startTime info))
                     (config info) (logFile info) (errorLogFile info)),
     with_world tick st).
Proof.
  intros Hget. unfold getProcessStatus, processes_get, bind, gets. simpl.
  rewrite Hget. rewrite isProcessRunning_answer. reflexivity.
Qed.

Lemma getProcessStatus_untracked (name : string) (st : State) :
  processes (processManager st) !! name = None ->
  getProcessStatus name st = (Return NotTracked, st).
Proof.
  intros Hget. unfold getProcessStatus, processes_get, bind, gets. simpl.
  rewrite Hget. reflexivity.
Qed.

(** ** Starting *)

(** A missing jar is reported before anything else happens. *)
Lemma start_jar_missing (config : Config) (st : State) :
  Fs.exists_ (fs (world st)) (jar_path (dirname (world st)) config) = false ->
  startMinecraftServer config st =
    (Throw (Error ("Server jar file not found: "
                   +:+ render (jar_path (dirname (world st)) config))), st).
Proof.
  intros Hjar. unfold startMinecraftServer, bind, gets, existsSync. simpl.
  unfold jar_path in Hjar. rewrite Hjar. reflexivity.
Qed.

(** When [spawn] itself throws, the error is passed on and the registry
    is as before. *)
Lemma start_spawn_throws (config : Config) (st : State) (e : JsError) :
  Fs.exists_ (fs (world st)) (jar_path (dirname (world st)) config) = true ->
  (forall command args options, os_spawn (world st) command args options = SpawnThrows e) ->
  (startMinecraftServer config st).1 =
    Throw (Error ("Failed to start Minecraft server: " +:+ message e))
  /\ processManager (after (startMinecraftServer config) st) = processManager st.
Proof.
  intros Hjar Hspawn.
  unfold after, startMinecraftServer, bind, gets, existsSync. simpl.
  unfold jar_path in Hjar. rewrite Hjar. simpl.
  unfold try_catch, spawn, bind, emit, modify. simpl.
  rewrite Hspawn. simpl. split; [reflexivity|].
  destruct st as [[] ? ? ? ?]; reflexivity.
Qed.

(** When the child comes back without its stdout pipe, the call throws
    only after the Descriptor has been registered, and the Descriptor stays. *)
Lemma start_throws_after_registering (config : Config) (st : State) (child : ChildProcess) :
  Fs.exists_ (fs (world st)) (jar_path (dirname (world st)) config) = true ->
  (forall command args options, os_spawn (world st) command args options = Spawned child) ->
  cp_stdout child = None ->
  (startMinecraftServer config st).1 =
    Throw (Error ("Failed to start Minecraft server: " +:+ message (undefined_read "on")))
  /\ (process <$> processes (processManager (after (startMinecraftServer config) st))
                  !! "minecraft-server") = Some child.
Proof.
  intros Hjar Hspawn Hout.
  unfold after, startMinecraftServer, bind, gets, existsSync. simpl.
  unfold jar_path in Hjar. rewrite Hjar. simpl.
  unfold try_catch, spawn, bind, emit, modify. simpl.
  rewrite Hspawn. simpl. rewrite Hout. simpl. split; [reflexivity|].
  rewrite lookup_insert_eq. reflexivity.
Qed.

(** C1 (defect in the code). A start can fail, or a spawn can fail, and
    still leave a Descriptor behind. With the jar in place and no
    Descriptor registered: when the child comes back without its pipes,
    [startMinecraftServer] throws "Failed to start Minecraft server" only
    after it has put the Descriptor into [processes], and nothing takes it
    out again; when the child comes back without a pid but with pipes, the
    call even resolves, with an undefined pid, and the Descriptor is there
    when it returns (only the ['close'] event of the failed child takes it
    out, later). *)
Theorem start_failure_leaves_descriptor :
  processes (processManager exhausted_boot) !! "minecraft-server" = None
  /\ (startMinecraftServer empty_config exhausted_boot).1 =
       Throw (Error ("Failed to start Minecraft server: "
                     +:+ "Cannot read properties of undefined (reading 'on')"))
  /\ (pid <$> processes (processManager (after (startMinecraftServer empty_config)
                                              exhausted_boot)) !! "minecraft-server")
       = Some None
  /\ processes (processManager no_java_boot) !! "minecraft-server" = None
  /\ (r_pid <$> match (startMinecraftServer empty_config no_java_boot).1 with
                | Return r => Some r
                | _ => None
                end) = Some None
  /\ (pid <$> processes (processManager (after (startMinecraftServer empty_config)
                                              no_java_boot)) !! "minecraft-server")
       = Some None.
Proof. vm_compute. repeat split. Qed.

(** ** The start route *)



(** ** Starting while the server runs, or after it died *)


(** After the child died out of band, the start route starts the server
    again: the stale Descriptor does not stand in the way. *)
Example start_after_crash :
  (res_status <$> match (api_server_start unix_crashed).1 with
                  | Return r => Some r
                  | _ => None
                  end) = Some 200%nat
  /\ serverStatus (after api_server_start unix_crashed) = "running".
Proof. vm_compute. split; reflexivity. Qed.

(** ** Status of a dead process, and [cleanup] *)

Lemma with_processes_id (st : State) : with_processes (fun m => m) st = st.
Proof. destruct st as [[] ? ? ? ?]. reflexivity. Qed.

Lemma cleanup_step_frame (st1 st2 : State) (entries : list (string * ProcessInfo))
    (m : gmap string ProcessInfo) :
  (forall p, alive st1 p = alive st2 p) ->
  foldl (cleanup_step st1) m entries = foldl (cleanup_step st2) m entries.
Proof.
  intros Hsame. revert m. induction entries as [|entry rest IH]; intros m; simpl.
  - reflexivity.
  - unfold cleanup_step at 2 4. rewrite Hsame. apply IH.
Qed.

Lemma cleanup_loop (entries : list (string * ProcessInfo)) (st : State) :
  for_each entries
    (fun entry =>
       let* alive := isProcessRunning (pid entry.2) in
       if negb alive then processes_delete entry.1 else ret tt) st
  = (Return tt, with_processes (fun m => foldl (cleanup_step st) m entries) st).
Proof.
  revert st. induction entries as [|entry rest IH]; intros st; simpl.
  - rewrite with_processes_id. reflexivity.
  - unfold bind at 1. unfold bind at 1. rewrite isProcessRunning_answer.
    unfold cleanup_step at 2.
    destruct (alive st (pid entry.2)) eqn:Halive; simpl.
    + unfold ret at 1. rewrite IH. reflexivity.
    + unfold processes_delete, modify. rewrite IH. f_equal.
      unfold with_processes. simpl. f_equal. f_equal.
      apply cleanup_step_frame. intros p. apply alive_frame; reflexivity.
Qed.

Lemma cleanup_keeps_absent (st : State) (entries : list (string * ProcessInfo))
    (m : gmap string ProcessInfo) (name : string) :
  m !! name = None -> foldl (cleanup_step st) m entries !! name = None.
Proof.
  revert m. induction entries as [|entry rest IH]; intros m Hnone; simpl; [exact Hnone|].
  apply IH. unfold cleanup_step. destruct (alive st (pid entry.2)); [exact Hnone|].
  destruct (decide (entry.1 = name)) as [->|Hne].
  - apply lookup_delete_eq.
  - rewrite lookup_delete_ne by exact Hne. exact Hnone.
Qed.

Lemma cleanup_drops_dead (st : State) (entries : list (string * ProcessInfo))
    (m : gmap string ProcessInfo) (name : string) (info : ProcessInfo) :
  (name, info) ∈ entries -> alive st (pid info) = false ->
  foldl (cleanup_step st) m entries !! name = None.
Proof.
  revert m. induction entries as [|entry rest IH]; intros m Hin Hdead.
  - inversion Hin.
  - simpl. apply elem_of_cons in Hin as [<-|Hin].
    + apply cleanup_keeps_absent. unfold cleanup_step. simpl.
      rewrite Hdead. apply lookup_delete_eq.
    + apply IH; assumption.
Qed.

(** [cleanup] removes every Descriptor whose process the probe reports dead. *)
Lemma cleanup_purges (st : State) (name : string) (info : ProcessInfo) :
  processes (processManager st) !! name = Some info ->
  alive st (pid info) = false ->
  (cleanup st).1 = Return tt
  /\ processes (processManager (after cleanup st)) !! name = None.
Proof.
  intros Hget Hdead.
  assert (Hrun : cleanup st =
                 (Return tt,
                  with_processes
                    (fun m => foldl (cleanup_step st) m
                                    (map_to_list (processes (processManager st)))) st)).
  { unfold cleanup, bind, gets. apply cleanup_loop. }
  unfold after. rewrite Hrun. split; [reflexivity|]. simpl.
  apply (cleanup_drops_dead st _ _ name info); [|exact Hdead].
  apply elem_of_map_to_list. exact Hget.
Qed.

(** C3 (as amended). For a name whose Descriptor exists while the probe
    reports its pid dead, [getProcessStatus] answers [running: false]
    together with the stale pid, start time, config and log paths, and
    leaves the registry as it is: the Descriptor is still registered after
    the call. Removing dead Descriptors is what the separate [cleanup]
    method does. *)
Theorem status_of_dead_process (st : State) (name : string) (info : ProcessInfo) :
  processes (processManager st) !! name = Some info ->
  alive st (pid info) = false ->
  (exists uptime,
     getProcessStatus name st =
       (Return (Tracked false (pid info) (startTime info) uptime (config info)
                        (logFile info) (errorLogFile info)),
        with_world tick st))
  /\ processes (processManager (after (getProcessStatus name) st)) !! name = Some info
  /\ processes (processManager (after cleanup (after (getProcessStatus name) st))) !! name
       = None.
Proof.
  intros Hget Hdead. unfold after.
  rewrite (getProcessStatus_tracked _ _ _ Hget), Hdead. simpl.
  split; [eexists; reflexivity|]. split; [exact Hget|].
  apply (cleanup_purges (with_world tick st) name info); [exact Hget|].
  rewrite <- Hdead. apply alive_frame; reflexivity.
Qed.

Lemma status_of_dead_process_witness :
  processes (processManager unix_crashed) !! "minecraft-server" = Some example_info
  /\ alive unix_crashed (pid example_info) = false
  /\ (exists uptime,
        getProcessStatus "minecraft-server" unix_crashed =
          (Return (Tracked false (pid example_info) (startTime example_info) uptime
                           (config example_info) (logFile example_info)
                           (errorLogFile example_info)),
           with_world tick unix_crashed))
  /\ processes (processManager (after (getProcessStatus "minecraft-server") unix_crashed))
       !! "minecraft-server" = Some example_info
  /\ processes (processManager
       (after cleanup (after (getProcessStatus "minecraft-server") unix_crashed)))
     !! "minecraft-server" = None.
Proof.
  assert (Hget : processes (processManager unix_crashed) !! "minecraft-server"
                 = Some example_info) by (vm_compute; reflexivity).
  assert (Hdead : alive unix_crashed (pid example_info) = false)
    by (vm_compute; reflexivity).
  split; [exact Hget|]. split; [exact Hdead|].
  exact (status_of_dead_process unix_crashed "minecraft-server" example_info Hget Hdead).
Defined.

(** C3 (counterexample to the claim as stated). After the child has died
    out of band, a status call answers [running: false] and the Descriptor
    is still in the registry. *)
Lemma status_does_not_purge :
  alive unix_crashed (Some 4242) = false
  /\ (running <$> match (getProcessStatus "minecraft-server" unix_crashed).1 with
                  | Return s => Some s
                  | _ => None
                  end) = Some false
  /\ processes (processManager (after (getProcessStatus "minecraft-server") unix_crashed))
       !! "minecraft-server" <> None.
Proof.
  split; [vm_compute; reflexivity|]. split; [vm_compute; reflexivity|].
  vm_compute. discriminate.
Qed.

(** ** Console commands *)

(** C7 (as amended). [sendCommand] fails, with "Process ... not found",
    exactly when no Descriptor is registered under the name. Whenever one
    is registered, whatever the lifecycle state and whether or not the
    process is alive, it writes the text followed by one line feed to the
    child's stdin and answers [true]; if that write throws (or there is no
    stdin), it writes nothing, logs to the console and answers [false]. *)
Theorem sendCommand_contract (processName command : string) (st : State) :
  match processes (processManager st) !! processName with
  | None =>
      sendCommand processName command st =
        (Throw (Error ("Process " +:+ processName +:+ " not found")), st)
  | Some info =>
      match cp_stdin (process info) with
      | Some fd =>
          match os_write (world st) fd (command +:+ nl) with
          | None =>
              sendCommand processName command st =
                (Return true, after (emit (EWrite fd (command +:+ nl))) st)
          | Some _ =>
              sendCommand processName command st =
                (Return false,
                 after (console_error ("Failed to send command to " +:+ processName +:+ ":")) st)
          end
      | None =>
          sendCommand processName command st =
            (Return false,
             after (console_error ("Failed to send command to " +:+ processName +:+ ":")) st)
      end
  end.
Proof.
  unfold sendCommand, processes_get, bind, gets. simpl.
  destruct (processes (processManager st) !! processName) as [info|]; [|reflexivity].
  unfold try_catch, pipe_write, bind, after. simpl.
  destruct (cp_stdin (process info)) as [fd|]; [|reflexivity].
  destruct (os_write (world st) fd (command +:+ nl)); reflexivity.
Qed.

(** C7 (counterexample to the claim as stated). The server was killed
    through the kill route: the lifecycle variable says [stopped], the
    probe says the process is dead; the Descriptor is still registered, so
    a command is written to the pipe and reported as sent. *)
Lemma sendCommand_ignores_lifecycle :
  serverStatus unix_killed = "stopped"
  /\ alive unix_killed (Some 4242) = false
  /\ (sendCommand "minecraft-server" "list" unix_killed).1 = Return true
  /\ effects_of (sendCommand "minecraft-server" "list") unix_killed
       = [EWrite 10%N ("list" +:+ nl)]
  /\ (api_server_command (Some "list") unix_killed).1 =
       Return {| res_status := 200;
                 res_body := [ ("success", JBool true);
                               ("message", JString "Command sent successfully") ] |}.
Proof. vm_compute. repeat split. Qed.

(** ** Forced kill *)

(** On Unix the signal goes to the process group of the child; the call
    returns at once. *)
Lemma kill_on_unix_signals_group (st : State) (processName signal : string)
    (info : ProcessInfo) (p : Z) :
  isWindows (processManager st) = false ->
  processes (processManager st) !! processName = Some info ->
  cp_pid (process info) = Some p -> p <> 0 ->
  os_kill (world st) (- p) signal = None ->
  killProcess processName signal st = (Return tt, after (emit (EKill (- p) signal)) st)
  /\ kills_tree p (EKill (- p) signal) = true.
Proof.
  intros Hunix Hget Hpid Hnz Hkill.
  unfold killProcess, processes_get, bind, gets. simpl. rewrite Hget.
  unfold try_catch, bind. simpl. rewrite Hunix, Hpid. simpl.
  assert (Hz : (p =? 0) = false) by (apply Z.eqb_neq; exact Hnz). rewrite Hz. simpl.
  unfold process_kill. rewrite Hkill. split; [reflexivity|].
  apply bool_decide_eq_true_2. reflexivity.
Qed.

(** On Windows a [SIGKILL] becomes one [taskkill] of the recorded pid, and
    any other signal goes to the child alone. *)
Lemma kill_on_windows_one_process (st : State) (processName signal : string)
    (info : ProcessInfo) :
  isWindows (processManager st) = true ->
  processes (processManager st) !! processName = Some info ->
  killProcess processName signal st =
    (Return tt,
     after (emit (if bool_decide (signal = "SIGKILL")
                  then EExec ("taskkill /F /PID " +:+ show_pid (pid info))
                  else EChildKill (process info) signal)) st).
Proof.
  intros Hwin Hget.
  unfold killProcess, processes_get, bind, gets. simpl. rewrite Hget.
  unfold try_catch, bind. simpl. rewrite Hwin.
  destruct (bool_decide (signal = "SIGKILL")); reflexivity.
Qed.

(** C5 (defect in the code). On Windows, killing the live server with
    [SIGKILL] runs [taskkill /F /PID 4242] and nothing else: the command
    names the one process and carries no tree switch, so what the child
    has spawned is not addressed; with any other signal only
    [child.kill(signal)] is called. On Unix, from the same server state,
    the signal goes to the whole process group. *)
Theorem kill_on_windows_spares_descendants :
  isWindows (processManager windows_running) = true
  /\ alive windows_running (Some 4242) = true
  /\ (killProcess "minecraft-server" "SIGKILL" windows_running).1 = Return tt
  /\ effects_of (killProcess "minecraft-server" "SIGKILL") windows_running
       = [EExec "taskkill /F /PID 4242"]
  /\ existsb (kills_tree 4242)
             (effects_of (killProcess "minecraft-server" "SIGKILL") windows_running) = false
  /\ effects_of (killProcess "minecraft-server" "SIGTERM") windows_running
       = [EChildKill example_child "SIGTERM"]
  /\ effects_of (killProcess "minecraft-server" "SIGKILL") unix_running
       = [EKill (-4242) "SIGKILL"]
  /\ existsb (kills_tree 4242)
             (effects_of (killProcess "minecraft-server" "SIGKILL") unix_running) = true.
Proof. vm_compute. repeat split. Qed.

(** ** Graceful stop and its timeout *)

Lemma stopProcess_pending (processName : string) (timeout : Z) (st : State) :
  stop_pending processName timeout st = true ->
  exists info st1,
    processes (processManager st) !! processName = Some info
    /\ stopProcess processName timeout st =
         (Return {| stop_promise := Pending; stop_timer := true |}, st1).
Proof.
  unfold stop_pending, stopProcess, processes_get, bind, gets. simpl.
  destruct (processes (processManager st) !! processName) as [info|]; [|discriminate].
  intros Hpending. exists info.
  match goal with |- context [match ?r with _ => _ end] => destruct r as [[u|e|] st1] end;
    simpl in *; try discriminate.
  exists st1. split; reflexivity.
Qed.

(** With the timer off, a listener returns and leaves it off; it changes
    the promise only by settling it, and sends nothing. *)
Lemma deliver_returns (info : ProcessInfo) (processName : string) (timeout : Z)
    (ev : Event) (call : StopCall) (st : State) :
  stop_timer call = false ->
  exists call' st',
    deliver info processName timeout ev call st = (Return call', st')
    /\ stop_timer call' = false
    /\ stop_promise call' = settle (stop_promise call) (stop_promise call')
    /\ trace (world st') = trace (world st).
Proof.
  intros Hoff. destruct ev as [|code signal]; simpl.
  - rewrite Hoff. exists call, st. repeat split; [exact Hoff|].
    destruct (stop_promise call); reflexivity.
  - eexists _, _. split; [reflexivity|]. simpl. repeat split.
    destruct (stop_promise call); reflexivity.
Qed.









(** When that write throws, the fallback sends [SIGTERM] at once, while
    the request is made and not when the timer runs out. *)
Example stop_fallback_signals_at_once :
  let broken :=
    with_processes
      (fun m => <["minecraft-server" :=
                  {| pid := Some 4242; startTime := example_clock 1;
                     config := empty_config; logFile := logFile example_info;
                     errorLogFile := errorLogFile example_info;
                     process := {| cp_pid := Some 4242; cp_stdin := None;
                                   cp_stdout := Some 11%N; cp_stderr := Some 12%N |} |}]> m)
      unix_running in
  effects_of (stopProcess "minecraft-server" 30000) broken = [EKill (-4242) "SIGTERM"].
Proof. vm_compute. reflexivity. Qed.

(** ** Log Sink *)

Lemma append_assoc (a b c : string) : (a +:+ b) +:+ c = a +:+ (b +:+ c).
Proof.
  induction a as [|ch a IH]; [reflexivity|].
  change (String ch ((a +:+ b) +:+ c) = String ch (a +:+ (b +:+ c))).
  rewrite IH. reflexivity.
Qed.

Lemma append_empty_r (a : string) : a +:+ "" = a.
Proof.
  induction a as [|ch a IH]; [reflexivity|].
  change (String ch (a +:+ "") = String ch a). rewrite IH. reflexivity.
Qed.

(** One ['data'] event: one clock reading, one write of the stamped chunk. *)
Lemma stdout_data_step (logStream : path) (data : string) (st : State) :
  stdout_data logStream data st =
    (Return tt,
     with_world
       (with_fs (fun f => Fs.append f logStream
                   ("[" +:+ toISOString (clock (world st) (ticks (world st))) +:+ "] " +:+ data)))
       (with_world tick st))
  /\ stderr_data logStream data st = stdout_data logStream data st.
Proof. split; reflexivity. Qed.

(** C9 (as amended). Every chunk that a ['data'] event delivers is written
    to the log behind one capture timestamp read at that moment: after any
    sequence of chunks the log holds what it held before, followed by each
    chunk with ["[" timestamp "] "] in front of it, for stdout and stderr
    alike. The stamp is per chunk, not per line. *)
Theorem log_chunks_are_stamped (logStream : path) (chunks : list string)
    (st : State) (old : string) :
  fs (world st) !! logStream = Some (File old) ->
  fs (world (after (for_each chunks (stdout_data logStream)) st)) !! logStream =
    Some (File (old +:+ stamped_chunks (clock (world st)) (ticks (world st)) chunks))
  /\ fs (world (after (for_each chunks (stderr_data logStream)) st)) !! logStream =
       Some (File (old +:+ stamped_chunks (clock (world st)) (ticks (world st)) chunks)).
Proof.
  revert st old. induction chunks as [|chunk rest IH]; intros st old Hold.
  - simpl. rewrite append_empty_r. split; exact Hold.
  - set (st1 := with_world
                  (with_fs (fun f => Fs.append f logStream
                     ("[" +:+ toISOString (clock (world st) (ticks (world st)))
                      +:+ "] " +:+ chunk)))
                  (with_world tick st)).
    assert (Hnew : fs (world st1) !! logStream =
                   Some (File (old +:+ "[" +:+ toISOString (clock (world st) (ticks (world st)))
                               +:+ "] " +:+ chunk))).
    { unfold st1. simpl. unfold Fs.append. rewrite Hold. apply lookup_insert_eq. }
    destruct (IH st1 _ Hnew) as [Hout Herr].
    assert (Hshape : forall tail,
              (old +:+ "[" +:+ toISOString (clock (world st) (ticks (world st)))
               +:+ "] " +:+ chunk) +:+ tail =
              old +:+ "[" +:+ toISOString (clock (world st) (ticks (world st)))
              +:+ "] " +:+ chunk +:+ tail).
    { intros tail. rewrite !append_assoc. reflexivity. }
    split.
    + change (after (for_each (chunk :: rest) (stdout_data logStream)) st)
        with (after (for_each rest (stdout_data logStream)) st1).
      rewrite Hout. simpl stamped_chunks. rewrite Hshape. reflexivity.
    + change (after (for_each (chunk :: rest) (stderr_data logStream)) st)
        with (after (for_each rest (stderr_data logStream)) st1).
      rewrite Herr. simpl stamped_chunks. rewrite Hshape. reflexivity.
Qed.

Lemma log_chunks_are_stamped_witness :
  fs (world unix_running) !! logFile example_info = Some (File "")
  /\ fs (world (after (for_each ["Starting minecraft server" +:+ nl; "Done (3.2s)!" +:+ nl]
                                (stdout_data (logFile example_info))) unix_running))
       !! logFile example_info =
     Some (File ("" +:+ stamped_chunks (clock (world unix_running)) (ticks (world unix_running))
                          ["Starting minecraft server" +:+ nl; "Done (3.2s)!" +:+ nl]))
  /\ fs (world (after (for_each ["Starting minecraft server" +:+ nl; "Done (3.2s)!" +:+ nl]
                                (stderr_data (logFile example_info))) unix_running))
       !! logFile example_info =
     Some (File ("" +:+ stamped_chunks (clock (world unix_running)) (ticks (world unix_running))
                          ["Starting minecraft server" +:+ nl; "Done (3.2s)!" +:+ nl])).
Proof.
  assert (Hold : fs (world unix_running) !! logFile example_info = Some (File ""))
    by (vm_compute; reflexivity).
  split; [exact Hold|].
  exact (log_chunks_are_stamped (logFile example_info)
           ["Starting minecraft server" +:+ nl; "Done (3.2s)!" +:+ nl]
           unix_running "" Hold).
Defined.

(** C9 (counterexample to the claim as stated). The child prints two
    lines and they arrive as one chunk: the log then holds the second line
    with nothing in front of it. *)
Lemma second_line_is_not_stamped :
  exists content,
    fs (world (after (stdout_data (logFile example_info)
                        ("Loading libraries, please wait..." +:+ nl
                         +:+ "Starting minecraft server" +:+ nl))
                     unix_running))
      !! logFile example_info = Some (File content)
    /\ "Starting minecraft server" ∈ split_lines content
    /\ ~ has_capture_prefix "Starting minecraft server".
Proof.
  eexists. split; [vm_compute; reflexivity|]. split.
  - vm_compute. apply list_elem_of_In. simpl. auto.
  - intros [ts Hts].
    change ("[" +:+ ts +:+ "] ") with (String "["%char (ts +:+ "] ")) in Hts.
    simpl in Hts. discriminate.
Qed.

(** ** Backup Archiver *)

(** *** Paths *)

Lemma below_spec (dir p q : path) : Fs.below dir p = Some q <-> p = dir ++ q.
Proof.
  revert p. induction dir as [|d dir IH]; intros p; simpl.
  - split; [intros [= ->]; reflexivity | intros ->; reflexivity].
  - destruct p as [|s p]; [split; discriminate|].
    destruct (decide (d = s)) as [->|Hne].
    + rewrite bool_decide_eq_true_2 by reflexivity. rewrite IH.
      split; [intros ->; reflexivity | intros [= ->]; reflexivity].
    + rewrite bool_decide_eq_false_2 by exact Hne.
      split; [discriminate | intros [= -> _]; contradiction].
Qed.

Lemma below_None (dir p : path) : Fs.below dir p = None <-> ~ (dir `prefix_of` p).
Proof.
  split.
  - intros Hnone [q Hq]. apply below_spec in Hq. congruence.
  - intros Hnot. destruct (Fs.below dir p) as [q|] eqn:Hq; [|reflexivity].
    apply below_spec in Hq. exfalso. apply Hnot. exists q. exact Hq.
Qed.

Lemma child_name_spec (dir p : path) (name : string) :
  Fs.child_name dir p = Some name <-> p = dir ++ [name].
Proof.
  unfold Fs.child_name. split.
  - destruct (Fs.below dir p) as [[|n [|? ?]]|] eqn:Hq; try discriminate.
    intros [= ->]. apply below_spec. exact Hq.
  - intros ->. rewrite (proj2 (below_spec dir (dir ++ [name]) [name]) eq_refl). reflexivity.
Qed.

Lemma path_join_one (p : path) (name : string) :
  name <> ".." -> path_join p [name] = p ++ [name].
Proof.
  intros Hne. unfold path_join. simpl.
  rewrite bool_decide_eq_false_2 by exact Hne. reflexivity.
Qed.

(** Two paths of which neither lies below the other stay so when extended. *)
Lemma apart_extend (a b x y : path) :
  ~ (a `prefix_of` b) -> ~ (b `prefix_of` a) -> ~ ((a ++ x) `prefix_of` (b ++ y)).
Proof.
  intros Hab Hba Hpre.
  assert (Ha : a `prefix_of` b ++ y) by (eapply prefix_app_l; exact Hpre).
  assert (Hb : b `prefix_of` b ++ y) by (apply prefix_app_r; reflexivity).
  destruct (prefix_weak_total _ _ _ Ha Hb); contradiction.
Qed.

Lemma prefix_snoc_inv (q p : path) (name : string) :
  q `prefix_of` p ++ [name] -> q = p ++ [name] \/ q `prefix_of` p.
Proof.
  intros [k Hk]. destruct k as [|x k _] using rev_ind.
  - left. rewrite app_nil_r in Hk. congruence.
  - right. rewrite app_assoc in Hk. apply app_inj_tail in Hk as [-> _].
    apply prefix_app_r. reflexivity.
Qed.

Lemma sibling_not_below (p : path) (a b : string) (q : path) :
  a <> b -> ~ ((p ++ [a]) `prefix_of` (p ++ b :: q)).
Proof.
  intros Hne Hpre. apply prefix_app_inv in Hpre.
  apply prefix_cons_inv_1 in Hpre. contradiction.
Qed.

(** *** The checks mean what they say *)

Lemma forallb_map_to_list (f : gmap path Entry) (check : path * Entry -> bool) :
  forallb check (map_to_list f) = true ->
  forall p e, f !! p = Some e -> check (p, e) = true.
Proof.
  intros Hall p e Hp. rewrite forallb_forall in Hall. apply Hall.
  apply list_elem_of_In. apply elem_of_map_to_list. exact Hp.
Qed.

Lemma fresh_sound (f : gmap path Entry) (dir : path) :
  fresh f dir = true -> forall q, f !! (dir ++ q) = None.
Proof.
  intros Hfresh q. destruct (f !! (dir ++ q)) as [e|] eqn:He; [|reflexivity].
  pose proof (forallb_map_to_list _ _ Hfresh _ _ He) as Hc. simpl in Hc.
  rewrite (proj2 (below_spec dir (dir ++ q) q) eq_refl) in Hc. discriminate.
Qed.

Lemma depth_below_sound (f : gmap path Entry) (dir : path) (n : nat) :
  depth_below f dir n = true ->
  forall q, is_Some (f !! (dir ++ q)) -> (length q < n)%nat.
Proof.
  intros Hdepth q [e He].
  pose proof (forallb_map_to_list _ _ Hdepth _ _ He) as Hc. simpl in Hc.
  rewrite (proj2 (below_spec dir (dir ++ q) q) eq_refl) in Hc.
  apply bool_decide_eq_true_1 in Hc. exact Hc.
Qed.

Lemma tree_ok_sound (f : gmap path Entry) (dir : path) :
  tree_ok f dir = true ->
  forall q e, f !! (dir ++ q) = Some e ->
    (".." ∉ q) /\ (q <> [] -> f !! (dir ++ removelast q) = Some Directory).
Proof.
  intros Hok q e He.
  pose proof (forallb_map_to_list _ _ Hok _ _ He) as Hc. simpl in Hc.
  rewrite (proj2 (below_spec dir (dir ++ q) q) eq_refl) in Hc.
  apply andb_true_iff in Hc as [Hdots Hparent]. split.
  - apply negb_true_iff in Hdots. apply bool_decide_eq_false_1 in Hdots. exact Hdots.
  - intros Hne. destruct q as [|x q]; [contradiction|].
    destruct (f !! (dir ++ removelast (x :: q))) as [[|]|]; try discriminate. reflexivity.
Qed.

Lemma apart_sound (a b : path) :
  apart a b = true -> ~ (a `prefix_of` b) /\ ~ (b `prefix_of` a).
Proof.
  unfold apart. destruct (Fs.below a b) eqn:Hab; [discriminate|].
  destruct (Fs.below b a) eqn:Hba; [discriminate|]. intros _.
  split; apply below_None; assumption.
Qed.

Lemma no_file_on_the_way_sound (f : gmap path Entry) (p q : path) (data : string) :
  no_file_on_the_way f p = true -> q `prefix_of` p -> f !! q <> Some (File data).
Proof.
  intros Hway [k ->] Hfile. unfold no_file_on_the_way in Hway.
  rewrite forallb_forall in Hway.
  assert (Hin : In (length q) (seq 0 (S (length (q ++ k))))).
  { apply in_seq. rewrite length_app. lia. }
  specialize (Hway (length q) Hin). cbv beta in Hway.
  rewrite take_app_length, Hfile in Hway. discriminate.
Qed.

Lemma no_directory_among_sound (f : gmap path Entry) (dir : path) (names : list string)
    (name : string) :
  no_directory_among f dir names = true -> name ∈ names ->
  f !! (dir ++ [name]) <> Some Directory.
Proof.
  intros Hnone Hin Hdir. unfold no_directory_among in Hnone.
  rewrite forallb_forall in Hnone. apply list_elem_of_In in Hin.
  specialize (Hnone name Hin). rewrite Hdir in Hnone. discriminate.
Qed.

(** *** [mkdir -p] *)

Lemma mkdir_from_spec (rest : list string) :
  forall (f : gmap path Entry) (done : path),
    (forall k data, (k <= length rest)%nat -> f !! (done ++ take k rest) <> Some (File data)) ->
    exists f1,
      Fs.mkdir_from f done rest = Some f1
      /\ (forall k, (k <= length rest)%nat -> f1 !! (done ++ take k rest) = Some Directory)
      /\ (forall q, (forall k, (k <= length rest)%nat -> q <> done ++ take k rest) ->
                    f1 !! q = f !! q).
Proof.
  induction rest as [|seg rest IH]; intros f done Hway.
  - exists (<[done := Directory]> f). split; [|split].
    + simpl. destruct (f !! done) as [[data|]|] eqn:Hdone; try reflexivity.
      exfalso. apply (Hway 0%nat data); [simpl; lia|].
      simpl. rewrite app_nil_r. exact Hdone.
    + intros k Hk. rewrite take_nil, app_nil_r. apply lookup_insert_eq.
    + intros q Hq. apply lookup_insert_ne. intros <-.
      apply (Hq 0%nat); [simpl; lia|]. simpl. rewrite app_nil_r. reflexivity.
  - assert (Hlonger : forall k, done <> (done ++ [seg]) ++ take k rest).
    { intros k Heq. rewrite <- app_assoc in Heq.
      rewrite <- (app_nil_r done) in Heq at 1. apply app_inv_head in Heq. discriminate. }
    destruct (IH (<[done := Directory]> f) (done ++ [seg])) as (f1 & Hrun & Hdirs & Hframe).
    { intros k data Hk. rewrite lookup_insert_ne by apply Hlonger.
      rewrite <- app_assoc. apply (Hway (S k) data). simpl. lia. }
    exists f1. split; [|split].
    + simpl. destruct (f !! done) as [[data|]|] eqn:Hdone; try exact Hrun.
      exfalso. apply (Hway 0%nat data); [simpl; lia|].
      simpl. rewrite app_nil_r. exact Hdone.
    + intros [|k] Hk.
      * simpl. rewrite app_nil_r. rewrite Hframe.
        -- apply lookup_insert_eq.
        -- intros k _. apply Hlonger.
      * simpl. specialize (Hdirs k). rewrite <- app_assoc in Hdirs. apply Hdirs.
        simpl in Hk. lia.
    + intros q Hq. rewrite Hframe.
      * apply lookup_insert_ne. intros <-. apply (Hq 0%nat); [simpl; lia|].
        simpl. rewrite app_nil_r. reflexivity.
      * intros k Hk. rewrite <- app_assoc. apply (Hq (S k)). simpl. lia.
Qed.

Lemma prefix_as_take (q p : path) :
  q `prefix_of` p <-> exists k, (k <= length p)%nat /\ q = take k p.
Proof.
  split.
  - intros [rest ->]. exists (length q). split.
    + rewrite length_app. lia.
    + rewrite take_app_length. reflexivity.
  - intros (k & _ & ->). exists (drop k p). rewrite take_drop. reflexivity.
Qed.

(** With no file in the way, [mkdir -p] succeeds, turns the path and its
    ancestors into directories and leaves everything else alone. *)
Lemma mkdir_recursive_spec (f : gmap path Entry) (p : path) :
  (forall q data, q `prefix_of` p -> f !! q <> Some (File data)) ->
  exists f1,
    Fs.mkdir_recursive f p = Some f1
    /\ (forall q, q `prefix_of` p -> f1 !! q = Some Directory)
    /\ (forall q, ~ (q `prefix_of` p) -> f1 !! q = f !! q).
Proof.
  intros Hway. unfold Fs.mkdir_recursive.
  destruct (mkdir_from_spec p f []) as (f1 & Hrun & Hdirs & Hframe).
  { intros k data Hk. simpl. apply Hway.
    apply prefix_as_take. exists k. split; [exact Hk|reflexivity]. }
  exists f1. split; [exact Hrun|]. split.
  - intros q Hq. apply prefix_as_take in Hq as (k & Hk & ->). apply (Hdirs k Hk).
  - intros q Hq. apply Hframe. intros k Hk ->. apply Hq.
    apply prefix_as_take. exists k. split; [exact Hk|reflexivity].
Qed.

(** *** Steps of the monad on a given file system *)

Lemma set_fs_same (st : State) : set_fs (fs (world st)) st = st.
Proof. destruct st as [? ? ? ? []]. reflexivity. Qed.

Lemma bind_return {A B} (m : M A) (k : A -> M B) (st st' : State) (a : A) :
  m st = (Return a, st') -> bind m k st = k a st'.
Proof. intros Hm. unfold bind. rewrite Hm. reflexivity. Qed.

Lemma existsSync_step (p : path) (st : State) :
  existsSync p st = (Return (Fs.exists_ (fs (world st)) p), st).
Proof. reflexivity. Qed.

Lemma mkdirSync_step (p : path) (st : State) (f1 : gmap path Entry) :
  Fs.mkdir_recursive (fs (world st)) p = Some f1 ->
  mkdirSync_recursive p st = (Return tt, set_fs f1 st).
Proof. intros Hmk. unfold mkdirSync_recursive, fs_update. rewrite Hmk. reflexivity. Qed.

Lemma copyFileSync_step (src dst : path) (st : State) (f1 : gmap path Entry) :
  Fs.copy_file (fs (world st)) src dst = Some f1 ->
  copyFileSync src dst st = (Return tt, set_fs f1 st).
Proof. intros Hcp. unfold copyFileSync, fs_update. rewrite Hcp. reflexivity. Qed.

Lemma readdirSync_step (p : path) (st : State) (names : list string) :
  Fs.readdir (fs (world st)) p = Some names ->
  readdirSync p st = (Return names, st).
Proof. intros Hrd. unfold readdirSync. rewrite Hrd. reflexivity. Qed.

Lemma statSync_step (p : path) (st : State) (e : Entry) :
  fs (world st) !! p = Some e -> statSync p st = (Return e, st).
Proof. intros Hst. unfold statSync. rewrite Hst. reflexivity. Qed.

(** Copying a regular file into an existing directory, onto nothing. *)
Lemma copy_file_fresh (f : gmap path Entry) (src dir : path) (name data : string) :
  f !! src = Some (File data) ->
  f !! dir = Some Directory ->
  f !! (dir ++ [name]) = None ->
  Fs.copy_file f src (dir ++ [name]) = Some (<[dir ++ [name] := File data]> f).
Proof.
  intros Hsrc Hdir Hnew. unfold Fs.copy_file.
  rewrite Hsrc, removelast_last, Hdir, Hnew. reflexivity.
Qed.

(** *** Directory listings *)

Lemma readdir_names (f : gmap path Entry) (p : path) :
  f !! p = Some Directory ->
  exists names,
    Fs.readdir f p = Some names
    /\ NoDup names
    /\ (forall name, name ∈ names <-> is_Some (f !! (p ++ [name]))).
Proof.
  intros Hdir. unfold Fs.readdir. rewrite Hdir.
  eexists. split; [reflexivity|]. split.
  - pose proof (NoDup_fst_map_to_list f) as Hnodup.
    induction (map_to_list f) as [|[k e] l IH]; simpl; [constructor|].
    simpl in Hnodup. apply NoDup_cons in Hnodup as [Hk Hl].
    destruct (Fs.child_name p k) as [name|] eqn:Hname; [|apply IH; exact Hl].
    apply NoDup_cons. split; [|apply IH; exact Hl].
    intros Hin. apply list_elem_of_omap in Hin as ([k' e'] & Hin' & Hname').
    simpl in Hname'. apply child_name_spec in Hname, Hname'. subst k k'.
    apply Hk. apply list_elem_of_fmap. exists (p ++ [name], e'). split; [reflexivity|exact Hin'].
  - intros name. rewrite list_elem_of_omap. split.
    + intros ([k e] & Hin & Hname). simpl in Hname. apply child_name_spec in Hname. subst k.
      apply elem_of_map_to_list in Hin. exists e. exact Hin.
    + intros [e He]. exists (p ++ [name], e). split.
      * apply elem_of_map_to_list. exact He.
      * simpl. apply child_name_spec. reflexivity.
Qed.

(** In a well-formed tree, whatever has something below it is a directory. *)
Lemma ancestor_is_directory (f : gmap path Entry) (dir : path) :
  (forall q e, f !! (dir ++ q) = Some e ->
     (".." ∉ q) /\ (q <> [] -> f !! (dir ++ removelast q) = Some Directory)) ->
  forall q2 q1 e, q2 <> [] -> f !! (dir ++ q1 ++ q2) = Some e ->
    f !! (dir ++ q1) = Some Directory.
Proof.
  intros Hok q2. induction q2 as [|x q2 IH] using rev_ind; intros q1 e Hne He.
  - contradiction.
  - destruct (Hok (q1 ++ q2 ++ [x]) e He) as [_ Hparent].
    assert (Hup : f !! (dir ++ q1 ++ q2) = Some Directory).
    { rewrite app_assoc, removelast_last in Hparent. apply Hparent.
      intros Hnil. apply app_eq_nil in Hnil as [_ Hnil]. discriminate. }
    destruct q2 as [|y q2].
    + rewrite app_nil_r in Hup. exact Hup.
    + apply (IH q1 Directory); [discriminate|exact Hup].
Qed.

(** *** The loop over the allow-list *)

Lemma backup_files_spec (f0 : gmap path Entry) (wd bp : path) :
  ~ (wd `prefix_of` bp) -> ~ (bp `prefix_of` wd) ->
  forall (todo acc : list string) (fsc : gmap path Entry) (st : State),
    NoDup todo ->
    (forall name, name ∈ todo -> name <> ".." /\ f0 !! (wd ++ [name]) <> Some Directory) ->
    (forall name, fsc !! (wd ++ [name]) = f0 !! (wd ++ [name])) ->
    fsc !! bp = Some Directory ->
    (forall name, name ∈ todo -> fsc !! (bp ++ [name]) = None) ->
    exists f',
      backup_files wd bp todo acc (set_fs fsc st) =
        (Return (acc ++ filter (fun name => Fs.exists_ f0 (wd ++ [name]) = true) todo),
         set_fs f' st)
      /\ (forall name, name ∈ todo -> f' !! (bp ++ [name]) = f0 !! (wd ++ [name]))
      /\ (forall p, (forall name, name ∈ todo -> p <> bp ++ [name]) -> f' !! p = fsc !! p).
Proof.
  intros Hwb Hbw todo. induction todo as [|name rest IH];
    intros acc fsc st Hnodup Hlisted Hsrc Hdir Hnew.
  - exists fsc. simpl. rewrite app_nil_r. split; [reflexivity|]. split.
    + intros name Hin. inversion Hin.
    + intros p _. reflexivity.
  - apply NoDup_cons in Hnodup as [Hname Hnodup].
    destruct (Hlisted name) as [Hdots Hnotdir]; [left|].
    assert (Hrest : forall n, n ∈ rest ->
                      n <> ".." /\ f0 !! (wd ++ [n]) <> Some Directory).
    { intros n Hn. apply Hlisted. right. exact Hn. }
    simpl backup_files. rewrite !(path_join_one _ name Hdots).
    erewrite bind_return; [|apply existsSync_step].
    change (fs (world (set_fs fsc st))) with fsc.
    unfold Fs.exists_ at 1. rewrite Hsrc.
    destruct (f0 !! (wd ++ [name])) as [[data|]|] eqn:Hf0; [| contradiction |].
    + (* the file exists: it is copied *)
      assert (Hcopy : Fs.copy_file fsc (wd ++ [name]) (bp ++ [name]) =
                      Some (<[bp ++ [name] := File data]> fsc)).
      { apply copy_file_fresh; [rewrite Hsrc; exact Hf0 | exact Hdir |].
        apply Hnew. left. }
      destruct (IH (acc ++ [name]) (<[bp ++ [name] := File data]> fsc) st)
        as (f' & Hrun & Hcopied & Hframe); [exact Hnodup | exact Hrest | | | |].
      * intros n. rewrite lookup_insert_ne; [apply Hsrc|].
        intros Heq. apply app_inj_tail in Heq as [-> _]. apply Hwb. reflexivity.
      * rewrite lookup_insert_ne; [exact Hdir|].
        intros Heq. rewrite <- (app_nil_r bp) in Heq at 2.
        apply app_inv_head in Heq. discriminate.
      * intros n Hn. rewrite lookup_insert_ne; [apply Hnew; right; exact Hn|].
        intros Heq. apply app_inj_tail in Heq as [_ ->]. contradiction.
      * exists f'. split; [|split].
        -- cbv iota.
           rewrite (bind_return _ _ _ (set_fs (<[bp ++ [name]:=File data]> fsc) st)
                                (acc ++ [name])).
           2:{ unfold bind.
               rewrite (copyFileSync_step (wd ++ [name]) (bp ++ [name]) (set_fs fsc st) _ Hcopy).
               reflexivity. }
           rewrite Hrun. rewrite filter_cons_True.
           ++ rewrite <- app_assoc. reflexivity.
           ++ unfold Fs.exists_. rewrite Hf0. reflexivity.
        -- intros n Hn. apply elem_of_cons in Hn as [->|Hn]; [|apply Hcopied; exact Hn].
           rewrite Hframe.
           ++ rewrite lookup_insert_eq, Hf0. reflexivity.
           ++ intros n Hn Heq. apply app_inj_tail in Heq as [_ ->]. contradiction.
        -- intros p Hp. rewrite Hframe.
           ++ apply lookup_insert_ne. intros <-. apply (Hp name); [left|reflexivity].
           ++ intros n Hn. apply Hp. right. exact Hn.
    + (* the file is absent: it is skipped *)
      destruct (IH acc fsc st) as (f' & Hrun & Hcopied & Hframe);
        [exact Hnodup | exact Hrest | exact Hsrc | exact Hdir | |].
      * intros n Hn. apply Hnew. right. exact Hn.
      * exists f'. split; [|split].
        -- cbv iota.
           rewrite (bind_return _ _ _ (set_fs fsc st) acc) by reflexivity.
           rewrite Hrun. rewrite filter_cons_False; [reflexivity|].
           unfold Fs.exists_. rewrite Hf0. discriminate.
        -- intros n Hn. apply elem_of_cons in Hn as [->|Hn]; [|apply Hcopied; exact Hn].
           rewrite Hframe.
           ++ rewrite Hf0. apply Hnew. left.
           ++ intros n Hn Heq. apply app_inj_tail in Heq as [_ ->]. contradiction.
        -- intros p Hp. apply Hframe. intros n Hn. apply Hp. right. exact Hn.
Qed.

(** *** Copying a directory tree *)

Lemma snoc_app (p : path) (name : string) (q : path) :
  (p ++ [name]) ++ q = p ++ name :: q.
Proof. rewrite <- app_assoc. reflexivity. Qed.

(** Creating a fresh directory whose ancestors are all there. *)
Lemma mkdir_leaf (f : gmap path Entry) (dst : path) :
  f !! dst = None ->
  (forall q, q `prefix_of` dst -> q <> dst -> f !! q = Some Directory) ->
  exists f1,
    Fs.mkdir_recursive f dst = Some f1
    /\ f1 !! dst = Some Directory
    /\ (forall p, p <> dst -> f1 !! p = f !! p).
Proof.
  intros Hnew Habove.
  destruct (mkdir_recursive_spec f dst) as (f1 & Hrun & Hdirs & Hframe).
  { intros q data Hq Hfile. destruct (decide (q = dst)) as [->|Hne].
    - congruence.
    - rewrite (Habove q Hq Hne) in Hfile. discriminate. }
  exists f1. split; [exact Hrun|]. split; [apply Hdirs; reflexivity|].
  intros p Hp. destruct (decide (p `prefix_of` dst)) as [Hpre|Hpre].
  - rewrite (Hdirs p Hpre), (Habove p Hpre Hp). reflexivity.
  - apply Hframe. exact Hpre.
Qed.

(** The loop over the items of one directory, given that [copyDirectory]
    with [fuel] does its job on every subdirectory. *)
Lemma copy_items_spec (fuel : nat) (f : gmap path Entry) (src dst : path) (st : State) :
  (forall f2 src2 dst2, copy_ready f2 src2 dst2 fuel ->
     exists f', copyDirectory fuel src2 dst2 (set_fs f2 st) = (Return tt, set_fs f' st)
                /\ copied f2 f' src2 dst2) ->
  copy_ready f src dst (S fuel) ->
  forall (todo : list string) (fsc : gmap path Entry),
    NoDup todo ->
    (forall item, item ∈ todo -> is_Some (f !! (src ++ [item]))) ->
    (forall p, ~ (dst `prefix_of` p) -> fsc !! p = f !! p) ->
    fsc !! dst = Some Directory ->
    (forall item q, item ∈ todo -> fsc !! (dst ++ item :: q) = None) ->
    exists f',
      for_each todo
        (fun item =>
           let sourcePath := path_join src [item] in
           let destPath := path_join dst [item] in
           let* stat := statSync sourcePath in
           if isDirectory stat
           then copyDirectory fuel sourcePath destPath
           else copyFileSync sourcePath destPath) (set_fs fsc st)
      = (Return tt, set_fs f' st)
      /\ (forall item q, item ∈ todo -> f' !! (dst ++ item :: q) = f !! (src ++ item :: q))
      /\ (forall p, (forall item, item ∈ todo -> ~ ((dst ++ [item]) `prefix_of` p)) ->
                    f' !! p = fsc !! p).
Proof.
  intros Hrec (Hsrc & Hok & Hdepth & Hsd & Hds & Hfresh & Habove) todo.
  assert (Hagree : forall fsc : gmap path Entry,
            (forall p, ~ (dst `prefix_of` p) -> fsc !! p = f !! p) ->
            forall q, fsc !! (src ++ q) = f !! (src ++ q)).
  { intros fsc Hframe q. apply Hframe. intros Hpre.
    assert (Hs : src `prefix_of` src ++ q) by (apply prefix_app_r; reflexivity).
    destruct (prefix_weak_total _ _ _ Hpre Hs); contradiction. }
  induction todo as [|item rest IH]; intros fsc Hnodup Hitems Hframe Hdir Hnew.
  - exists fsc. split; [reflexivity|]. split.
    + intros item q Hin. inversion Hin.
    + intros p _. reflexivity.
  - apply NoDup_cons in Hnodup as [Hitem Hnodup].
    destruct (Hitems item) as [e He]; [left|].
    assert (Hdots : item <> "..").
    { destruct (Hok [item] e He) as [Hnot _]. intros ->. apply Hnot. left. }
    assert (Hcur : fsc !! (src ++ [item]) = Some e) by (rewrite Hagree; assumption).
    assert (Hsiblings : forall item', item' ∈ rest -> item <> item').
    { intros item' Hin ->. contradiction. }
    simpl for_each. rewrite !(path_join_one _ item Hdots).
    (* what the body does to this item *)
    assert (Hbody : exists f2,
              (let* stat := statSync (src ++ [item]) in
               if isDirectory stat
               then copyDirectory fuel (src ++ [item]) (dst ++ [item])
               else copyFileSync (src ++ [item]) (dst ++ [item])) (set_fs fsc st)
              = (Return tt, set_fs f2 st)
              /\ (forall q, f2 !! (dst ++ item :: q) = f !! (src ++ item :: q))
              /\ (forall p, ~ ((dst ++ [item]) `prefix_of` p) -> f2 !! p = fsc !! p)).
    { rewrite (bind_return _ _ _ (set_fs fsc st) e)
        by (apply statSync_step; exact Hcur).
      destruct e as [data|]; simpl isDirectory; cbv iota.
      - (* a regular file *)
        exists (<[dst ++ [item] := File data]> fsc). split; [|split].
        + apply (copyFileSync_step _ _ (set_fs fsc st)).
          apply copy_file_fresh; [exact Hcur | exact Hdir |].
          apply (Hnew item []). left.
        + intros [|x q].
          * rewrite lookup_insert_eq. symmetry. exact He.
          * rewrite lookup_insert_ne.
            -- rewrite (Hnew item (x :: q)) by left.
               destruct (f !! (src ++ item :: x :: q)) as [e'|] eqn:Hdeep; [|reflexivity].
               exfalso.
               pose proof (ancestor_is_directory f src Hok (x :: q) [item] e') as Hup.
               rewrite He in Hup. discriminate Hup; [discriminate|exact Hdeep].
            -- intros Heq. change (dst ++ [item] ++ [] = dst ++ [item] ++ x :: q) in Heq.
               apply app_inv_head in Heq. discriminate.
        + intros p Hp. apply lookup_insert_ne. intros <-. apply Hp. reflexivity.
      - (* a subdirectory *)
        destruct (Hrec fsc (src ++ [item]) (dst ++ [item])) as (f2 & Hrun & Hcopied & Hout).
        { split; [exact Hcur|]. split; [|split; [|split; [|split; [|split]]]].
          - intros q e Hq. rewrite snoc_app, Hagree in Hq by exact Hframe.
            destruct (Hok (item :: q) e Hq) as [Hnot Hparent]. split.
            + intros Hin. apply Hnot. right. exact Hin.
            + intros Hne. rewrite snoc_app, Hagree by exact Hframe.
              destruct q as [|x q]; [contradiction|]. apply Hparent. discriminate.
          - intros q Hq. rewrite snoc_app, Hagree in Hq by exact Hframe.
            specialize (Hdepth (item :: q) Hq). simpl in Hdepth. lia.
          - apply apart_extend; assumption.
          - apply apart_extend; assumption.
          - intros q. rewrite snoc_app. apply Hnew. left.
          - intros q Hq Hne. apply prefix_snoc_inv in Hq as [->|Hq]; [contradiction|].
            destruct (decide (q = dst)) as [->|Hne']; [exact Hdir|].
            rewrite Hframe.
            + apply Habove; assumption.
            + intros Hback. apply Hne'. apply (anti_symm prefix); assumption. }
        exists f2. split; [exact Hrun|]. split.
        + intros q. rewrite <- snoc_app, Hcopied, snoc_app. apply Hagree. exact Hframe.
        + exact Hout. }
    destruct Hbody as (f2 & Hstep & Hcopied & Hout).
    destruct (IH f2) as (f' & Hrun & Hrest & Hleft); [exact Hnodup | | | | |].
    + intros item' Hin. apply Hitems. right. exact Hin.
    + intros p Hp. rewrite Hout; [apply Hframe; exact Hp|].
      intros Hpre. apply Hp. etransitivity; [|exact Hpre].
      apply prefix_app_r. reflexivity.
    + rewrite Hout; [exact Hdir|]. apply prefix_snoc_not.
    + intros item' q Hin. rewrite Hout.
      * apply Hnew. right. exact Hin.
      * apply sibling_not_below. apply Hsiblings. exact Hin.
    + exists f'. split; [|split].
      * rewrite (bind_return _ _ _ (set_fs f2 st) tt) by exact Hstep. exact Hrun.
      * intros item' q Hin. apply elem_of_cons in Hin as [->|Hin].
        -- rewrite Hleft; [apply Hcopied|].
           intros item' Hin. apply sibling_not_below. intros ->. contradiction.
        -- apply Hrest. exact Hin.
      * intros p Hp. rewrite Hleft.
        -- apply Hout. apply Hp. left.
        -- intros item' Hin. apply Hp. right. exact Hin.
Qed.

(** With enough fuel for its depth, a well-formed tree is copied whole to
    a fresh place, and nothing outside that place changes. *)
Lemma copyDirectory_spec (fuel : nat) :
  forall (f : gmap path Entry) (src dst : path) (st : State),
    copy_ready f src dst fuel ->
    exists f',
      copyDirectory fuel src dst (set_fs f st) = (Return tt, set_fs f' st)
      /\ copied f f' src dst.
Proof.
  induction fuel as [|fuel IH]; intros f src dst st Hready.
  - destruct Hready as (Hsrc & _ & Hdepth & _). exfalso.
    specialize (Hdepth []). rewrite app_nil_r, Hsrc in Hdepth.
    specialize (Hdepth (ex_intro _ Directory eq_refl)). simpl in Hdepth. lia.
  - pose proof Hready as (Hsrc & Hok & Hdepth & Hsd & Hds & Hfresh & Habove).
    assert (Hnew : f !! dst = None) by (rewrite <- (app_nil_r dst); apply Hfresh).
    destruct (mkdir_leaf f dst Hnew Habove) as (f1 & Hmk & Hdir1 & Hframe1).
    assert (Hoff : forall p, ~ (dst `prefix_of` p) -> f1 !! p = f !! p).
    { intros p Hp. apply Hframe1. intros ->. apply Hp. reflexivity. }
    assert (Hchild : forall name, f1 !! (src ++ [name]) = f !! (src ++ [name])).
    { intros name. apply Hoff. intros Hpre.
      apply prefix_snoc_inv in Hpre as [Heq|Hpre]; [|contradiction].
      apply Hsd. rewrite Heq. apply prefix_app_r. reflexivity. }
    destruct (readdir_names f1 src) as (names & Hrd & Hnodup & Hnames).
    { rewrite Hoff; assumption. }
    destruct (copy_items_spec fuel f src dst st (fun f2 s2 d2 => IH f2 s2 d2 st)
                Hready names f1 Hnodup) as (f' & Hloop & Hitems & Hleft).
    { intros item Hin. rewrite <- Hchild. apply Hnames. exact Hin. }
    { exact Hoff. }
    { exact Hdir1. }
    { intros item q _. rewrite Hframe1.
      - apply Hfresh.
      - intros Heq. rewrite <- (app_nil_r dst) in Heq at 2.
        apply app_inv_head in Heq. discriminate. }
    exists f'. split.
    + simpl copyDirectory.
      rewrite (bind_return _ _ _ (set_fs f st) false).
      2:{ rewrite existsSync_step. unfold Fs.exists_. simpl. rewrite Hnew. reflexivity. }
      simpl negb. cbv iota.
      rewrite (bind_return _ _ _ (set_fs f1 st) tt).
      2:{ apply (mkdirSync_step dst (set_fs f st)). exact Hmk. }
      rewrite (bind_return _ _ _ (set_fs f1 st) names).
      2:{ apply (readdirSync_step src (set_fs f1 st)). exact Hrd. }
      exact Hloop.
    + split.
      * intros [|x q].
        -- rewrite !app_nil_r. rewrite Hleft; [rewrite Hdir1, Hsrc; reflexivity|].
           intros item _. apply prefix_snoc_not.
        -- destruct (decide (x ∈ names)) as [Hin|Hout]; [apply Hitems; exact Hin|].
           rewrite Hleft.
           ++ rewrite Hframe1.
              ** rewrite Hfresh.
                 destruct (f !! (src ++ x :: q)) as [e|] eqn:Hdeep; [|reflexivity].
                 exfalso. apply Hout. apply Hnames. rewrite Hchild.
                 destruct q as [|y q]; [exists e; exact Hdeep|].
                 exists Directory.
                 apply (ancestor_is_directory f src Hok (y :: q) [x] e);
                   [discriminate|exact Hdeep].
              ** intros Heq. rewrite <- (app_nil_r dst) in Heq at 2.
                 apply app_inv_head in Heq. discriminate.
           ++ intros item Hin. apply sibling_not_below. intros ->. contradiction.
      * intros p Hp. rewrite Hleft; [apply Hoff; exact Hp|].
        intros item _ Hpre. apply Hp. etransitivity; [|exact Hpre].
        apply prefix_app_r. reflexivity.
Qed.

(** *** [createBackup] *)

Lemma filesToBackup_NoDup : NoDup filesToBackup.
Proof. apply (bool_decide_unpack _). vm_compute. exact I. Qed.

Lemma filesToBackup_names (name : string) :
  name ∈ filesToBackup -> name <> ".." /\ name <> "world".
Proof.
  unfold filesToBackup. intros Hin.
  repeat (apply elem_of_cons in Hin as [->|Hin]; [split; discriminate|]).
  inversion Hin.
Qed.

Lemma backup_name_ok (stamp : string) : "backup-" +:+ stamp <> "..".
Proof. change ("backup-" +:+ stamp) with (String "b"%char ("ackup-" +:+ stamp)). discriminate. Qed.

(** Two extensions that meet make their stems comparable. *)
Lemma meet_comparable (a b x y : path) :
  a ++ x = b ++ y -> a `prefix_of` b \/ b `prefix_of` a.
Proof.
  intros Heq. apply (prefix_weak_total a b (a ++ x)).
  - apply prefix_app_r. reflexivity.
  - rewrite Heq. apply prefix_app_r. reflexivity.
Qed.

(** "Create the directory unless it exists": afterwards the file system
    differs from the one before at most by directories at the path and its
    ancestors. *)
Lemma ensure_directory_step (dir : path) (st : State) :
  (forall q data, q `prefix_of` dir -> fs (world st) !! q <> Some (File data)) ->
  exists fa,
    (forall (B : Type) (K : unit -> M B),
       bind (existsSync dir)
            (fun found => bind (if negb found then mkdirSync_recursive dir else ret tt) K) st
       = K tt (set_fs fa st))
    /\ (forall q, ~ (q `prefix_of` dir) -> fa !! q = fs (world st) !! q)
    /\ (forall q, fa !! q = fs (world st) !! q \/ fa !! q = Some Directory).
Proof.
  intros Hway. destruct (Fs.exists_ (fs (world st)) dir) eqn:Hfound.
  - exists (fs (world st)). split; [|split].
    + intros B K. rewrite (bind_return _ _ _ st true) by (rewrite existsSync_step, Hfound; reflexivity).
      simpl negb. cbv iota. rewrite (bind_return _ _ _ st tt) by reflexivity.
      rewrite set_fs_same. reflexivity.
    + intros q _. reflexivity.
    + intros q. left. reflexivity.
  - destruct (mkdir_recursive_spec (fs (world st)) dir Hway) as (fa & Hmk & Hdirs & Hframe).
    exists fa. split; [|split].
    + intros B K. rewrite (bind_return _ _ _ st false) by (rewrite existsSync_step, Hfound; reflexivity).
      simpl negb. cbv iota.
      rewrite (bind_return _ _ _ (set_fs fa st) tt) by (apply mkdirSync_step; exact Hmk).
      reflexivity.
    + exact Hframe.
    + intros q. destruct (decide (q `prefix_of` dir)) as [Hq|Hq].
      * right. apply Hdirs. exact Hq.
      * left. apply Hframe. exact Hq.
Qed.

Lemma createBackup_registered (fuel : nat) (processName : string) (st : State)
    (info : ProcessInfo) :
  processes (processManager st) !! processName = Some info ->
  no_file_on_the_way (fs (world st)) (backup_target st) = true ->
  fresh (fs (world st)) (backup_target st) = true ->
  apart (backup_source st info) (backup_target st) = true ->
  no_directory_among (fs (world st)) (backup_source st info) filesToBackup = true ->
  not_a_file (fs (world st)) (backup_source st info ++ ["world"]) = true ->
  tree_ok (fs (world st)) (backup_source st info ++ ["world"]) = true ->
  depth_below (fs (world st)) (backup_source st info ++ ["world"]) fuel = true ->
  exists f',
    createBackup fuel processName st =
      (Return {| backupPath := backup_target st; timestamp := backup_stamp st;
                 files := backed_up (fs (world st)) (backup_source st info) |},
       set_fs f' (with_world tick st))
    /\ (forall name, name ∈ filesToBackup ->
          f' !! (backup_target st ++ [name]) = fs (world st) !! (backup_source st info ++ [name]))
    /\ (forall q, f' !! (backup_target st ++ "world" :: q)
                  = fs (world st) !! (backup_source st info ++ "world" :: q))
    /\ (forall p, ~ (p `prefix_of` backup_target st) -> ~ (backup_target st `prefix_of` p) ->
                  f' !! p = fs (world st) !! p).
Proof.
  intros Hget Hway Hfresh Hapart Hfiles Hworld Htree Hdepth.
  pose proof (fresh_sound _ _ Hfresh) as Hnone.
  destruct (apart_sound _ _ Hapart) as [Hwb Hbw].
  pose proof (tree_ok_sound _ _ Htree) as Hok.
  pose proof (depth_below_sound _ _ _ Hdepth) as Hdeep.
  unfold createBackup.
  rewrite (bind_return _ _ st st (Some info))
    by (unfold processes_get, gets; rewrite Hget; reflexivity).
  rewrite (bind_return _ _ st st (dirname (world st))) by reflexivity.
  cbv zeta.
  rewrite !path_join_parent by discriminate.
  fold (backup_source st info).
  set (f := fs (world st)) in *.
  set (wd := backup_source st info) in *.
  set (bp := backup_target st) in *.
  set (backupDir := removelast (dirname (world st)) ++ ["backups"]).
  assert (Hbd : backupDir `prefix_of` bp).
  { exists ["backup-" +:+ backup_stamp st]. unfold bp, backup_target, backupDir.
    rewrite <- app_assoc. reflexivity. }
  destruct (ensure_directory_step backupDir st) as (fa & Hens & Hfa_off & Hfa_any).
  { intros q data Hq. apply (no_file_on_the_way_sound f bp); [exact Hway|].
    etransitivity; eassumption. }
  rewrite Hens.
  rewrite (bind_return _ _ _ (set_fs fa (with_world tick st)) (clock (world st) (ticks (world st))))
    by reflexivity.
  rewrite (path_join_one _ _ (backup_name_ok _)).
  change (replace_colon_dot (toISOString (clock (world st) (ticks (world st)))))
    with (backup_stamp st).
  replace (backupDir ++ ["backup-" +:+ backup_stamp st]) with bp
    by (unfold bp, backup_target, backupDir; rewrite <- app_assoc; reflexivity).
  rewrite !(path_join_one _ "world") by discriminate.
  set (st_t := with_world tick st).
  (* the backup directory itself *)
  destruct (mkdir_recursive_spec fa bp) as (f1 & Hmk & Hdirs1 & Hoff1).
  { intros q data Hq Hfile.
    destruct (Hfa_any q) as [Heq|Heq]; rewrite Heq in Hfile; [|discriminate].
    exact (no_file_on_the_way_sound f bp q data Hway Hq Hfile). }
  rewrite (bind_return _ _ _ (set_fs f1 st_t) tt)
    by (apply (mkdirSync_step bp (set_fs fa st_t)); exact Hmk).
  assert (Hf1_off : forall p, ~ (p `prefix_of` bp) -> f1 !! p = f !! p).
  { intros p Hp. rewrite Hoff1 by exact Hp. apply Hfa_off.
    intros Hq. apply Hp. etransitivity; eassumption. }
  (* the allow-list *)
  destruct (backup_files_spec f wd bp Hwb Hbw filesToBackup [] f1 st_t filesToBackup_NoDup)
    as (f2 & Hloop & Hcopied & Hoff2).
  { intros name Hin. split; [apply filesToBackup_names; exact Hin|].
    apply (no_directory_among_sound f wd filesToBackup); assumption. }
  { intros name. apply Hf1_off. intros Hpre. apply Hwb. eapply prefix_app_l. exact Hpre. }
  { apply Hdirs1. reflexivity. }
  { intros name _. rewrite Hf1_off; [apply Hnone | apply prefix_snoc_not]. }
  rewrite (bind_return _ _ _ _ _ Hloop). rewrite app_nil_l.
  assert (Hsrc_agree : forall q, f2 !! (wd ++ "world" :: q) = f !! (wd ++ "world" :: q)).
  { intros q. rewrite Hoff2, Hf1_off; [reflexivity | |].
    - intros Hpre. apply Hwb. eapply prefix_app_l. exact Hpre.
    - intros name _ Heq. destruct (meet_comparable _ _ _ _ Heq); contradiction. }
  assert (Hdst_none : forall q, f2 !! (bp ++ "world" :: q) = None).
  { intros q. rewrite Hoff2, Hf1_off; [apply Hnone | |].
    - intros Hpre. apply prefix_length in Hpre. rewrite length_app in Hpre.
      simpl in Hpre. lia.
    - intros name Hin Heq. apply app_inv_head in Heq. injection Heq as <- _.
      destruct (filesToBackup_names "world" Hin) as [_ Hne]. contradiction. }
  (* the world directory *)
  rewrite (bind_return _ _ _ (set_fs f2 st_t) (Fs.exists_ f (wd ++ ["world"]))).
  2:{ rewrite existsSync_step. change (fs (world (set_fs f2 st_t))) with f2.
      unfold Fs.exists_. rewrite (Hsrc_agree []). reflexivity. }
  unfold backed_up, not_a_file in *.
  destruct (f !! (wd ++ ["world"])) as [[data|]|] eqn:Hw; [discriminate | |].
  - assert (Hex : Fs.exists_ f (wd ++ ["world"]) = true)
      by (unfold Fs.exists_; rewrite Hw; reflexivity).
    rewrite !Hex.
    destruct (copyDirectory_spec fuel f2 (wd ++ ["world"]) (bp ++ ["world"]) st_t)
      as (f3 & Hcp & Hcopied3 & Hoff3).
    { split; [rewrite (Hsrc_agree []); exact Hw|].
      split; [|split; [|split; [|split; [|split]]]].
      - intros q e Hq. rewrite snoc_app, Hsrc_agree, <- snoc_app in Hq.
        destruct (Hok q e Hq) as [Hnot Hparent]. split; [exact Hnot|].
        intros Hne. rewrite snoc_app, Hsrc_agree, <- snoc_app. apply Hparent. exact Hne.
      - intros q Hq. apply Hdeep. rewrite snoc_app, <- Hsrc_agree, <- snoc_app. exact Hq.
      - apply apart_extend; assumption.
      - apply apart_extend; assumption.
      - intros q. rewrite snoc_app. apply Hdst_none.
      - intros q Hq Hne. apply prefix_snoc_inv in Hq as [->|Hq]; [contradiction|].
        rewrite Hoff2; [apply Hdirs1; exact Hq|].
        intros name _ ->. exact (prefix_snoc_not _ _ Hq). }
    exists f3. split; [|split; [|split]].
    + rewrite (bind_return _ _ _ (set_fs f3 st_t)
                 (filter (fun name => Fs.exists_ f (wd ++ [name]) = true) filesToBackup
                  ++ ["world/"])).
      2:{ rewrite (bind_return _ _ _ _ _ Hcp). reflexivity. }
      reflexivity.
    + intros name Hin. rewrite Hoff3; [apply Hcopied; exact Hin|].
      intros Hpre. apply prefix_app_inv in Hpre. apply prefix_cons_inv_1 in Hpre.
      destruct (filesToBackup_names name Hin) as [_ Hne]. congruence.
    + intros q. rewrite <- snoc_app, Hcopied3, snoc_app. apply Hsrc_agree.
    + intros p Hp1 Hp2. rewrite Hoff3, Hoff2, Hf1_off; [reflexivity | exact Hp1 | |].
      * intros name _ ->. apply Hp2. apply prefix_app_r. reflexivity.
      * intros Hpre. apply Hp2. etransitivity; [|exact Hpre].
        apply prefix_app_r. reflexivity.
  - assert (Hex : Fs.exists_ f (wd ++ ["world"]) = false)
      by (unfold Fs.exists_; rewrite Hw; reflexivity).
    rewrite !Hex.
    exists f2. split; [|split; [|split]].
    + rewrite (bind_return _ _ _ (set_fs f2 st_t)
                 (filter (fun name => Fs.exists_ f (wd ++ [name]) = true) filesToBackup))
        by reflexivity.
      rewrite app_nil_r. reflexivity.
    + exact Hcopied.
    + intros q. rewrite Hdst_none.
      destruct (f !! (wd ++ "world" :: q)) as [e|] eqn:Hd; [|reflexivity]. exfalso.
      destruct q as [|x q]; [congruence|].
      pose proof (ancestor_is_directory f (wd ++ ["world"]) Hok (x :: q) [] e) as Hup.
      rewrite app_nil_r, Hw in Hup. discriminate Hup; [discriminate|].
      rewrite snoc_app. exact Hd.
    + intros p Hp1 Hp2. rewrite Hoff2, Hf1_off; [reflexivity | exact Hp1 |].
      intros name _ ->. apply Hp2. apply prefix_app_r. reflexivity.
Qed.

(** *** The errors of a backup *)

Lemma raises_ret {A} (P : JsError -> Prop) (a : A) : raises P (ret a).
Proof. intros st e H. discriminate H. Qed.

Lemma raises_gets {A} (P : JsError -> Prop) (f : State -> A) : raises P (gets f).
Proof. intros st e H. discriminate H. Qed.

Lemma raises_bind {A B} (P : JsError -> Prop) (m : M A) (k : A -> M B) :
  raises P m -> (forall a, raises P (k a)) -> raises P (bind m k).
Proof.
  intros Hm Hk st e. unfold bind.
  destruct (m st) as [[a|e'|] st'] eqn:Hrun; simpl.
  - apply Hk.
  - intros [= <-]. apply (Hm st). rewrite Hrun. reflexivity.
  - discriminate.
Qed.

Lemma raises_for_each {A} (P : JsError -> Prop) (items : list A) (body : A -> M unit) :
  (forall item, raises P (body item)) -> raises P (for_each items body).
Proof.
  intros Hbody. induction items as [|item rest IH]; simpl.
  - apply raises_ret.
  - apply raises_bind; [apply Hbody | intros _; exact IH].
Qed.

Lemma raises_fs_update (P : JsError -> Prop) (op : gmap path Entry -> option (gmap path Entry))
    (failure : string) :
  P (Error failure) -> raises P (fs_update op failure).
Proof.
  intros HP st e. unfold fs_update. destruct (op (fs (world st))); simpl.
  - discriminate.
  - intros [= <-]. exact HP.
Qed.

Lemma mkdirSync_raises (p : path) : raises file_error (mkdirSync_recursive p).
Proof. apply raises_fs_update. unfold file_error. simpl. discriminate. Qed.

Lemma copyFileSync_raises (src dst : path) : raises file_error (copyFileSync src dst).
Proof. apply raises_fs_update. unfold file_error. simpl. discriminate. Qed.

Lemma readdirSync_raises (p : path) : raises file_error (readdirSync p).
Proof.
  intros st e. unfold readdirSync. destruct (Fs.readdir _ _); simpl.
  - discriminate.
  - intros [= <-]. unfold file_error. simpl. discriminate.
Qed.

Lemma statSync_raises (p : path) : raises file_error (statSync p).
Proof.
  intros st e. unfold statSync. destruct (fs (world st) !! p); simpl.
  - discriminate.
  - intros [= <-]. unfold file_error. simpl. discriminate.
Qed.

Lemma copyDirectory_raises (fuel : nat) (source destination : path) :
  raises file_error (copyDirectory fuel source destination).
Proof.
  revert source destination. induction fuel as [|fuel IH]; intros source destination; simpl.
  - intros st e H. discriminate H.
  - apply raises_bind; [apply raises_gets | intros found].
    apply raises_bind.
    { destruct found; simpl; [apply raises_ret | apply mkdirSync_raises]. }
    intros _. apply raises_bind; [apply readdirSync_raises | intros items].
    apply raises_for_each. intros item.
    apply raises_bind; [apply statSync_raises | intros stat].
    destruct (isDirectory stat); [apply IH | apply copyFileSync_raises].
Qed.

Lemma backup_files_raises (workingDir backupPath : path) (todo backedUpFiles : list string) :
  raises file_error (backup_files workingDir backupPath todo backedUpFiles).
Proof.
  revert backedUpFiles. induction todo as [|file rest IH]; intros backedUpFiles; simpl.
  - apply raises_ret.
  - apply raises_bind; [apply raises_gets | intros found].
    apply raises_bind; [|intros ?; apply IH].
    destruct found.
    + apply raises_bind; [apply copyFileSync_raises | intros _; apply raises_ret].
    + apply raises_ret.
Qed.

(** A backup of a registered name fails, if at all, with an error of the
    file system. *)
Lemma createBackup_raises (fuel : nat) (processName : string) (st : State) (info : ProcessInfo)
    (e : JsError) :
  processes (processManager st) !! processName = Some info ->
  (createBackup fuel processName st).1 = Throw e -> file_error e.
Proof.
  intros Hget. unfold createBackup.
  rewrite (bind_return _ _ st st (Some info))
    by (unfold processes_get, gets; rewrite Hget; reflexivity).
  cbv beta iota. clear Hget. revert e. revert st.
  apply raises_bind; [apply raises_gets | intros here].
  apply raises_bind; [apply raises_gets | intros found].
  apply raises_bind.
  { destruct found; simpl; [apply raises_ret | apply mkdirSync_raises]. }
  intros _. apply raises_bind.
  { intros st e H. discriminate H. }
  intros now. apply raises_bind; [apply mkdirSync_raises | intros _].
  apply raises_bind; [apply backup_files_raises | intros backedUpFiles].
  apply raises_bind; [apply raises_gets | intros foundWorld].
  apply raises_bind; [|intros ?; apply raises_ret].
  destruct foundWorld; [|apply raises_ret].
  apply raises_bind; [apply copyDirectory_raises | intros _; apply raises_ret].
Qed.

(** C8 (as amended). [createBackup] fails with "Process ... not found"
    exactly when no Descriptor is registered under the name, and then
    changes nothing; what the server knows about the configuration plays no
    part, and neither does liveness. For a registered Descriptor the call
    reads from the [workingDir] of its config, or from [minecraft-server]
    beside the module's directory when the config has none, and any error
    it ends with comes from the file system. On a file system where the
    backup directory can be made and is new, lies apart from the working
    directory, no allow-listed name is a directory, and [world], if there,
    is a well-formed directory tree within the fuel, the call returns the
    new path, its stamp and the list of what was present; afterwards each
    allow-listed name holds in the backup what it held in the working
    directory (nothing, when it was absent), the tree under [world] is
    there entry for entry, and nothing away from the backup path has
    changed. *)
Theorem backup_contract (fuel : nat) (processName : string) (st : State) :
  ((createBackup fuel processName st).1 =
     Throw (Error ("Process " +:+ processName +:+ " not found"))
   <-> processes (processManager st) !! processName = None)
  /\ (processes (processManager st) !! processName = None ->
      createBackup fuel processName st =
        (Throw (Error ("Process " +:+ processName +:+ " not found")), st))
  /\ (forall info,
        processes (processManager st) !! processName = Some info ->
        backup_source st info =
          default (removelast (dirname (world st)) ++ ["minecraft-server"])
                  (workingDir (config info))
        /\ (no_file_on_the_way (fs (world st)) (backup_target st) = true ->
            fresh (fs (world st)) (backup_target st) = true ->
            apart (backup_source st info) (backup_target st) = true ->
            no_directory_among (fs (world st)) (backup_source st info) filesToBackup = true ->
            not_a_file (fs (world st)) (backup_source st info ++ ["world"]) = true ->
            tree_ok (fs (world st)) (backup_source st info ++ ["world"]) = true ->
            depth_below (fs (world st)) (backup_source st info ++ ["world"]) fuel = true ->
            exists f',
              createBackup fuel processName st =
                (Return {| backupPath := backup_target st; timestamp := backup_stamp st;
                           files := backed_up (fs (world st)) (backup_source st info) |},
                 set_fs f' (with_world tick st))
              /\ (forall name, name ∈ filesToBackup ->
                    f' !! (backup_target st ++ [name])
                    = fs (world st) !! (backup_source st info ++ [name]))
              /\ (forall q, f' !! (backup_target st ++ "world" :: q)
                            = fs (world st) !! (backup_source st info ++ "world" :: q))
              /\ (forall p, ~ (p `prefix_of` backup_target st) ->
                            ~ (backup_target st `prefix_of` p) ->
                            f' !! p = fs (world st) !! p))).
Proof.
  assert (Hnone : processes (processManager st) !! processName = None ->
                  createBackup fuel processName st =
                    (Throw (Error ("Process " +:+ processName +:+ " not found")), st)).
  { intros Hget. unfold createBackup, processes_get, bind, gets. rewrite Hget. reflexivity. }
  split; [|split; [exact Hnone|]].
  - split.
    + intros Hthrown.
      destruct (processes (processManager st) !! processName) as [info|] eqn:Hget;
        [|reflexivity].
      pose proof (createBackup_raises fuel processName st info _ Hget Hthrown) as Hfile.
      exfalso. apply Hfile. reflexivity.
    + intros Hget. rewrite (Hnone Hget). reflexivity.
  - intros info Hget. split; [reflexivity|].
    apply createBackup_registered. exact Hget.
Qed.

Lemma backup_contract_witness :
  processes (processManager unix_crashed) !! "minecraft-server" = Some example_info
  /\ alive unix_crashed (pid example_info) = false
  /\ no_file_on_the_way (fs (world unix_crashed)) (backup_target unix_crashed) = true
  /\ fresh (fs (world unix_crashed)) (backup_target unix_crashed) = true
  /\ apart (backup_source unix_crashed example_info) (backup_target unix_crashed) = true
  /\ no_directory_among (fs (world unix_crashed)) (backup_source unix_crashed example_info)
                        filesToBackup = true
  /\ not_a_file (fs (world unix_crashed))
                (backup_source unix_crashed example_info ++ ["world"]) = true
  /\ tree_ok (fs (world unix_crashed))
             (backup_source unix_crashed example_info ++ ["world"]) = true
  /\ depth_below (fs (world unix_crashed))
                 (backup_source unix_crashed example_info ++ ["world"]) 3 = true
  /\ exists f',
       createBackup 3 "minecraft-server" unix_crashed =
         (Return {| backupPath := backup_target unix_crashed;
                    timestamp := backup_stamp unix_crashed;
                    files := backed_up (fs (world unix_crashed))
                                       (backup_source unix_crashed example_info) |},
          set_fs f' (with_world tick unix_crashed))
       /\ (forall name, name ∈ filesToBackup ->
             f' !! (backup_target unix_crashed ++ [name])
             = fs (world unix_crashed) !! (backup_source unix_crashed example_info ++ [name]))
       /\ (forall q, f' !! (backup_target unix_crashed ++ "world" :: q)
                     = fs (world unix_crashed)
                         !! (backup_source unix_crashed example_info ++ "world" :: q))
       /\ (forall p, ~ (p `prefix_of` backup_target unix_crashed) ->
                     ~ (backup_target unix_crashed `prefix_of` p) ->
                     f' !! p = fs (world unix_crashed) !! p).
Proof.
  assert (Hget : processes (processManager unix_crashed) !! "minecraft-server"
                 = Some example_info) by (vm_compute; reflexivity).
  assert (Hdead : alive unix_crashed (pid example_info) = false) by (vm_compute; reflexivity).
  assert (H1 : no_file_on_the_way (fs (world unix_crashed)) (backup_target unix_crashed) = true)
    by (vm_compute; reflexivity).
  assert (H2 : fresh (fs (world unix_crashed)) (backup_target unix_crashed) = true)
    by (vm_compute; reflexivity).
  assert (H3 : apart (backup_source unix_crashed example_info) (backup_target unix_crashed)
               = true) by (vm_compute; reflexivity).
  assert (H4 : no_directory_among (fs (world unix_crashed))
                 (backup_source unix_crashed example_info) filesToBackup = true)
    by (vm_compute; reflexivity).
  assert (H5 : not_a_file (fs (world unix_crashed))
                 (backup_source unix_crashed example_info ++ ["world"]) = true)
    by (vm_compute; reflexivity).
  assert (H6 : tree_ok (fs (world unix_crashed))
                 (backup_source unix_crashed example_info ++ ["world"]) = true)
    by (vm_compute; reflexivity).
  assert (H7 : depth_below (fs (world unix_crashed))
                 (backup_source unix_crashed example_info ++ ["world"]) 3 = true)
    by (vm_compute; reflexivity).
  repeat (split; [assumption|]).
  exact (proj2 (proj2 (proj2 (backup_contract 3 "minecraft-server" unix_crashed))
                      example_info Hget)
               H1 H2 H3 H4 H5 H6 H7).
Defined.

(** What that backup reports on the example host. *)
Example backup_of_example_server :
  (createBackup 2 "minecraft-server" unix_crashed).1 =
    Return {| backupPath := ["srv"; "wrapper"; "backups"; "backup-2023-11-14T22-13-20-002Z"];
              timestamp := "2023-11-14T22-13-20-002Z";
              files := ["server.properties"; "ops.json"; "world/"] |}
  /\ (createBackup 1 "minecraft-server" unix_crashed).1 = OutOfFuel.
Proof. vm_compute. split; reflexivity. Qed.

(** Where a condition on the file system fails, a registered backup can
    stop half way: with [whitelist.json] a directory, the copy of that name
    throws after [server.properties] has been copied and before [ops.json]
    is looked at. *)
Example backup_stops_half_way :
  no_directory_among (fs (world unix_crashed_odd))
                     (backup_source unix_crashed_odd example_info) filesToBackup = false
  /\ (createBackup 3 "minecraft-server" unix_crashed_odd).1 =
       Throw (Error ("copyfile /srv/wrapper/minecraft-server/whitelist.json -> "
                     +:+ "/srv/wrapper/backups/backup-2023-11-14T22-13-20-002Z/whitelist.json"))
  /\ fs (world (after (createBackup 3 "minecraft-server") unix_crashed_odd))
       !! (backup_target unix_crashed_odd ++ ["server.properties"]) = Some (File "motd=Sprout")
  /\ fs (world (after (createBackup 3 "minecraft-server") unix_crashed_odd))
       !! (backup_target unix_crashed_odd ++ ["ops.json"]) = None.
Proof. vm_compute. repeat split; reflexivity. Qed.

(** C8 (counterexample to the claim as stated). The server ran with the
    configuration the wrapper still holds, and has exited: its ['close']
    listener has removed the Descriptor, and the backup of the stopped
    server fails with "not found". *)
Lemma backup_after_exit_fails :
  sc_jarFile (serverConfig unix_exited) = "server.jar"
  /\ Fs.exists_ (fs (world unix_exited)) (serverPath unix_exited ++ ["server.properties"]) = true
  /\ processes (processManager unix_exited) !! "minecraft-server" = None
  /\ createBackup 2 "minecraft-server" unix_exited =
       (Throw (Error "Process minecraft-server not found"), unix_exited).
Proof.
  assert (Hgone : processes (processManager unix_exited) !! "minecraft-server" = None)
    by (vm_compute; reflexivity).
  split; [vm_compute; reflexivity|]. split; [vm_compute; reflexivity|].
  split; [exact Hgone|].
  unfold createBackup, processes_get, bind, gets. rewrite Hgone. reflexivity.
Qed.

(** * Further properties of the code *)

(** ** Frames: what a computation leaves alone *)

Section Respects.
Context (R : relation State) `{!PreOrder R}.

Lemma respects_ret {A} (a : A) : respects R (ret a).
Proof. intros st. reflexivity. Qed.

Lemma respects_throw {A} (e : JsError) : respects R (throw (A := A) e).
Proof. intros st. reflexivity. Qed.

Lemma respects_gets {A} (f : State -> A) : respects R (gets f).
Proof. intros st. reflexivity. Qed.

Lemma respects_stall {A} : respects R (fun st => (OutOfFuel (A := A), st)).
Proof. intros st. reflexivity. Qed.

Lemma respects_bind {A B} (m : M A) (k : A -> M B) :
  respects R m -> (forall a, respects R (k a)) -> respects R (bind m k).
Proof.
  intros Hm Hk st. unfold bind. specialize (Hm st).
  destruct (m st) as [[a | e |] st1]; simpl in *; [| assumption ..].
  transitivity st1; [assumption | apply Hk].
Qed.

Lemma respects_try_catch {A} (body : M A) (handler : JsError -> M A) :
  respects R body -> (forall e, respects R (handler e)) -> respects R (try_catch body handler).
Proof.
  intros Hm Hk st. unfold try_catch. specialize (Hm st).
  destruct (body st) as [[a | e |] st1]; simpl in *; [assumption | | assumption].
  transitivity st1; [assumption | apply Hk].
Qed.

Lemma respects_for_each {A} (items : list A) (body : A -> M unit) :
  (forall item, respects R (body item)) -> respects R (for_each items body).
Proof.
  intros Hbody. induction items as [| item rest IH]; simpl.
  - apply respects_ret.
  - apply respects_bind; [apply Hbody | intros _; exact IH].
Qed.

Lemma respects_probe (p : option Z) : respects R (isProcessRunning p).
Proof. intros st. rewrite isProcessRunning_answer. reflexivity. Qed.

End Respects.

#[export] Instance same_preorder {X} (proj : State -> X) : PreOrder (same proj).
Proof.
  split.
  - intros st. reflexivity.
  - intros a b c Hab Hbc. unfold same in *. congruence.
Qed.

#[export] Instance no_other_name_preorder : PreOrder no_other_name.
Proof.
  split.
  - intros st name _ H. exact H.
  - intros a b c Hab Hbc name Hname H. apply Hbc, Hab; assumption.
Qed.

(** A primitive of the model, run on a state. *)
Ltac run_primitive :=
  let st := fresh "st" in
  intros st;
  cbv beta delta
    [same disk sent new_Date fs_update mkdirSync_recursive copyFileSync
     readdirSync statSync createWriteStream file_write pipe_write spawn process_kill
     child_kill exec execSync unref console_error broadcastToClients emit
     processes_get processes_set processes_delete existsSync on_ file_end Date_now
     modify gets bind ret throw];
  repeat case_match; reflexivity.

Ltac frame_by leaf :=
  repeat
    (first
       [ apply respects_ret | apply respects_throw | apply respects_gets | apply respects_stall
       | apply respects_probe
       | apply respects_bind; [| | intros ?]
       | apply respects_try_catch; [| | intros ?]
       | apply respects_for_each; [| intros ?]
       | lazymatch goal with
         | |- respects _ (match ?x with _ => _ end) => destruct x
         end
       | solve [leaf] ];
     try exact _).

Ltac frame := frame_by run_primitive.

(** What a backup leaves alone. *)
Lemma createBackup_frame (fuel : nat) (processName : string) :
  respects (same (fun st => (processManager st, serverStatus st, sent st)))
           (createBackup fuel processName).
Proof.
  assert (Hcopy : forall fuel src dst,
             respects (same (fun st => (processManager st, serverStatus st, sent st)))
                      (copyDirectory fuel src dst)).
  { clear. intros fuel. induction fuel as [| fuel IH]; intros src dst; simpl; frame.
    apply IH. }
  unfold createBackup. frame. apply Hcopy.
Qed.

(** The queries change nothing but the clock they read. *)
Lemma getProcessStatus_frame (name : string) :
  respects (same (fun st => (processManager st, serverStatus st, sent st, disk st)))
           (getProcessStatus name).
Proof. unfold getProcessStatus, Date_now. frame. Qed.

Lemma getAllProcesses_frame :
  respects (same (fun st => (processManager st, serverStatus st, sent st, disk st)))
           getAllProcesses.
Proof.
  unfold getAllProcesses.
  apply respects_bind; [exact _ | frame | intros entries].
  generalize (∅ : gmap string ProcessStatus).
  induction entries as [| entry rest IH]; intros acc; simpl; frame.
  apply IH.
Qed.

Lemma killProcess_frame (name signal : string) :
  respects (same (fun st => (processManager st, serverStatus st, disk st)))
           (killProcess name signal).
Proof. unfold killProcess. frame. Qed.

Lemma sendCommand_frame (name command : string) :
  respects (same (fun st => (processManager st, serverStatus st, disk st)))
           (sendCommand name command).
Proof. unfold sendCommand. frame. Qed.

Lemma stopProcess_frame (name : string) (timeout : Z) :
  respects (same (fun st => (processManager st, serverStatus st, disk st,
                             ticks (world st), clock (world st))))
           (stopProcess name timeout).
Proof.
  unfold stopProcess.
  apply respects_bind; [exact _ | frame | intros [info |]]; [| frame].
  intros st.
  assert (H : respects (same (fun st => (processManager st, serverStatus st, disk st,
                             ticks (world st), clock (world st))))
                (if bool_decide (name = "minecraft-server")
                 then try_catch (pipe_write (cp_stdin (process info)) ("stop" +:+ nl))
                                (fun _ => killProcess name "SIGTERM")
                 else killProcess name "SIGTERM")).
  { unfold killProcess. frame. }
  specialize (H st). destruct (_ st) as [[[] | e |] st1]; exact H.
Qed.

(** ** What the methods never touch *)

(** X10. [createBackup] only works on files: whatever the name and the
    fuel, and whether it returns, throws or stops half way, the
    [ProcessManager] (registry included) and the lifecycle label are as
    before and nothing was spawned, signalled, written to a pipe or
    broadcast. *)
Theorem backup_touches_only_files (fuel : nat) (processName : string) (st : State) :
  processManager (after (createBackup fuel processName) st) = processManager st
  /\ serverStatus (after (createBackup fuel processName) st) = serverStatus st
  /\ trace (world (after (createBackup fuel processName) st)) = trace (world st).
Proof.
  pose proof (createBackup_frame fuel processName st) as H. unfold same, sent in H.
  injection H as Hpm Hstatus Htrace. auto.
Qed.

(** X11. The queries are read-only: [isProcessRunning] leaves the state
    exactly as it was, and [getProcessStatus] and [getAllProcesses] leave
    the [ProcessManager], the files, the trace of effects and the lifecycle
    label as they were (they only read the clock). *)
Theorem queries_change_nothing (processName : string) (p : option Z) (st : State) :
  after (isProcessRunning p) st = st
  /\ processManager (after (getProcessStatus processName) st) = processManager st
  /\ fs (world (after (getProcessStatus processName) st)) = fs (world st)
  /\ trace (world (after (getProcessStatus processName) st)) = trace (world st)
  /\ serverStatus (after (getProcessStatus processName) st) = serverStatus st
  /\ processManager (after getAllProcesses st) = processManager st
  /\ fs (world (after getAllProcesses st)) = fs (world st)
  /\ trace (world (after getAllProcesses st)) = trace (world st)
  /\ serverStatus (after getAllProcesses st) = serverStatus st.
Proof.
  split; [unfold after; rewrite isProcessRunning_answer; reflexivity|].
  pose proof (getProcessStatus_frame processName st) as H1.
  pose proof (getAllProcesses_frame st) as H2.
  unfold same, sent, disk in H1, H2.
  injection H1 as ? ? ? ?. injection H2 as ? ? ? ?. auto 10.
Qed.

(** X12. [killProcess], [sendCommand] and the request part of [stopProcess]
    never change the [ProcessManager] or a file, whether they succeed or
    fail: a killed or stopped process stays registered until its ['close']
    event or a [cleanup]. *)
Theorem signalling_keeps_registry_and_files (processName signal command : string)
    (timeout : Z) (st : State) :
  processManager (after (killProcess processName signal) st) = processManager st
  /\ fs (world (after (killProcess processName signal) st)) = fs (world st)
  /\ processManager (after (sendCommand processName command) st) = processManager st
  /\ fs (world (after (sendCommand processName command) st)) = fs (world st)
  /\ processManager (after (stopProcess processName timeout) st) = processManager st
  /\ fs (world (after (stopProcess processName timeout) st)) = fs (world st).
Proof.
  pose proof (killProcess_frame processName signal st) as H1.
  pose proof (sendCommand_frame processName command st) as H2.
  pose proof (stopProcess_frame processName timeout st) as H3.
  unfold same, disk in H1, H2, H3.
  injection H1 as ? ? ?. injection H2 as ? ? ?. injection H3 as ? ? ? ? ?. auto 10.
Qed.

(** ** A start that succeeds *)

Lemma start_succeeds (config : Config) (st : State) (child : ChildProcess) (out err : Stream) :
  Fs.exists_ (fs (world st)) (jar_path (dirname (world st)) config) = true ->
  (forall command args options, os_spawn (world st) command args options = Spawned child) ->
  cp_stdout child = Some out -> cp_stderr child = Some err ->
  exists r st1,
    startMinecraftServer config st = (Return r, st1)
    /\ r_pid r = cp_pid child
    /\ processes (processManager st1) !! "minecraft-server" =
         Some {| pid := r_pid r; startTime := r_startTime r; config := config;
                 logFile := r_logFile r; errorLogFile := r_errorLogFile r;
                 process := child |}
    /\ isWindows (processManager st1) = isWindows (processManager st)
    /\ os_execSync (world st1) = os_execSync (world st)
    /\ os_probe (world st1) = os_probe (world st)
    /\ serverStatus st1 = serverStatus st.
Proof.
  intros Hjar Hspawn Hout Herr.
  unfold startMinecraftServer, bind, gets, existsSync. simpl.
  unfold jar_path in Hjar. rewrite Hjar. simpl.
  unfold try_catch, spawn, bind, emit, modify. simpl.
  rewrite Hspawn. simpl. rewrite Hout, Herr. simpl.
  destruct (isWindows (processManager st)) eqn:Hw; simpl;
    eexists _, _; (split; [reflexivity|]); simpl; rewrite lookup_insert_eq;
    repeat split; try reflexivity; exact Hw.
Qed.

(** X1. With the jar in place and a child that comes back with its stdout and
    stderr pipes, [startMinecraftServer] resolves with the child's pid and
    registers a Descriptor holding that pid, the start time and the two log
    paths it returns, the caller's config and the child; and
    [getProcessStatus] then reports exactly these values, with [running]
    being what the liveness probe says of that pid. *)
Theorem start_then_status (config : Config) (st : State) (child : ChildProcess)
    (out err : Stream) :
  Fs.exists_ (fs (world st)) (jar_path (dirname (world st)) config) = true ->
  (forall command args options, os_spawn (world st) command args options = Spawned child) ->
  cp_stdout child = Some out -> cp_stderr child = Some err ->
  exists r st1,
    startMinecraftServer config st = (Return r, st1)
    /\ r_pid r = cp_pid child
    /\ processes (processManager st1) !! "minecraft-server" =
         Some {| pid := r_pid r; startTime := r_startTime r; config := config;
                 logFile := r_logFile r; errorLogFile := r_errorLogFile r;
                 process := child |}
    /\ exists uptime,
         (getProcessStatus "minecraft-server" st1).1 =
           Return (Tracked (alive st (r_pid r)) (r_pid r) (r_startTime r) uptime config
                           (r_logFile r) (r_errorLogFile r)).
Proof.
  intros Hjar Hspawn Hout Herr.
  destruct (start_succeeds config st child out err Hjar Hspawn Hout Herr)
    as (r & st1 & Hstart & Hpid & Hreg & Hw & He & Hp & _).
  exists r, st1. split; [exact Hstart|]. split; [exact Hpid|]. split; [exact Hreg|].
  eexists. rewrite (getProcessStatus_tracked _ _ _ Hreg). simpl.
  rewrite (alive_frame st1 st (r_pid r) Hw He Hp). reflexivity.
Qed.

Lemma start_then_status_witness :
  Fs.exists_ (fs (world unix_boot)) (jar_path (dirname (world unix_boot)) example_config) = true
  /\ (forall command args options,
        os_spawn (world unix_boot) command args options = Spawned example_child)
  /\ cp_stdout example_child = Some 11%N
  /\ cp_stderr example_child = Some 12%N
  /\ exists r st1,
       startMinecraftServer example_config unix_boot = (Return r, st1)
       /\ r_pid r = cp_pid example_child
       /\ processes (processManager st1) !! "minecraft-server" =
            Some {| pid := r_pid r; startTime := r_startTime r; config := example_config;
                    logFile := r_logFile r; errorLogFile := r_errorLogFile r;
                    process := example_child |}
       /\ exists uptime,
            (getProcessStatus "minecraft-server" st1).1 =
              Return (Tracked (alive unix_boot (r_pid r)) (r_pid r) (r_startTime r) uptime
                              example_config (r_logFile r) (r_errorLogFile r)).
Proof.
  assert (H1 : Fs.exists_ (fs (world unix_boot))
                 (jar_path (dirname (world unix_boot)) example_config) = true)
    by (vm_compute; reflexivity).
  assert (H2 : forall command args options,
             os_spawn (world unix_boot) command args options = Spawned example_child)
    by (intros; vm_compute; reflexivity).
  assert (H3 : cp_stdout example_child = Some 11%N) by reflexivity.
  assert (H4 : cp_stderr example_child = Some 12%N) by reflexivity.
  repeat (split; [assumption|]).
  exact (start_then_status example_config unix_boot example_child 11%N 12%N H1 H2 H3 H4).
Defined.

(** ** The log files of one start *)

(** The two log names of one start. *)
Lemma start_result_paths (config : Config) (st : State) (r : StartResult) :
  (startMinecraftServer config st).1 = Return r ->
  exists stamp,
    r_logFile r = path_join (logDir (processManager st))
                            ["minecraft-server-" +:+ stamp +:+ ".log"]
    /\ r_errorLogFile r = path_join (logDir (processManager st))
                                    ["minecraft-server-error-" +:+ stamp +:+ ".log"].
Proof.
  unfold startMinecraftServer, bind, gets, existsSync. simpl.
  destruct (Fs.exists_ _ _); simpl; [|discriminate].
  unfold try_catch, spawn, bind, emit, modify. simpl.
  destruct (os_spawn (world st) _ _ _) as [e | child]; simpl; [discriminate|].
  destruct (cp_stdout child); simpl; [|discriminate].
  destruct (cp_stderr child); simpl; [|discriminate].
  destruct (isWindows (processManager st)); simpl; intros [= <-]; simpl;
    eexists; split; reflexivity.
Qed.

Lemma length_append (a b : string) :
  String.length (a +:+ b) = (String.length a + String.length b)%nat.
Proof. induction a as [| c a IH]; simpl; [reflexivity | rewrite <- IH; reflexivity]. Qed.

Lemma log_names_differ (stamp : string) :
  "minecraft-server-" +:+ stamp +:+ ".log" <> "minecraft-server-error-" +:+ stamp +:+ ".log".
Proof.
  intros H. apply (f_equal String.length) in H.
  rewrite !length_append in H. simpl in H. lia.
Qed.

Lemma log_name_is_a_name (prefix stamp : string) :
  "m" +:+ prefix +:+ stamp +:+ ".log" <> "..".
Proof. discriminate. Qed.

Lemma append_elsewhere (f : gmap path Entry) (p q : path) (data : string) :
  p <> q -> Fs.append f p data !! q = f !! q.
Proof.
  intros Hne. unfold Fs.append.
  destruct (f !! p) as [[old |] |]; [| reflexivity |]; apply lookup_insert_ne; exact Hne.
Qed.

(** Keeping the listeners changes nothing else: the call ends the same
    way in the same state. *)
Lemma start_listeners_agree (config : Config) (st : State) :
  startMinecraftServer config st =
    match startMinecraftServer_listeners config st with
    | (Return started, st') => (Return started.1, st')
    | (Throw e, st') => (Throw e, st')
    | (OutOfFuel, st') => (OutOfFuel, st')
    end.
Proof.
  unfold startMinecraftServer, startMinecraftServer_listeners, bind, gets, existsSync. simpl.
  destruct (Fs.exists_ _ _); simpl; [|reflexivity].
  unfold try_catch, spawn, bind, emit, modify. simpl.
  destruct (os_spawn (world st) _ _ _) as [e | child]; simpl; [reflexivity|].
  destruct (cp_stdout child); simpl; [|reflexivity].
  destruct (cp_stderr child); simpl; [|reflexivity].
  destruct (isWindows (processManager st)); reflexivity.
Qed.

(** The listeners of a successful start write to the files it returns. *)
Lemma start_listeners (config : Config) (st : State) (r : StartResult) (on : Listeners) :
  (startMinecraftServer_listeners config st).1 = Return (r, on) ->
  on_stdout_data on = stdout_data (r_logFile r)
  /\ on_stderr_data on = stderr_data (r_errorLogFile r)
  /\ on_close on = child_close (r_logFile r) (r_errorLogFile r)
  /\ on_error on = child_error (r_errorLogFile r).
Proof.
  unfold startMinecraftServer_listeners, bind, gets, existsSync. simpl.
  destruct (Fs.exists_ _ _); simpl; [|discriminate].
  unfold try_catch, spawn, bind, emit, modify. simpl.
  destruct (os_spawn (world st) _ _ _) as [e | child]; simpl; [discriminate|].
  destruct (cp_stdout child); simpl; [|discriminate].
  destruct (cp_stderr child); simpl; [|discriminate].
  destruct (isWindows (processManager st)); simpl; intros [= <- <-]; simpl;
    repeat split; reflexivity.
Qed.

(** X2. The two log files that a successful start returns are never the
    same file, whatever the clock reads, and the listeners that the start
    attaches send each pipe of the child to its own file only: the one on
    stdout appends the chunk, behind its time stamp, to the output log and
    leaves the error log as it was, and the one on stderr appends it to the
    error log and leaves the output log as it was. *)
Theorem log_sinks_are_apart (config : Config) (st : State) (r : StartResult) :
  (startMinecraftServer config st).1 = Return r ->
  r_logFile r <> r_errorLogFile r
  /\ exists on,
       (startMinecraftServer_listeners config st).1 = Return (r, on)
       /\ forall (s : State) (data : string),
            let line :=
              "[" +:+ toISOString (clock (world s) (ticks (world s))) +:+ "] " +:+ data in
            fs (world (after (on_stdout_data on data) s)) =
              Fs.append (fs (world s)) (r_logFile r) line
            /\ fs (world (after (on_stderr_data on data) s)) =
                 Fs.append (fs (world s)) (r_errorLogFile r) line
            /\ fs (world (after (on_stdout_data on data) s)) !! r_errorLogFile r
                 = fs (world s) !! r_errorLogFile r
            /\ fs (world (after (on_stderr_data on data) s)) !! r_logFile r
                 = fs (world s) !! r_logFile r.
Proof.
  intros Hplain.
  destruct (start_result_paths config st r Hplain) as (stamp & Hlog & Herr).
  assert (Hne : r_logFile r <> r_errorLogFile r).
  { rewrite Hlog, Herr.
    rewrite !path_join_one by (apply (log_name_is_a_name _ stamp)).
    intros H. apply app_inv_head in H.
    apply (log_names_differ stamp). congruence. }
  split; [exact Hne|].
  assert (Hstart : exists on, (startMinecraftServer_listeners config st).1 = Return (r, on)).
  { rewrite start_listeners_agree in Hplain.
    destruct (startMinecraftServer_listeners config st) as [[[r' on]| |] st'];
      simpl in Hplain; try discriminate.
    injection Hplain as ->. exists on. reflexivity. }
  destruct Hstart as (on & Hstart). exists on. split; [exact Hstart|].
  intros s data.
  destruct (start_listeners config st r on Hstart) as (-> & -> & _).
  cbv zeta. split; [reflexivity|]. split; [reflexivity|]. split.
  - unfold after, stdout_data, bind, new_Date, file_write, modify. simpl.
    apply append_elsewhere. exact Hne.
  - unfold after, stderr_data, bind, new_Date, file_write, modify. simpl.
    apply append_elsewhere. congruence.
Qed.

Lemma log_sinks_are_apart_witness :
  let r := {| r_pid := Some 4242; r_startTime := example_clock 1;
              r_logFile := ["srv"; "wrapper"; "logs";
                            "minecraft-server-2023-11-14T22-13-20-000Z.log"];
              r_errorLogFile := ["srv"; "wrapper"; "logs";
                                 "minecraft-server-error-2023-11-14T22-13-20-000Z.log"] |} in
  (startMinecraftServer example_config unix_boot).1 = Return r
  /\ r_logFile r <> r_errorLogFile r
  /\ exists on,
       (startMinecraftServer_listeners example_config unix_boot).1 = Return (r, on)
       /\ forall (s : State) (data : string),
            let line :=
              "[" +:+ toISOString (clock (world s) (ticks (world s))) +:+ "] " +:+ data in
            fs (world (after (on_stdout_data on data) s)) =
              Fs.append (fs (world s)) (r_logFile r) line
            /\ fs (world (after (on_stderr_data on data) s)) =
                 Fs.append (fs (world s)) (r_errorLogFile r) line
            /\ fs (world (after (on_stdout_data on data) s)) !! r_errorLogFile r
                 = fs (world s) !! r_errorLogFile r
            /\ fs (world (after (on_stderr_data on data) s)) !! r_logFile r
                 = fs (world s) !! r_logFile r.
Proof.
  intros r.
  assert (H : (startMinecraftServer example_config unix_boot).1 = Return r)
    by (vm_compute; reflexivity).
  exact (conj H (log_sinks_are_apart example_config unix_boot r H)).
Defined.

(** ** A stop that succeeds *)

(** Once the promise is fulfilled, no later event changes it. *)
Lemma deliver_all_fulfilled (info : ProcessInfo) (processName : string) (timeout : Z)
    (events : list Event) (call : StopCall) (st : State) (v : ExitInfo) :
  stop_timer call = false ->
  stop_promise call = Fulfilled v ->
  exists call' st',
    deliver_all info processName timeout events call st = (Return call', st')
    /\ stop_promise call' = Fulfilled v.
Proof.
  revert call st. induction events as [|ev rest IH]; intros call st Hoff Hdone; simpl.
  - eexists _, _. split; [reflexivity|exact Hdone].
  - destruct (deliver_returns info processName timeout ev call st Hoff)
      as (call1 & st1 & Hstep & Hoff1 & Hsettled & _).
    unfold bind. rewrite Hstep. apply IH; [exact Hoff1|].
    rewrite Hsettled, Hdone. reflexivity.
Qed.

(** No event brings a removed Descriptor back. *)
Lemma deliver_all_keeps_removed (info : ProcessInfo) (processName : string) (timeout : Z)
    (events : list Event) (call : StopCall) (st : State) :
  processes (processManager st) !! "minecraft-server" = None ->
  processes (processManager (deliver_all info processName timeout events call st).2)
    !! "minecraft-server" = None.
Proof.
  revert call st. induction events as [|ev rest IH]; intros call st Hnone; simpl.
  - exact Hnone.
  - destruct ev as [| code signal].
    + unfold bind, deliver, stop_timeout.
      destruct (stop_timer call); [destruct (honoured timeout)|]; simpl;
        try apply IH; exact Hnone.
    + unfold bind, deliver, child_close, bind, new_Date, file_write, file_end,
        processes_delete, modify, stop_close, ret. simpl.
      apply IH. simpl. apply lookup_delete_eq.
Qed.

(** X3. When a stop call has sent its request and the child closes before
    the timer runs out, the promise is fulfilled with the exit code and the
    signal of the child and stays so whatever happens later (the timer is
    cleared); the Descriptor of ["minecraft-server"] is gone; and the output
    log has got the line "[<time>] Process exited with code <code> and
    signal <signal>" and nothing else was written to a file. *)
Theorem stop_resolves_on_close (st : State) (processName : string) (timeout : Z)
    (code : option Z) (signal : option string) (later : list Event) :
  stop_pending processName timeout st = true ->
  (stop_and_wait processName timeout (ChildCloses code signal :: later) st).1 =
    Return (Fulfilled {| code := code; signal := signal |})
  /\ processes (processManager
       (after (stop_and_wait processName timeout (ChildCloses code signal :: later)) st))
     !! "minecraft-server" = None
  /\ exists info,
       processes (processManager st) !! processName = Some info
       /\ fs (world (after (stop_and_wait processName timeout [ChildCloses code signal]) st)) =
            Fs.append (fs (world st)) (logFile info)
              ("[" +:+ toISOString (clock (world st) (ticks (world st)))
               +:+ "] Process exited with code " +:+ show_code code
               +:+ " and signal " +:+ show_signal signal +:+ nl).
Proof.
  intros Hpending.
  destruct (stopProcess_pending _ _ _ Hpending) as (info & st1 & Hget & Hstop).
  assert (Hrun : forall events,
            stop_and_wait processName timeout events st =
              (let* call := deliver_all info processName timeout events
                              {| stop_promise := Pending; stop_timer := true |} in
               ret (stop_promise call)) st1).
  { intros events. unfold stop_and_wait, processes_get, bind, gets.
    rewrite Hget, Hstop. reflexivity. }
  pose proof (stopProcess_frame processName timeout st) as Hframe.
  rewrite Hstop in Hframe. unfold same, disk in Hframe. simpl in Hframe.
  injection Hframe as Hpm Hstatus Hdisk Hticks Hclock.
  unfold after. rewrite !Hrun.
  set (closed := after (child_close (logFile info) (errorLogFile info) code signal) st1).
  set (resolved := {| stop_promise := Fulfilled {| code := code; signal := signal |};
                      stop_timer := false |}).
  assert (Hhead : forall events,
            deliver_all info processName timeout (ChildCloses code signal :: events)
              {| stop_promise := Pending; stop_timer := true |} st1
            = deliver_all info processName timeout events resolved closed).
  { intros events. reflexivity. }
  split; [| split].
  - destruct (deliver_all_fulfilled info processName timeout later resolved closed _
                eq_refl eq_refl)
      as (call' & st' & Hrest & Hdone).
    unfold bind. rewrite Hhead, Hrest. simpl. rewrite Hdone. reflexivity.
  - unfold bind. rewrite Hhead.
    pose proof (deliver_all_keeps_removed info processName timeout later resolved closed)
      as Hgone.
    destruct (deliver_all info processName timeout later resolved closed)
      as [[call' | e |] st']; simpl in *; apply Hgone; apply lookup_delete_eq.
  - exists info. split; [exact Hget|].
    unfold bind. rewrite Hhead. simpl.
    unfold Fs.append. rewrite Hdisk, Hticks, Hclock. reflexivity.
Qed.

Lemma stop_resolves_on_close_witness :
  stop_pending "minecraft-server" 30000 unix_running = true
  /\ (stop_and_wait "minecraft-server" 30000 [ChildCloses (Some 0) None; TimerExpires]
                    unix_running).1 =
       Return (Fulfilled {| code := Some 0; signal := None |})
  /\ processes (processManager
       (after (stop_and_wait "minecraft-server" 30000 [ChildCloses (Some 0) None; TimerExpires])
              unix_running))
     !! "minecraft-server" = None
  /\ exists info,
       processes (processManager unix_running) !! "minecraft-server" = Some info
       /\ fs (world (after (stop_and_wait "minecraft-server" 30000 [ChildCloses (Some 0) None])
                           unix_running)) =
            Fs.append (fs (world unix_running)) (logFile info)
              ("[" +:+ toISOString (clock (world unix_running) (ticks (world unix_running)))
               +:+ "] Process exited with code " +:+ show_code (Some 0)
               +:+ " and signal " +:+ show_signal None +:+ nl).
Proof.
  assert (Hpending : stop_pending "minecraft-server" 30000 unix_running = true)
    by (vm_compute; reflexivity).
  split; [exact Hpending|].
  exact (stop_resolves_on_close unix_running "minecraft-server" 30000 (Some 0) None
           [TimerExpires] Hpending).
Defined.

(** ** Forced kill on Unix, case by case *)

Lemma killProcess_on_unix (st : State) (processName signal : string)
    (info : ProcessInfo) :
  isWindows (processManager st) = false ->
  processes (processManager st) !! processName = Some info ->
  killProcess processName signal st =
    match cp_pid (process info) with
    | Some p =>
        if p =? 0 then (Return tt, st)
        else match os_kill (world st) (- p) signal with
             | None => (Return tt, after (emit (EKill (- p) signal)) st)
             | Some e =>
                 (Throw e,
                  after (console_error ("Failed to kill process " +:+ processName +:+ ":")) st)
             end
    | None => (Return tt, st)
    end.
Proof.
  intros Hunix Hget.
  unfold killProcess, processes_get, bind, gets, try_catch. simpl.
  rewrite Hget, Hunix. simpl.
  destruct (cp_pid (process info)) as [p |]; simpl; [| reflexivity].
  destruct (p =? 0); simpl; [reflexivity|].
  unfold process_kill. destruct (os_kill (world st) (- p) signal); reflexivity.
Qed.

(** X4. [killProcess] on a host that is not Windows, case by case: a child
    with a pid other than 0 gets one signal, addressed to its process group
    (the negated pid); when the operating system refuses the signal, the
    failure is printed with [console.error] and the same error is thrown
    again; a child without a pid (or with pid 0) is left alone and the call
    returns normally. In no case does the Descriptor leave the registry. *)
Theorem kill_on_unix_outcomes (st : State) (processName signal : string)
    (info : ProcessInfo) :
  isWindows (processManager st) = false ->
  processes (processManager st) !! processName = Some info ->
  killProcess processName signal st =
    match cp_pid (process info) with
    | Some p =>
        if p =? 0 then (Return tt, st)
        else match os_kill (world st) (- p) signal with
             | None => (Return tt, after (emit (EKill (- p) signal)) st)
             | Some e =>
                 (Throw e,
                  after (console_error ("Failed to kill process " +:+ processName +:+ ":")) st)
             end
    | None => (Return tt, st)
    end.
Proof. exact (killProcess_on_unix st processName signal info). Qed.

Lemma kill_on_unix_outcomes_witness :
  isWindows (processManager unix_running) = false
  /\ processes (processManager unix_running) !! "minecraft-server" = Some example_info
  /\ killProcess "minecraft-server" "SIGKILL" unix_running =
       (Return tt, after (emit (EKill (-4242) "SIGKILL")) unix_running).
Proof.
  assert (H1 : isWindows (processManager unix_running) = false) by (vm_compute; reflexivity).
  assert (H2 : processes (processManager unix_running) !! "minecraft-server"
               = Some example_info) by (vm_compute; reflexivity).
  split; [exact H1|]. split; [exact H2|].
  exact (kill_on_unix_outcomes unix_running "minecraft-server" "SIGKILL" example_info H1 H2).
Defined.

(** ** [cleanup], entry by entry *)

Lemma cleanup_keeps_alive (st : State) (entries : list (string * ProcessInfo))
    (m : gmap string ProcessInfo) (name : string) :
  (forall info, (name, info) ∈ entries -> alive st (pid info) = true) ->
  foldl (cleanup_step st) m entries !! name = m !! name.
Proof.
  revert m. induction entries as [| [n i] rest IH]; intros m Hall; simpl; [reflexivity|].
  rewrite IH by (intros info Hin; apply Hall; right; exact Hin).
  unfold cleanup_step. simpl. destruct (alive st (pid i)) eqn:Hi; [reflexivity|].
  destruct (decide (n = name)) as [-> | Hne].
  - rewrite (Hall i) in Hi by left. discriminate.
  - apply lookup_delete_ne. exact Hne.
Qed.

Lemma cleanup_lookup (st : State) (name : string) :
  cleanup st = (Return tt,
                with_processes
                  (fun m => foldl (cleanup_step st) m (map_to_list (processes (processManager st))))
                  st)
  /\ processes (processManager (after cleanup st)) !! name =
       match processes (processManager st) !! name with
       | Some info => if alive st (pid info) then Some info else None
       | None => None
       end.
Proof.
  assert (Hrun : cleanup st = (Return tt,
                with_processes
                  (fun m => foldl (cleanup_step st) m (map_to_list (processes (processManager st))))
                  st)).
  { unfold cleanup, bind, gets. simpl. apply cleanup_loop. }
  split; [exact Hrun|].
  unfold after. rewrite Hrun. simpl.
  destruct (processes (processManager st) !! name) as [info |] eqn:Hget.
  - destruct (alive st (pid info)) eqn:Halive.
    + rewrite cleanup_keeps_alive; [exact Hget|].
      intros info' Hin. apply elem_of_map_to_list in Hin.
      rewrite Hget in Hin. injection Hin as <-. exact Halive.
    + apply (cleanup_drops_dead st _ _ name info); [|exact Halive].
      apply elem_of_map_to_list. exact Hget.
  - apply cleanup_keeps_absent. exact Hget.
Qed.

(** X5. [cleanup] never throws; afterwards the registry holds exactly the
    Descriptors whose pid the liveness probe reports alive, each one
    unchanged; the world and the lifecycle label are as before; and a second
    [cleanup] right after removes nothing more. *)
Theorem cleanup_keeps_exactly_the_living (st : State) (name : string) :
  (cleanup st).1 = Return tt
  /\ processes (processManager (after cleanup st)) !! name =
       match processes (processManager st) !! name with
       | Some info => if alive st (pid info) then Some info else None
       | None => None
       end
  /\ world (after cleanup st) = world st
  /\ serverStatus (after cleanup st) = serverStatus st
  /\ processes (processManager (after cleanup (after cleanup st))) =
       processes (processManager (after cleanup st)).
Proof.
  destruct (cleanup_lookup st name) as [Hrun Hlookup].
  split; [rewrite Hrun; reflexivity|]. split; [exact Hlookup|].
  split; [unfold after; rewrite Hrun; reflexivity|].
  split; [unfold after; rewrite Hrun; reflexivity|].
  apply map_eq. intros n.
  rewrite (proj2 (cleanup_lookup (after cleanup st) n)).
  rewrite (proj2 (cleanup_lookup st n)).
  destruct (processes (processManager st) !! n) as [info |]; [|reflexivity].
  destruct (alive st (pid info)) eqn:Halive; [|reflexivity].
  rewrite (alive_frame (after cleanup st) st); [rewrite Halive; reflexivity | ..];
    unfold after; rewrite Hrun; reflexivity.
Qed.

(** ** [getAllProcesses] *)

Lemma getAllProcesses_loop_spec (entries : list (string * ProcessInfo)) :
  forall (acc : gmap string ProcessStatus) (st : State),
    (forall name info, (name, info) ∈ entries ->
       processes (processManager st) !! name = Some info) ->
    exists result n,
      getAllProcesses_loop entries acc st = (Return result, Nat.iter n (with_world tick) st)
      /\ forall name,
           match processes (processManager st) !! name with
           | Some info =>
               if bool_decide (name ∈ entries.*1)
               then exists uptime,
                      result !! name =
                        Some (Tracked (alive st (pid info)) (pid info) (startTime info) uptime
                                      (config info) (logFile info) (errorLogFile info))
               else result !! name = acc !! name
           | None => result !! name = acc !! name
           end.
Proof.
  induction entries as [| [n i] rest IH]; intros acc st Hin; simpl.
  - exists acc, 0%nat. split; [reflexivity|]. intros name.
    destruct (processes (processManager st) !! name); reflexivity.
  - assert (Hn : processes (processManager st) !! n = Some i) by (apply Hin; left).
    unfold bind. rewrite (getProcessStatus_tracked n i st Hn).
    simpl.
    match goal with
    | |- context [getAllProcesses_loop rest ?a ?s] =>
        destruct (IH a s) as (result & k & Hrun & Hres);
          [intros name info Hmem; apply Hin; right; exact Hmem |]
    end.
    exists result, (S k). split.
    { rewrite Hrun. f_equal. symmetry. apply Nat.iter_succ_r. }
    intros name. specialize (Hres name). simpl in Hres.
    destruct (processes (processManager st) !! name) as [info |] eqn:Hname.
    + destruct (decide (name = n)) as [-> | Hne].
      * rewrite bool_decide_eq_true_2 by left.
        assert (info = i) as -> by congruence.
        destruct (bool_decide (n ∈ rest.*1)).
        -- destruct Hres as [uptime Hres]. exists uptime. rewrite Hres.
           rewrite (alive_frame (with_world tick st) st); reflexivity.
        -- rewrite Hres, lookup_insert_eq. eexists. reflexivity.
      * destruct (bool_decide (name ∈ rest.*1)) eqn:Hrest.
        -- rewrite bool_decide_eq_true_2
             by (right; apply bool_decide_eq_true in Hrest; exact Hrest).
           destruct Hres as [uptime Hres]. exists uptime. rewrite Hres.
           rewrite (alive_frame (with_world tick st) st); reflexivity.
        -- rewrite bool_decide_eq_false_2.
           { rewrite Hres. apply lookup_insert_ne. congruence. }
           apply bool_decide_eq_false in Hrest. intros Hmem.
           apply elem_of_cons in Hmem as [? | ?]; [congruence | contradiction].
    + rewrite Hres. apply lookup_insert_ne. intros ->. congruence.
Qed.

(** X6. [getAllProcesses] always returns, leaves the [ProcessManager] as it
    was, and its result has an entry for exactly the registered names: each
    one is the status of that Descriptor, with [running] being what the
    liveness probe says of its pid. *)
Theorem getAllProcesses_lists_registry (st : State) :
  exists result st',
    getAllProcesses st = (Return result, st')
    /\ processManager st' = processManager st
    /\ forall name,
         match processes (processManager st) !! name with
         | Some info =>
             exists uptime,
               result !! name =
                 Some (Tracked (alive st (pid info)) (pid info) (startTime info) uptime
                               (config info) (logFile info) (errorLogFile info))
         | None => result !! name = None
         end.
Proof.
  unfold getAllProcesses, bind, gets. simpl.
  destruct (getAllProcesses_loop_spec (map_to_list (processes (processManager st))) ∅ st)
    as (result & k & Hrun & Hres).
  { intros name info Hin. apply elem_of_map_to_list. exact Hin. }
  exists result, (Nat.iter k (with_world tick) st). split; [exact Hrun|]. split.
  { clear. induction k as [| k IH]; simpl; [reflexivity | exact IH]. }
  intros name. specialize (Hres name).
  destruct (processes (processManager st) !! name) as [info |] eqn:Hname.
  - rewrite bool_decide_eq_true_2 in Hres; [exact Hres|].
    apply list_elem_of_fmap. exists (name, info). split; [reflexivity|].
    apply elem_of_map_to_list. exact Hname.
  - rewrite Hres. apply lookup_empty.
Qed.

(** ** [copyDirectory] on its own *)

Lemma under_directories_sound (f : gmap path Entry) (p q : path) :
  under_directories f p = true -> q `prefix_of` p -> q <> p -> f !! q = Some Directory.
Proof.
  intros Hunder [k ->] Hne. unfold under_directories in Hunder.
  rewrite forallb_forall in Hunder.
  assert (Hin : In (length q) (seq 0 (length (q ++ k)))).
  { apply in_seq. rewrite length_app. destruct k as [| x k].
    - rewrite app_nil_r in Hne. contradiction.
    - simpl. lia. }
  specialize (Hunder _ Hin). rewrite take_app_length in Hunder.
  destruct (f !! q) as [[data |] |]; [discriminate | reflexivity | discriminate].
Qed.

(** X7. [copyDirectory] on a well-formed source tree less than [fuel]
    levels deep, onto a destination that does not exist yet, lies apart
    from the source and has directories for all its ancestors: the call
    returns, every entry below the source is found at the same place below
    the destination, and nothing outside the destination changes. *)
Theorem copyDirectory_copies_the_tree (fuel : nat) (src dst : path) (st : State) :
  fs (world st) !! src = Some Directory ->
  tree_ok (fs (world st)) src = true ->
  depth_below (fs (world st)) src fuel = true ->
  apart src dst = true ->
  fresh (fs (world st)) dst = true ->
  under_directories (fs (world st)) dst = true ->
  exists f',
    copyDirectory fuel src dst st = (Return tt, set_fs f' st)
    /\ (forall q, f' !! (dst ++ q) = fs (world st) !! (src ++ q))
    /\ (forall p, ~ (dst `prefix_of` p) -> f' !! p = fs (world st) !! p).
Proof.
  intros Hsrc Htree Hdepth Hapart Hfresh Hunder.
  destruct (copyDirectory_spec fuel (fs (world st)) src dst st) as (f' & Hrun & Hcopied).
  { split; [exact Hsrc|]. split; [apply tree_ok_sound; exact Htree|].
    split; [apply depth_below_sound; exact Hdepth|].
    split; [apply (apart_sound _ _ Hapart)|]. split; [apply (apart_sound _ _ Hapart)|].
    split; [apply fresh_sound; exact Hfresh|].
    intros q. apply under_directories_sound. exact Hunder. }
  rewrite set_fs_same in Hrun. exists f'. split; [exact Hrun|]. exact Hcopied.
Qed.

Lemma copyDirectory_copies_the_tree_witness :
  let src := ["srv"; "wrapper"; "minecraft-server"; "world"] in
  let dst := ["srv"; "wrapper"; "world-copy"] in
  fs (world unix_boot) !! src = Some Directory
  /\ tree_ok (fs (world unix_boot)) src = true
  /\ depth_below (fs (world unix_boot)) src 3 = true
  /\ apart src dst = true
  /\ fresh (fs (world unix_boot)) dst = true
  /\ under_directories (fs (world unix_boot)) dst = true
  /\ exists f',
       copyDirectory 3 src dst unix_boot = (Return tt, set_fs f' unix_boot)
       /\ (forall q, f' !! (dst ++ q) = fs (world unix_boot) !! (src ++ q))
       /\ (forall p, ~ (dst `prefix_of` p) -> f' !! p = fs (world unix_boot) !! p).
Proof.
  intros src dst.
  assert (H1 : fs (world unix_boot) !! src = Some Directory) by (vm_compute; reflexivity).
  assert (H2 : tree_ok (fs (world unix_boot)) src = true) by (vm_compute; reflexivity).
  assert (H3 : depth_below (fs (world unix_boot)) src 3 = true) by (vm_compute; reflexivity).
  assert (H4 : apart src dst = true) by (vm_compute; reflexivity).
  assert (H5 : fresh (fs (world unix_boot)) dst = true) by (vm_compute; reflexivity).
  assert (H6 : under_directories (fs (world unix_boot)) dst = true)
    by (vm_compute; reflexivity).
  repeat (split; [assumption|]).
  exact (copyDirectory_copies_the_tree 3 src dst unix_boot H1 H2 H3 H4 H5 H6).
Defined.

(** X8. When the source does not exist, [copyDirectory] throws only after
    it has created the destination directory: the empty directory stays
    behind, and nothing else has changed. *)
Theorem copyDirectory_without_source (fuel : nat) (src dst : path) (st : State) :
  fs (world st) !! src = None ->
  fs (world st) !! dst = None ->
  apart src dst = true ->
  under_directories (fs (world st)) dst = true ->
  exists e f',
    copyDirectory (S fuel) src dst st = (Throw e, set_fs f' st)
    /\ f' !! dst = Some Directory
    /\ (forall p, p <> dst -> f' !! p = fs (world st) !! p).
Proof.
  intros Hsrc Hdst Hapart Hunder.
  destruct (mkdir_leaf (fs (world st)) dst Hdst) as (f1 & Hmk & Hnew & Hframe).
  { intros q. apply under_directories_sound. exact Hunder. }
  assert (Hne : src <> dst).
  { intros ->. destruct (apart_sound _ _ Hapart) as [Hn _]. apply Hn. reflexivity. }
  eexists _, f1. split; [| split; [exact Hnew | exact Hframe]].
  simpl. unfold bind. rewrite existsSync_step.
  unfold Fs.exists_. rewrite Hdst. simpl.
  rewrite (mkdirSync_step dst st f1 Hmk).
  unfold readdirSync, Fs.readdir. simpl.
  rewrite (Hframe src Hne), Hsrc. reflexivity.
Qed.

Lemma copyDirectory_without_source_witness :
  let src := ["srv"; "wrapper"; "minecraft-server"; "world_nether"] in
  let dst := ["srv"; "wrapper"; "nether-copy"] in
  fs (world unix_boot) !! src = None
  /\ fs (world unix_boot) !! dst = None
  /\ apart src dst = true
  /\ under_directories (fs (world unix_boot)) dst = true
  /\ exists e f',
       copyDirectory 1 src dst unix_boot = (Throw e, set_fs f' unix_boot)
       /\ f' !! dst = Some Directory
       /\ (forall p, p <> dst -> f' !! p = fs (world unix_boot) !! p).
Proof.
  intros src dst.
  assert (H1 : fs (world unix_boot) !! src = None) by (vm_compute; reflexivity).
  assert (H2 : fs (world unix_boot) !! dst = None) by (vm_compute; reflexivity).
  assert (H3 : apart src dst = true) by (vm_compute; reflexivity).
  assert (H4 : under_directories (fs (world unix_boot)) dst = true)
    by (vm_compute; reflexivity).
  repeat (split; [assumption|]).
  exact (copyDirectory_without_source 0 src dst unix_boot H1 H2 H3 H4).
Defined.

(** ** The constructor *)

(** X9. Unless a regular file stands in the way, the constructor returns
    with an empty registry, [logDir] set to [logs] beside the directory of
    the module, the platform flag read from [os.platform()], and the log
    directory in place; it touches nothing outside that path. *)
Theorem constructor_ensures_log_directory (st : State) :
  no_file_on_the_way (fs (world st)) (removelast (dirname (world st)) ++ ["logs"]) = true ->
  (ProcessManager_new st).1 = Return tt
  /\ logDir (processManager (after ProcessManager_new st))
       = removelast (dirname (world st)) ++ ["logs"]
  /\ processes (processManager (after ProcessManager_new st)) = ∅
  /\ isWindows (processManager (after ProcessManager_new st))
       = bool_decide (os_platform (world st) = "win32")
  /\ fs (world (after ProcessManager_new st)) !! (removelast (dirname (world st)) ++ ["logs"])
       = Some Directory
  /\ (forall p, ~ (p `prefix_of` removelast (dirname (world st)) ++ ["logs"]) ->
        fs (world (after ProcessManager_new st)) !! p = fs (world st) !! p).
Proof.
  intros Hway.
  unfold after, ProcessManager_new, bind, gets, modify, existsSync. simpl.
  rewrite (path_join_parent (dirname (world st)) "logs") by discriminate.
  set (logs := removelast (dirname (world st)) ++ ["logs"]) in *.
  unfold Fs.exists_. destruct (fs (world st) !! logs) as [e |] eqn:Hlogs; simpl.
  - repeat (split; [reflexivity|]). split; [| reflexivity].
    destruct e as [data |]; [| exact Hlogs].
    exfalso. exact (no_file_on_the_way_sound _ _ logs data Hway (reflexivity _) Hlogs).
  - destruct (mkdir_recursive_spec (fs (world st)) logs) as (f1 & Hmk & Hdirs & Hframe).
    { intros q data. apply no_file_on_the_way_sound. exact Hway. }
    unfold mkdirSync_recursive, fs_update. simpl. rewrite Hmk. simpl.
    repeat (split; [reflexivity|]). split; [apply Hdirs; reflexivity | exact Hframe].
Qed.

Lemma constructor_ensures_log_directory_witness :
  let st := with_processManager
              {| isWindows := true; isLinux := false; processes := ∅; logDir := [] |}
              (set_fs (list_to_map [([], Directory); (["srv"], Directory)]) unix_boot) in
  no_file_on_the_way (fs (world st)) (removelast (dirname (world st)) ++ ["logs"]) = true
  /\ (ProcessManager_new st).1 = Return tt
  /\ logDir (processManager (after ProcessManager_new st))
       = removelast (dirname (world st)) ++ ["logs"]
  /\ processes (processManager (after ProcessManager_new st)) = ∅
  /\ isWindows (processManager (after ProcessManager_new st))
       = bool_decide (os_platform (world st) = "win32")
  /\ fs (world (after ProcessManager_new st)) !! (removelast (dirname (world st)) ++ ["logs"])
       = Some Directory
  /\ (forall p, ~ (p `prefix_of` removelast (dirname (world st)) ++ ["logs"]) ->
        fs (world (after ProcessManager_new st)) !! p = fs (world st) !! p).
Proof.
  intros st.
  assert (H : no_file_on_the_way (fs (world st)) (removelast (dirname (world st)) ++ ["logs"])
              = true) by (vm_compute; reflexivity).
  exact (conj H (constructor_ensures_log_directory st H)).
Defined.

(** ** The stop route *)

(** The shutdown request of the server: one write on its stdin. *)
Lemma stop_request_written (st : State) (timeout : Z) (info : ProcessInfo) (fd : Stream) :
  processes (processManager st) !! "minecraft-server" = Some info ->
  cp_stdin (process info) = Some fd ->
  os_write (world st) fd ("stop" +:+ nl) = None ->
  forall events,
    stop_and_wait "minecraft-server" timeout events st =
      (let* call := deliver_all info "minecraft-server" timeout events
                      {| stop_promise := Pending; stop_timer := true |} in
       ret (stop_promise call)) (after (emit (EWrite fd ("stop" +:+ nl))) st).
Proof.
  intros Hget Hin Hwrite events.
  assert (Hstop : stopProcess "minecraft-server" timeout st =
                  (Return {| stop_promise := Pending; stop_timer := true |},
                   after (emit (EWrite fd ("stop" +:+ nl))) st)).
  { unfold stopProcess, processes_get, bind, gets. simpl. rewrite Hget. simpl.
    unfold try_catch, pipe_write. rewrite Hin, Hwrite. reflexivity. }
  unfold stop_and_wait, processes_get, bind, gets. rewrite Hget, Hstop. reflexivity.
Qed.

(** The state in which the stop route calls [stopProcess]. *)
Lemma stop_route_running (st : State) (info : ProcessInfo) (events : list Event) :
  processes (processManager st) !! "minecraft-server" = Some info ->
  alive st (pid info) = true ->
  api_server_stop events st =
    try_catch
      (let* result := await (stop_and_wait "minecraft-server" 30000 events) in
       let* _ := modify (with_serverStatus "stopped") in
       let* _ := broadcastToClients "stopped" None in
       ret (StopDone (code result) (signal result)))
      (fun error => ret (StopRefused 500 (message error)))
      (after (broadcastToClients "stopping" None)
             (with_serverStatus "stopping" (with_world tick st))).
Proof.
  intros Hget Halive. unfold api_server_stop, try_catch, bind.
  rewrite (getProcessStatus_tracked _ _ _ Hget). simpl. rewrite Halive. reflexivity.
Qed.

(** X14. [POST /api/server/stop] on a running server whose stdin takes the
    write, when the thirty seconds run out before the child closes: the
    route answers 500 with "Process minecraft-server did not stop within
    30000ms", the lifecycle label stays ["stopping"] (the [catch] block does
    not reset it), the Descriptor stays registered, and all the route did
    was to broadcast ["stopping"] and write "stop" to the server. *)
Theorem stop_route_timeout (st : State) (info : ProcessInfo) (fd : Stream) :
  processes (processManager st) !! "minecraft-server" = Some info ->
  alive st (pid info) = true ->
  cp_stdin (process info) = Some fd ->
  os_write (world st) fd ("stop" +:+ nl) = None ->
  (api_server_stop [TimerExpires] st).1 =
    Return (StopRefused 500 ("Process minecraft-server did not stop within 30000ms"))
  /\ serverStatus (after (api_server_stop [TimerExpires]) st) = "stopping"
  /\ processes (processManager (after (api_server_stop [TimerExpires]) st))
       !! "minecraft-server" = Some info
  /\ effects_of (api_server_stop [TimerExpires]) st =
       [EBroadcast "stopping" None; EWrite fd ("stop" +:+ nl)].
Proof.
  intros Hget Halive Hin Hwrite.
  set (st0 := after (broadcastToClients "stopping" None)
                    (with_serverStatus "stopping" (with_world tick st))).
  assert (Hrun : api_server_stop [TimerExpires] st =
                 (Return (StopRefused 500
                            "Process minecraft-server did not stop within 30000ms"),
                  after (emit (EWrite fd ("stop" +:+ nl))) st0)).
  { rewrite (stop_route_running st info _ Hget Halive). fold st0.
    unfold try_catch, await, bind.
    rewrite (stop_request_written st0 30000 info fd Hget Hin Hwrite). reflexivity. }
  unfold effects_of, after. rewrite Hrun. simpl.
  split; [reflexivity|]. split; [reflexivity|]. split; [exact Hget|].
  rewrite <- app_assoc. apply drop_app_length.
Qed.

Lemma stop_route_timeout_witness :
  processes (processManager unix_running) !! "minecraft-server" = Some example_info
  /\ alive unix_running (pid example_info) = true
  /\ cp_stdin (process example_info) = Some 10%N
  /\ os_write (world unix_running) 10%N ("stop" +:+ nl) = None
  /\ (api_server_stop [TimerExpires] unix_running).1 =
       Return (StopRefused 500 ("Process minecraft-server did not stop within 30000ms"))
  /\ serverStatus (after (api_server_stop [TimerExpires]) unix_running) = "stopping"
  /\ processes (processManager (after (api_server_stop [TimerExpires]) unix_running))
       !! "minecraft-server" = Some example_info
  /\ effects_of (api_server_stop [TimerExpires]) unix_running =
       [EBroadcast "stopping" None; EWrite 10%N ("stop" +:+ nl)].
Proof.
  assert (H1 : processes (processManager unix_running) !! "minecraft-server"
               = Some example_info) by (vm_compute; reflexivity).
  assert (H2 : alive unix_running (pid example_info) = true) by (vm_compute; reflexivity).
  assert (H3 : cp_stdin (process example_info) = Some 10%N) by (vm_compute; reflexivity).
  assert (H4 : os_write (world unix_running) 10%N ("stop" +:+ nl) = None)
    by (vm_compute; reflexivity).
  repeat (split; [assumption|]).
  exact (stop_route_timeout unix_running example_info 10%N H1 H2 H3 H4).
Defined.

(** X15. [POST /api/server/stop] on a running server whose stdin takes the
    write, when the child closes in time: the route answers with the exit
    code and the signal of the child, the lifecycle label is ["stopped"],
    the Descriptor is gone, and the route broadcast ["stopping"], wrote
    "stop" to the server and broadcast ["stopped"]. *)
Theorem stop_route_success (st : State) (info : ProcessInfo) (fd : Stream)
    (code : option Z) (signal : option string) :
  processes (processManager st) !! "minecraft-server" = Some info ->
  alive st (pid info) = true ->
  cp_stdin (process info) = Some fd ->
  os_write (world st) fd ("stop" +:+ nl) = None ->
  (api_server_stop [ChildCloses code signal] st).1 = Return (StopDone code signal)
  /\ serverStatus (after (api_server_stop [ChildCloses code signal]) st) = "stopped"
  /\ processes (processManager (after (api_server_stop [ChildCloses code signal]) st))
       !! "minecraft-server" = None
  /\ effects_of (api_server_stop [ChildCloses code signal]) st =
       [EBroadcast "stopping" None; EWrite fd ("stop" +:+ nl); EBroadcast "stopped" None].
Proof.
  intros Hget Halive Hin Hwrite.
  set (st0 := after (broadcastToClients "stopping" None)
                    (with_serverStatus "stopping" (with_world tick st))).
  assert (Hrun : exists st1,
            api_server_stop [ChildCloses code signal] st = (Return (StopDone code signal), st1)
            /\ serverStatus st1 = "stopped"
            /\ processes (processManager st1) !! "minecraft-server" = None
            /\ trace (world st1) =
                 trace (world st) ++ [EBroadcast "stopping" None; EWrite fd ("stop" +:+ nl);
                                      EBroadcast "stopped" None]).
  { rewrite (stop_route_running st info _ Hget Halive). fold st0.
    unfold try_catch, await, bind.
    rewrite (stop_request_written st0 30000 info fd Hget Hin Hwrite). simpl.
    eexists. split; [reflexivity|]. simpl. split; [reflexivity|].
    split; [apply lookup_delete_eq|]. rewrite <- !app_assoc. reflexivity. }
  destruct Hrun as (st1 & Hrun & Hstatus & Hgone & Htrace).
  unfold effects_of, after. rewrite Hrun. simpl.
  split; [reflexivity|]. split; [exact Hstatus|]. split; [exact Hgone|].
  rewrite Htrace. apply drop_app_length.
Qed.

Lemma stop_route_success_witness :
  processes (processManager unix_running) !! "minecraft-server" = Some example_info
  /\ alive unix_running (pid example_info) = true
  /\ cp_stdin (process example_info) = Some 10%N
  /\ os_write (world unix_running) 10%N ("stop" +:+ nl) = None
  /\ (api_server_stop [ChildCloses (Some 0) None] unix_running).1 = Return (StopDone (Some 0) None)
  /\ serverStatus (after (api_server_stop [ChildCloses (Some 0) None]) unix_running) = "stopped"
  /\ processes (processManager (after (api_server_stop [ChildCloses (Some 0) None]) unix_running))
       !! "minecraft-server" = None
  /\ effects_of (api_server_stop [ChildCloses (Some 0) None]) unix_running =
       [EBroadcast "stopping" None; EWrite 10%N ("stop" +:+ nl); EBroadcast "stopped" None].
Proof.
  assert (H1 : processes (processManager unix_running) !! "minecraft-server"
               = Some example_info) by (vm_compute; reflexivity).
  assert (H2 : alive unix_running (pid example_info) = true) by (vm_compute; reflexivity).
  assert (H3 : cp_stdin (process example_info) = Some 10%N) by (vm_compute; reflexivity).
  assert (H4 : os_write (world unix_running) 10%N ("stop" +:+ nl) = None)
    by (vm_compute; reflexivity).
  repeat (split; [assumption|]).
  exact (stop_route_success unix_running example_info 10%N (Some 0) None H1 H2 H3 H4).
Defined.

(** ** Requests that find no running server *)

Lemma not_running_status (st : State) :
  server_running st = false ->
  exists status st1,
    getProcessStatus "minecraft-server" st = (Return status, st1)
    /\ running status = false
    /\ processManager st1 = processManager st
    /\ serverStatus st1 = serverStatus st
    /\ trace (world st1) = trace (world st)
    /\ fs (world st1) = fs (world st).
Proof.
  unfold server_running. intros Hdown.
  destruct (processes (processManager st) !! "minecraft-server") as [info |] eqn:Hget.
  - rewrite (getProcessStatus_tracked _ _ _ Hget) in *. simpl in Hdown.
    eexists _, _. split; [reflexivity|]. split; [exact Hdown|]. repeat split.
  - rewrite (getProcessStatus_untracked _ _ Hget) in *.
    eexists _, _. split; [reflexivity|]. repeat split.
Qed.

(** X16. When the status of the server is not [running] (nothing
    registered, or a registered pid that the probe reports dead), the stop
    route and the kill route answer 400 "Server is not running" and do
    nothing: no write, no signal, no broadcast, and registry and lifecycle
    label as before. *)
Theorem not_running_is_refused (st : State) (events : list Event) :
  server_running st = false ->
  (api_server_stop events st).1 = Return (StopRefused 400 "Server is not running")
  /\ (api_server_kill st).1 =
       Return {| res_status := 400; res_body := [("error", JString "Server is not running")] |}
  /\ effects_of (api_server_stop events) st = []
  /\ effects_of api_server_kill st = []
  /\ processManager (after (api_server_stop events) st) = processManager st
  /\ processManager (after api_server_kill st) = processManager st
  /\ serverStatus (after (api_server_stop events) st) = serverStatus st
  /\ serverStatus (after api_server_kill st) = serverStatus st.
Proof.
  intros Hdown.
  destruct (not_running_status st Hdown)
    as (status & st1 & Hstatus & Hrunning & Hpm & Hlabel & Htrace & _).
  unfold effects_of, after, api_server_stop, api_server_kill, try_catch, bind.
  rewrite Hstatus, Hrunning. simpl. rewrite Htrace, drop_all.
  repeat split; assumption.
Qed.

Lemma not_running_is_refused_witness :
  server_running unix_crashed = false
  /\ (api_server_stop [] unix_crashed).1 = Return (StopRefused 400 "Server is not running")
  /\ (api_server_kill unix_crashed).1 =
       Return {| res_status := 400; res_body := [("error", JString "Server is not running")] |}
  /\ effects_of (api_server_stop []) unix_crashed = []
  /\ effects_of api_server_kill unix_crashed = []
  /\ processManager (after (api_server_stop []) unix_crashed) = processManager unix_crashed
  /\ processManager (after api_server_kill unix_crashed) = processManager unix_crashed
  /\ serverStatus (after (api_server_stop []) unix_crashed) = serverStatus unix_crashed
  /\ serverStatus (after api_server_kill unix_crashed) = serverStatus unix_crashed.
Proof.
  assert (H : server_running unix_crashed = false) by (vm_compute; reflexivity).
  exact (conj H (not_running_is_refused unix_crashed [] H)).
Defined.

(** ** A restart whose stop times out *)

(** X17. [POST /api/server/restart] on a running server that does not
    close within thirty seconds answers 500, schedules no start, and sets
    the lifecycle label to ["stopped"] although the server is still
    registered and alive, so that the status route keeps reporting
    [running]. *)
Theorem restart_after_timeout (st : State) (info : ProcessInfo) (fd : Stream) :
  processes (processManager st) !! "minecraft-server" = Some info ->
  alive st (pid info) = true ->
  cp_stdin (process info) = Some fd ->
  os_write (world st) fd ("stop" +:+ nl) = None ->
  (restart_and_wait [TimerExpires] st).1 =
    Return {| res_status := 500;
              res_body := [("error",
                            JString "Process minecraft-server did not stop within 30000ms")] |}
  /\ serverStatus (after (restart_and_wait [TimerExpires]) st) = "stopped"
  /\ server_running (after (restart_and_wait [TimerExpires]) st) = true
  /\ effects_of (restart_and_wait [TimerExpires]) st =
       [EBroadcast "stopping" None; EWrite fd ("stop" +:+ nl); EBroadcast "stopped" None].
Proof.
  intros Hget Halive Hin Hwrite.
  set (st0 := after (broadcastToClients "stopping" None)
                    (with_serverStatus "stopping" (with_world tick st))).
  set (st1 := after (broadcastToClients "stopped" None)
                    (with_serverStatus "stopped" (after (emit (EWrite fd ("stop" +:+ nl))) st0))).
  assert (Hrun : restart_and_wait [TimerExpires] st =
                 (Return {| res_status := 500;
                            res_body := [("error",
                              JString "Process minecraft-server did not stop within 30000ms")] |},
                  st1)).
  { unfold restart_and_wait, api_server_restart, try_catch, bind at 1 2 3.
    rewrite (getProcessStatus_tracked _ _ _ Hget). simpl. rewrite Halive. simpl.
    unfold bind at 1 2 3. simpl. fold st0. unfold await, bind at 1 2.
    rewrite (stop_request_written st0 30000 info fd Hget Hin Hwrite). reflexivity. }
  unfold effects_of, after. rewrite Hrun. simpl.
  split; [reflexivity|]. split; [reflexivity|]. split.
  - unfold server_running.
    assert (Hget1 : processes (processManager st1) !! "minecraft-server" = Some info)
      by exact Hget.
    rewrite (getProcessStatus_tracked _ _ _ Hget1). simpl.
    rewrite (alive_frame st1 st); [exact Halive | reflexivity ..].
  - rewrite <- !app_assoc. apply drop_app_length.
Qed.

Lemma restart_after_timeout_witness :
  processes (processManager unix_running) !! "minecraft-server" = Some example_info
  /\ alive unix_running (pid example_info) = true
  /\ cp_stdin (process example_info) = Some 10%N
  /\ os_write (world unix_running) 10%N ("stop" +:+ nl) = None
  /\ (restart_and_wait [TimerExpires] unix_running).1 =
       Return {| res_status := 500;
                 res_body := [("error",
                               JString "Process minecraft-server did not stop within 30000ms")] |}
  /\ serverStatus (after (restart_and_wait [TimerExpires]) unix_running) = "stopped"
  /\ server_running (after (restart_and_wait [TimerExpires]) unix_running) = true
  /\ effects_of (restart_and_wait [TimerExpires]) unix_running =
       [EBroadcast "stopping" None; EWrite 10%N ("stop" +:+ nl); EBroadcast "stopped" None].
Proof.
  assert (H1 : processes (processManager unix_running) !! "minecraft-server"
               = Some example_info) by (vm_compute; reflexivity).
  assert (H2 : alive unix_running (pid example_info) = true) by (vm_compute; reflexivity).
  assert (H3 : cp_stdin (process example_info) = Some 10%N) by (vm_compute; reflexivity).
  assert (H4 : os_write (world unix_running) 10%N ("stop" +:+ nl) = None)
    by (vm_compute; reflexivity).
  repeat (split; [assumption|]).
  exact (restart_after_timeout unix_running example_info 10%N H1 H2 H3 H4).
Defined.

(** ** Starting without a jar *)

(** X19. [POST /api/server/start] with no server running and no jar in the
    server directory answers 500 with "Server jar file not found: <path>",
    spawns nothing, leaves the registry as it was, broadcasts ["starting"]
    and then ["stopped"], and ends with the label ["stopped"]. *)
Theorem start_route_without_jar (st : State) :
  server_running st = false ->
  Fs.exists_ (fs (world st)) (path_join (serverPath st) [sc_jarFile (serverConfig st)]) = false ->
  (api_server_start st).1 =
    Return {| res_status := 500;
              res_body :=
                [("error",
                  JString ("Server jar file not found: "
                           +:+ render (path_join (serverPath st)
                                                 [sc_jarFile (serverConfig st)])))] |}
  /\ serverStatus (after api_server_start st) = "stopped"
  /\ processManager (after api_server_start st) = processManager st
  /\ effects_of api_server_start st = [EBroadcast "starting" None; EBroadcast "stopped" None].
Proof.
  intros Hdown Hjar.
  assert (Hrest : forall st1,
            fs (world st1) = fs (world st) -> serverConfig st1 = serverConfig st ->
            serverPath st1 = serverPath st ->
            startMinecraftServer (launch_config (serverConfig st) (serverPath st)) st1 =
              (Throw (Error ("Server jar file not found: "
                             +:+ render (path_join (serverPath st)
                                                   [sc_jarFile (serverConfig st)]))), st1)).
  { intros st1 Hfs Hconfig Hpath.
    rewrite start_jar_missing; [reflexivity|]. rewrite Hfs. exact Hjar. }
  assert (Hrun : exists st1,
            api_server_start st =
              (Return {| res_status := 500;
                         res_body :=
                           [("error",
                             JString ("Server jar file not found: "
                                      +:+ render (path_join (serverPath st)
                                                    [sc_jarFile (serverConfig st)])))] |}, st1)
            /\ serverStatus st1 = "stopped"
            /\ processManager st1 = processManager st
            /\ trace (world st1) = trace (world st)
                 ++ [EBroadcast "starting" None; EBroadcast "stopped" None]).
  { unfold server_running in Hdown.
    unfold api_server_start, try_catch, bind at 1.
    destruct (processes (processManager st) !! "minecraft-server") as [info |] eqn:Hget.
    - rewrite (getProcessStatus_tracked _ _ _ Hget) in *. simpl in Hdown. simpl.
      rewrite Hdown. simpl.
      unfold bind, modify, gets, broadcastToClients, emit. simpl.
      rewrite Hrest by reflexivity. simpl.
      eexists. split; [reflexivity|]. simpl. rewrite <- app_assoc. repeat split.
    - rewrite (getProcessStatus_untracked _ _ Hget) in *. simpl.
      unfold bind, modify, gets, broadcastToClients, emit. simpl.
      rewrite Hrest by reflexivity. simpl.
      eexists. split; [reflexivity|]. simpl. rewrite <- app_assoc. repeat split. }
  destruct Hrun as (st1 & Hrun & Hlabel & Hpm & Htrace).
  unfold effects_of, after. rewrite Hrun. simpl.
  rewrite Htrace, drop_app_length. repeat split; assumption.
Qed.

Lemma start_route_without_jar_witness :
  server_running unix_no_jar = false
  /\ Fs.exists_ (fs (world unix_no_jar))
        (path_join (serverPath unix_no_jar) [sc_jarFile (serverConfig unix_no_jar)]) = false
  /\ (api_server_start unix_no_jar).1 =
       Return {| res_status := 500;
                 res_body :=
                   [("error",
                     JString ("Server jar file not found: "
                              +:+ render (path_join (serverPath unix_no_jar)
                                            [sc_jarFile (serverConfig unix_no_jar)])))] |}
  /\ serverStatus (after api_server_start unix_no_jar) = "stopped"
  /\ processManager (after api_server_start unix_no_jar) = processManager unix_no_jar
  /\ effects_of api_server_start unix_no_jar
       = [EBroadcast "starting" None; EBroadcast "stopped" None].
Proof.
  assert (H1 : server_running unix_no_jar = false) by (vm_compute; reflexivity).
  assert (H2 : Fs.exists_ (fs (world unix_no_jar))
                 (path_join (serverPath unix_no_jar) [sc_jarFile (serverConfig unix_no_jar)])
               = false) by (vm_compute; reflexivity).
  repeat (split; [assumption|]).
  exact (start_route_without_jar unix_no_jar H1 H2).
Defined.

(** ** A restart that cannot start *)

(** X18. [POST /api/server/restart] with nothing registered answers 200
    "Server restart initiated" before the start is attempted; when the jar
    is missing, the delayed start then fails, and the client learns of it
    only through the broadcasts ["starting"], ["stopped"]: the label ends
    as ["stopped"] and nothing is registered. *)
Theorem restart_answers_before_it_starts (st : State) (events : list Event) :
  processes (processManager st) !! "minecraft-server" = None ->
  Fs.exists_ (fs (world st)) (path_join (serverPath st) [sc_jarFile (serverConfig st)]) = false ->
  (restart_and_wait events st).1 =
    Return {| res_status := 200;
              res_body := [ ("success", JBool true);
                            ("message", JString "Server restart initiated") ] |}
  /\ serverStatus (after (restart_and_wait events) st) = "stopped"
  /\ processes (processManager (after (restart_and_wait events) st)) !! "minecraft-server"
       = None
  /\ effects_of (restart_and_wait events) st
       = [EBroadcast "starting" None; EBroadcast "stopped" None].
Proof.
  intros Hget Hjar.
  assert (Hrest : forall st1,
            fs (world st1) = fs (world st) ->
            startMinecraftServer (launch_config (serverConfig st) (serverPath st)) st1 =
              (Throw (Error ("Server jar file not found: "
                             +:+ render (path_join (serverPath st)
                                                   [sc_jarFile (serverConfig st)]))), st1)).
  { intros st1 Hfs. rewrite start_jar_missing; [reflexivity|]. rewrite Hfs. exact Hjar. }
  assert (Hrun : exists st1,
            restart_and_wait events st =
              (Return {| res_status := 200;
                         res_body := [ ("success", JBool true);
                                       ("message", JString "Server restart initiated") ] |},
               st1)
            /\ serverStatus st1 = "stopped"
            /\ processManager st1 = processManager st
            /\ trace (world st1) = trace (world st)
                 ++ [EBroadcast "starting" None; EBroadcast "stopped" None]).
  { unfold restart_and_wait, api_server_restart, try_catch, bind at 1 2 3.
    rewrite (getProcessStatus_untracked _ _ Hget). simpl.
    unfold restart_timer, try_catch, bind, modify, gets, broadcastToClients, emit. simpl.
    rewrite Hrest by reflexivity. simpl.
    eexists. split; [reflexivity|]. simpl. rewrite <- app_assoc. repeat split. }
  destruct Hrun as (st1 & Hrun & Hlabel & Hpm & Htrace).
  unfold effects_of, after. rewrite Hrun. simpl.
  rewrite Htrace, drop_app_length, Hpm. repeat split; assumption.
Qed.

Lemma restart_answers_before_it_starts_witness :
  processes (processManager unix_no_jar) !! "minecraft-server" = None
  /\ Fs.exists_ (fs (world unix_no_jar))
        (path_join (serverPath unix_no_jar) [sc_jarFile (serverConfig unix_no_jar)]) = false
  /\ (restart_and_wait [] unix_no_jar).1 =
       Return {| res_status := 200;
                 res_body := [ ("success", JBool true);
                               ("message", JString "Server restart initiated") ] |}
  /\ serverStatus (after (restart_and_wait []) unix_no_jar) = "stopped"
  /\ processes (processManager (after (restart_and_wait []) unix_no_jar)) !! "minecraft-server"
       = None
  /\ effects_of (restart_and_wait []) unix_no_jar
       = [EBroadcast "starting" None; EBroadcast "stopped" None].
Proof.
  assert (H1 : processes (processManager unix_no_jar) !! "minecraft-server" = None)
    by (vm_compute; reflexivity).
  assert (H2 : Fs.exists_ (fs (world unix_no_jar))
                 (path_join (serverPath unix_no_jar) [sc_jarFile (serverConfig unix_no_jar)])
               = false) by (vm_compute; reflexivity).
  repeat (split; [assumption|]).
  exact (restart_answers_before_it_starts unix_no_jar [] H1 H2).
Defined.

(** ** The kill route on a running server *)

(** X20. [POST /api/server/kill] on a running server, on a host that is not
    Windows and delivers the signal: the route answers 200, sends [SIGKILL]
    to the process group of the server, sets the label to ["stopped"] and
    broadcasts it; the Descriptor stays registered (until the ['close']
    event). *)
Theorem kill_route_on_unix (st : State) (info : ProcessInfo) (p : Z) :
  processes (processManager st) !! "minecraft-server" = Some info ->
  alive st (pid info) = true ->
  isWindows (processManager st) = false ->
  cp_pid (process info) = Some p ->
  (p =? 0) = false ->
  os_kill (world st) (- p) "SIGKILL" = None ->
  (api_server_kill st).1 =
    Return {| res_status := 200;
              res_body := [ ("success", JBool true);
                            ("message", JString "Server killed successfully") ] |}
  /\ serverStatus (after api_server_kill st) = "stopped"
  /\ processes (processManager (after api_server_kill st)) !! "minecraft-server" = Some info
  /\ effects_of api_server_kill st = [EKill (- p) "SIGKILL"; EBroadcast "stopped" None].
Proof.
  intros Hget Halive Hunix Hpid Hnonzero Hkill.
  assert (Hrun : api_server_kill st =
                 (Return {| res_status := 200;
                            res_body := [ ("success", JBool true);
                                          ("message", JString "Server killed successfully") ] |},
                  after (broadcastToClients "stopped" None)
                        (with_serverStatus "stopped"
                           (after (emit (EKill (- p) "SIGKILL")) (with_world tick st))))).
  { unfold api_server_kill, try_catch, bind at 1.
    rewrite (getProcessStatus_tracked _ _ _ Hget). simpl. rewrite Halive. simpl.
    unfold bind at 1.
    rewrite (killProcess_on_unix (with_world tick st) _ _ info Hunix Hget).
    rewrite Hpid, Hnonzero. simpl. rewrite Hkill. reflexivity. }
  unfold effects_of, after. rewrite Hrun. simpl.
  split; [reflexivity|]. split; [reflexivity|]. split; [exact Hget|].
  rewrite <- app_assoc. apply drop_app_length.
Qed.

Lemma kill_route_on_unix_witness :
  processes (processManager unix_running) !! "minecraft-server" = Some example_info
  /\ alive unix_running (pid example_info) = true
  /\ isWindows (processManager unix_running) = false
  /\ cp_pid (process example_info) = Some 4242
  /\ (4242 =? 0) = false
  /\ os_kill (world unix_running) (- 4242) "SIGKILL" = None
  /\ (api_server_kill unix_running).1 =
       Return {| res_status := 200;
                 res_body := [ ("success", JBool true);
                               ("message", JString "Server killed successfully") ] |}
  /\ serverStatus (after api_server_kill unix_running) = "stopped"
  /\ processes (processManager (after api_server_kill unix_running)) !! "minecraft-server"
       = Some example_info
  /\ effects_of api_server_kill unix_running
       = [EKill (- 4242) "SIGKILL"; EBroadcast "stopped" None].
Proof.
  assert (H1 : processes (processManager unix_running) !! "minecraft-server"
               = Some example_info) by (vm_compute; reflexivity).
  assert (H2 : alive unix_running (pid example_info) = true) by (vm_compute; reflexivity).
  assert (H3 : isWindows (processManager unix_running) = false) by (vm_compute; reflexivity).
  assert (H4 : cp_pid (process example_info) = Some 4242) by (vm_compute; reflexivity).
  assert (H5 : (4242 =? 0) = false) by (vm_compute; reflexivity).
  assert (H6 : os_kill (world unix_running) (- 4242) "SIGKILL" = None)
    by (vm_compute; reflexivity).
  repeat (split; [assumption|]).
  exact (kill_route_on_unix unix_running example_info 4242 H1 H2 H3 H4 H5 H6).
Defined.

(** ** The command route, case by case *)

(** X21. [POST /api/server/command], case by case: a missing or empty
    command is refused with 400 and nothing happens; with nothing
    registered the route answers 500 "Process minecraft-server not found";
    otherwise it answers 200 exactly when the command and a line feed were
    written to the stdin of the server, and 500 "Failed to send command"
    when the pipe is missing or the write throws. *)
Theorem command_route_outcomes (c : ascii) (rest : string) (st : State) :
  let command := String c rest in
  let refused :=
    {| res_status := 400; res_body := [("error", JString "Command is required")] |} in
  let failed :=
    (Return {| res_status := 500; res_body := [("error", JString "Failed to send command")] |},
     after (console_error "Failed to send command to minecraft-server:") st) in
  api_server_command None st = (Return refused, st)
  /\ api_server_command (Some EmptyString) st = (Return refused, st)
  /\ api_server_command (Some command) st =
       match processes (processManager st) !! "minecraft-server" with
       | None =>
           (Return {| res_status := 500;
                      res_body := [("error", JString "Process minecraft-server not found")] |},
            st)
       | Some info =>
           match cp_stdin (process info) with
           | Some fd =>
               match os_write (world st) fd (command +:+ nl) with
               | None =>
                   (Return {| res_status := 200;
                              res_body := [ ("success", JBool true);
                                            ("message", JString "Command sent successfully") ] |},
                    after (emit (EWrite fd (command +:+ nl))) st)
               | Some _ => failed
               end
           | None => failed
           end
       end.
Proof.
  intros command refused failed. split; [reflexivity|]. split; [reflexivity|].
  unfold api_server_command, command, sendCommand, try_catch, processes_get, bind, gets. simpl.
  destruct (processes (processManager st) !! "minecraft-server") as [info |]; [| reflexivity].
  unfold pipe_write. destruct (cp_stdin (process info)) as [fd |]; [| reflexivity].
  destruct (os_write (world st) fd _); reflexivity.
Qed.

(** ** Sessions *)

(** X22. After a login attempt the session is authenticated exactly when the
    credentials were [admin] and [admin123] or it was authenticated before
    (a failed attempt does not log out); a session that logged in passes
    [requireAuth], which then runs the handler; a new session, or any
    session after a logout, gets 401 "Authentication required" and the
    handler does not run. *)
Theorem session_gate {A : Type} (u p : option string) (session : Session)
    (next : M A) (st : State) :
  authenticated (api_login u p session).2
    = bool_decide (u = Some "admin") && bool_decide (p = Some "admin123")
      || authenticated session
  /\ requireAuth (api_login (Some "admin") (Some "admin123") session).2 next st
       = (let* answer := next in ret (inr answer)) st
  /\ requireAuth (api_logout session).2 next st
       = (Return (inl {| res_status := 401;
                         res_body := [("error", JString "Authentication required")] |}), st)
  /\ requireAuth new_session next st
       = (Return (inl {| res_status := 401;
                         res_body := [("error", JString "Authentication required")] |}), st).
Proof.
  split; [| repeat split].
  unfold api_login, defaultUsername, defaultPassword.
  destruct (bool_decide (u = Some "admin") && bool_decide (p = Some "admin123")); simpl;
    [reflexivity | reflexivity].
Qed.

(** ** The configuration route *)

(** What [POST /api/config] makes of the config in memory. *)
Lemma config_post_memory (stringify : ServerConfig -> string) (body : ConfigBody) (st : State) :
  serverConfig (after (api_config_post stringify body) st) =
    {| sc_jarFile := or_else (b_jarFile body) (sc_jarFile (serverConfig st));
       sc_minMemory := or_else (b_minMemory body) (sc_minMemory (serverConfig st));
       sc_maxMemory := or_else (b_maxMemory body) (sc_maxMemory (serverConfig st));
       sc_useAikarFlags := default (sc_useAikarFlags (serverConfig st)) (b_useAikarFlags body);
       sc_customArgs := or_else (b_customArgs body) (sc_customArgs (serverConfig st));
       sc_jvmArgs := None; sc_serverArgs := None |}.
Proof.
  unfold after, api_config_post, bind, gets, modify, writeJsonSync, fs_update. simpl.
  destruct (write_file _ _ _); simpl; destruct (b_useAikarFlags body); reflexivity.
Qed.

Lemma or_else_idem (value : option string) (fallback : string) :
  or_else value (or_else value fallback) = or_else value fallback.
Proof. destruct value as [[| c s] |]; reflexivity. Qed.

Lemma or_else_requested (value : option string) (fallback : string) :
  value <> Some EmptyString -> or_else value fallback = default fallback value.
Proof. destruct value as [[| c s] |]; [congruence | reflexivity | reflexivity]. Qed.

(** X23. What [POST /api/config] makes of the configuration in memory: an
    empty body keeps the five keys of the route as they are and drops
    [jvmArgs] and [serverArgs], which only a [config.json] edited by hand
    can have brought in; posting the same body twice is the same as posting
    it once; an empty string counts as an omitted field, so that
    custom arguments (like every string field) cannot be cleared; and
    [useAikarFlags] is taken from the body whenever it is given, [false]
    included. *)
Theorem config_post_merge (stringify : ServerConfig -> string) (body : ConfigBody)
    (st : State) :
  let post b s := serverConfig (after (api_config_post stringify b) s) in
  post empty_body st = five_keys (serverConfig st)
  /\ post body (after (api_config_post stringify body) st) = post body st
  /\ post (set_customArgs (Some EmptyString) body) st = post (set_customArgs None body) st
  /\ sc_useAikarFlags (post body st)
       = default (sc_useAikarFlags (serverConfig st)) (b_useAikarFlags body).
Proof.
  intros post. unfold post. rewrite !config_post_memory. simpl.
  split; [reflexivity|].
  split; [| split; reflexivity].
  rewrite !or_else_idem. destruct (b_useAikarFlags body); reflexivity.
Qed.

Lemma requested_merge (body : ConfigBody) (sc : ServerConfig) :
  no_empty_field body = true ->
  {| sc_jarFile := or_else (b_jarFile body) (sc_jarFile sc);
     sc_minMemory := or_else (b_minMemory body) (sc_minMemory sc);
     sc_maxMemory := or_else (b_maxMemory body) (sc_maxMemory sc);
     sc_useAikarFlags := default (sc_useAikarFlags sc) (b_useAikarFlags body);
     sc_customArgs := or_else (b_customArgs body) (sc_customArgs sc);
     sc_jvmArgs := None; sc_serverArgs := None |}
  = requested body sc.
Proof.
  unfold no_empty_field, requested. intros Hfields.
  repeat (apply andb_prop in Hfields as [Hfields ?]).
  repeat match goal with
         | H : negb (bool_decide _) = true |- _ =>
             apply negb_true_iff, bool_decide_eq_false in H
         end.
  rewrite !or_else_requested by assumption. reflexivity.
Qed.

Lemma write_file_any (f : gmap path Entry) (p : path) (data data' : string) :
  write_file f p data = None <-> write_file f p data' = None.
Proof.
  unfold write_file.
  destruct (f !! removelast p) as [[|] |]; destruct (f !! p) as [[|] |]; split;
    (reflexivity || discriminate).
Qed.

(** The run of [POST /api/config], according to whether the file can be
    written. *)
Lemma config_post_run (stringify : ServerConfig -> string) (body : ConfigBody) (st : State) :
  let updated :=
    {| sc_jarFile := or_else (b_jarFile body) (sc_jarFile (serverConfig st));
       sc_minMemory := or_else (b_minMemory body) (sc_minMemory (serverConfig st));
       sc_maxMemory := or_else (b_maxMemory body) (sc_maxMemory (serverConfig st));
       sc_useAikarFlags := default (sc_useAikarFlags (serverConfig st)) (b_useAikarFlags body);
       sc_customArgs := or_else (b_customArgs body) (sc_customArgs (serverConfig st));
       sc_jvmArgs := None; sc_serverArgs := None |} in
  let target := removelast (dirname (world st)) ++ ["config.json"] in
  api_config_post stringify body st =
    if config_writable st
    then (Return {| res_status := 200;
                    res_body := [("success", JBool true);
                                 ("message", JString "Configuration updated")] |},
          set_fs (<[target := File (stringify updated +:+ nl)]> (fs (world st)))
                 (with_serverConfig updated st))
    else (Throw (Error ("ENOENT: no such file or directory, open " +:+ render target)),
          with_serverConfig updated st).
Proof.
  intros updated target.
  unfold api_config_post, config_writable, bind, gets, modify, writeJsonSync, fs_update. simpl.
  rewrite (path_join_parent (dirname (world st)) "config.json") by discriminate.
  fold target.
  assert (Hsame : {| sc_jarFile := or_else (b_jarFile body) (sc_jarFile (serverConfig st));
       sc_minMemory := or_else (b_minMemory body) (sc_minMemory (serverConfig st));
       sc_maxMemory := or_else (b_maxMemory body) (sc_maxMemory (serverConfig st));
       sc_useAikarFlags :=
         match b_useAikarFlags body with
         | Some flag => flag
         | None => sc_useAikarFlags (serverConfig st)
         end;
       sc_customArgs := or_else (b_customArgs body) (sc_customArgs (serverConfig st));
       sc_jvmArgs := None; sc_serverArgs := None |}
       = updated).
  { unfold updated. destruct (b_useAikarFlags body); reflexivity. }
  rewrite Hsame.
  destruct (write_file (fs (world st)) target EmptyString) as [f0 |] eqn:Hprobe.
  - unfold write_file in *.
    destruct (fs (world st) !! removelast target) as [[|] |]; try discriminate.
    destruct (fs (world st) !! target) as [[|] |]; try discriminate; reflexivity.
  - apply (write_file_any _ _ _ (stringify updated +:+ nl)) in Hprobe.
    rewrite Hprobe. reflexivity.
Qed.

(** X24. [POST /api/config] with a body without empty strings replaces
    exactly the fields it gives among the five keys of the route (and
    keeps no other key), and [GET /api/config] then returns the result. When [config.json] can be written, the route answers 200 and
    the file holds the rendering of the new configuration and a line feed;
    when it cannot, the route throws, and the configuration in memory has
    been replaced all the same. Nothing else changes. *)
Theorem config_post_outcome (stringify : ServerConfig -> string) (body : ConfigBody)
    (st : State) :
  no_empty_field body = true ->
  let target := removelast (dirname (world st)) ++ ["config.json"] in
  serverConfig (after (api_config_post stringify body) st) = requested body (serverConfig st)
  /\ (api_config_get (after (api_config_post stringify body) st)).1
       = Return (requested body (serverConfig st))
  /\ (api_config_post stringify body st).1 =
       (if config_writable st
        then Return {| res_status := 200;
                       res_body := [("success", JBool true);
                                    ("message", JString "Configuration updated")] |}
        else Throw (Error ("ENOENT: no such file or directory, open " +:+ render target)))
  /\ fs (world (after (api_config_post stringify body) st)) =
       (if config_writable st
        then <[target := File (stringify (requested body (serverConfig st)) +:+ nl)]>
               (fs (world st))
        else fs (world st))
  /\ processManager (after (api_config_post stringify body) st) = processManager st
  /\ serverStatus (after (api_config_post stringify body) st) = serverStatus st
  /\ trace (world (after (api_config_post stringify body) st)) = trace (world st).
Proof.
  intros Hfields target. unfold after, api_config_get, gets.
  rewrite config_post_run. fold target.
  rewrite (requested_merge body (serverConfig st) Hfields).
  destruct (config_writable st); repeat split.
Qed.

Lemma config_post_outcome_witness :
  let target := removelast (dirname (world unix_no_home)) ++ ["config.json"] in
  no_empty_field example_body = true
  /\ serverConfig (after (api_config_post example_stringify example_body) unix_no_home)
       = requested example_body (serverConfig unix_no_home)
  /\ (api_config_get (after (api_config_post example_stringify example_body) unix_no_home)).1
       = Return (requested example_body (serverConfig unix_no_home))
  /\ (api_config_post example_stringify example_body unix_no_home).1 =
       (if config_writable unix_no_home
        then Return {| res_status := 200;
                       res_body := [("success", JBool true);
                                    ("message", JString "Configuration updated")] |}
        else Throw (Error ("ENOENT: no such file or directory, open " +:+ render target)))
  /\ fs (world (after (api_config_post example_stringify example_body) unix_no_home)) =
       (if config_writable unix_no_home
        then <[target := File (example_stringify
                                 (requested example_body (serverConfig unix_no_home)) +:+ nl)]>
               (fs (world unix_no_home))
        else fs (world unix_no_home))
  /\ processManager (after (api_config_post example_stringify example_body) unix_no_home)
       = processManager unix_no_home
  /\ serverStatus (after (api_config_post example_stringify example_body) unix_no_home)
       = serverStatus unix_no_home
  /\ trace (world (after (api_config_post example_stringify example_body) unix_no_home))
       = trace (world unix_no_home).
Proof.
  intros target.
  assert (H : no_empty_field example_body = true) by (vm_compute; reflexivity).
  exact (conj H (config_post_outcome example_stringify example_body unix_no_home H)).
Defined.

(** ** Custom arguments *)

(** X25. The [customArgs] of the configuration never reach [java]:
    whatever they are, [startMinecraftServer], called with the launch
    config that the routes build, ends the same way and in the same world;
    and when the jar is found, what it spawns is [java] in the server
    directory with the memory settings, the tuning flags when they are on,
    [-jar <file> --nogui], and the [jvmArgs] and [serverArgs] of the
    configuration where a [config.json] edited by hand supplied them,
    nothing else. *)
Theorem custom_args_are_ignored (sc : ServerConfig) (args : string) (serverPath : path)
    (st : State) :
  let sc' := with_customArgs args sc in
  (startMinecraftServer (launch_config sc' serverPath) st).1
    = (startMinecraftServer (launch_config sc serverPath) st).1
  /\ world (after (startMinecraftServer (launch_config sc' serverPath)) st)
       = world (after (startMinecraftServer (launch_config sc serverPath)) st)
  /\ (Fs.exists_ (fs (world st)) (path_join serverPath [sc_jarFile sc]) = true ->
      exists later,
        effects_of (startMinecraftServer (launch_config sc' serverPath)) st =
          ESpawn "java"
                 (["-Xms" +:+ sc_minMemory sc; "-Xmx" +:+ sc_maxMemory sc]
                  ++ (if sc_useAikarFlags sc then aikarFlags else [])
                  ++ default [] (sc_jvmArgs sc)
                  ++ ["-jar"; sc_jarFile sc; "--nogui"]
                  ++ default [] (sc_serverArgs sc))
                 {| cwd := serverPath; detached := negb (isWindows (processManager st));
                    windowsHide := isWindows (processManager st) |} :: later).
Proof.
  intros sc'. split; [| split].
  3:{ intros Hjar.
      exact (start_spawns_first (launch_config sc' serverPath) st Hjar). }
  all: unfold after, startMinecraftServer, bind, gets, existsSync; simpl;
    destruct (Fs.exists_ _ _); simpl; [| reflexivity];
    unfold try_catch, spawn, bind, emit, modify; simpl;
    destruct (os_spawn (world st) _ _ _) as [e | child]; simpl; [reflexivity|];
    destruct (cp_stdout child); simpl; [| reflexivity];
    destruct (cp_stderr child); simpl; [| reflexivity];
    destruct (isWindows (processManager st)); reflexivity.
Qed.

Lemma custom_args_are_ignored_witness :
  Fs.exists_ (fs (world unix_boot))
             (path_join (serverPath unix_boot) [sc_jarFile edited_config]) = true
  /\ exists later,
       effects_of (startMinecraftServer
                     (launch_config (with_customArgs "--safeMode" edited_config)
                                    (serverPath unix_boot))) unix_boot =
         ESpawn "java"
                ["-Xms1G"; "-Xmx2G"; "-Dfile.encoding=UTF-8"; "-jar"; "server.jar"; "--nogui";
                 "--port"; "25566"]
                {| cwd := ["srv"; "wrapper"; "minecraft-server"];
                   detached := true; windowsHide := false |} :: later.
Proof.
  assert (Hjar : Fs.exists_ (fs (world unix_boot))
                   (path_join (serverPath unix_boot) [sc_jarFile edited_config]) = true)
    by (vm_compute; reflexivity).
  split; [exact Hjar|].
  exact (proj2 (proj2 (custom_args_are_ignored edited_config "--safeMode"
                         (serverPath unix_boot) unix_boot)) Hjar).
Defined.

(** ** One name only *)

Ltac other_names :=
  let st := fresh "st" in
  let name := fresh "name" in
  let Hname := fresh "Hname" in
  let Hnone := fresh "Hnone" in
  intros st name Hname Hnone;
  cbv beta delta
    [new_Date fs_update mkdirSync_recursive copyFileSync writeJsonSync
     readdirSync statSync createWriteStream file_write pipe_write spawn process_kill
     child_kill exec execSync unref console_error broadcastToClients emit
     processes_get processes_set processes_delete existsSync on_ file_end Date_now
     modify gets bind ret throw];
  repeat case_match; simpl;
  first [ exact Hnone
        | rewrite lookup_insert_ne by congruence; exact Hnone
        | apply lookup_delete_None; right; exact Hnone ].

Ltac names := frame_by other_names.

Lemma registry_kept {A} (m : M A) :
  (forall st, processManager (m st).2 = processManager st) -> respects no_other_name m.
Proof. intros Hm st name _ Hnone. rewrite Hm. exact Hnone. Qed.

Ltac kept_by frame_lemma :=
  apply registry_kept;
  let st := fresh "st" in
  let H := fresh "H" in
  intros st; pose proof (frame_lemma st) as H; unfold same in H; congruence.

Lemma startMinecraftServer_names (config : Config) :
  respects no_other_name (startMinecraftServer config).
Proof. unfold startMinecraftServer. names. Qed.

Lemma child_close_names (logStream errorLogStream : path)
    (code : option Z) (signal : option string) :
  respects no_other_name (child_close logStream errorLogStream code signal).
Proof. unfold child_close. names. Qed.

Lemma killProcess_names (name signal : string) : respects no_other_name (killProcess name signal).
Proof. unfold killProcess. names. Qed.

Lemma stopProcess_names (name : string) (timeout : Z) :
  respects no_other_name (stopProcess name timeout).
Proof.
  intros st n Hn Hnone.
  pose proof (stopProcess_frame name timeout st) as H. unfold same in H.
  injection H as Hpm _ _ _ _. rewrite Hpm. exact Hnone.
Qed.

Lemma stop_and_wait_names (name : string) (timeout : Z) (events : list Event) :
  respects no_other_name (stop_and_wait name timeout events).
Proof.
  unfold stop_and_wait.
  apply respects_bind; [exact _ | names | intros found].
  apply respects_bind; [exact _ | apply stopProcess_names | intros call].
  destruct found as [info |]; [| names].
  apply respects_bind; [exact _ | | intros call'; names].
  revert call. induction events as [| ev rest IH]; intros call; simpl; [names|].
  apply respects_bind; [exact _ | | intros call'; apply IH].
  destruct ev as [| code signal]; simpl.
  - unfold stop_timeout. names.
  - apply respects_bind; [exact _ | apply child_close_names | intros _].
    unfold stop_close. names.
Qed.

Lemma getProcessStatus_names (name : string) : respects no_other_name (getProcessStatus name).
Proof. kept_by (getProcessStatus_frame name). Qed.

Lemma sendCommand_names (name command : string) :
  respects no_other_name (sendCommand name command).
Proof. kept_by (sendCommand_frame name command). Qed.

Lemma await_stop_names (events : list Event) :
  respects no_other_name (await (stop_and_wait "minecraft-server" 30000 events)).
Proof.
  unfold await. apply respects_bind; [exact _ | apply stop_and_wait_names | intros p].
  destruct p; names.
Qed.

Lemma restart_timer_names : respects no_other_name restart_timer.
Proof.
  unfold restart_timer.
  apply respects_try_catch; [exact _ | | intros e; names].
  do 4 (apply respects_bind; [exact _ | names | intros ?]).
  apply respects_bind; [exact _ | apply startMinecraftServer_names | intros ?]. names.
Qed.

Lemma api_server_start_names : respects no_other_name api_server_start.
Proof.
  unfold api_server_start.
  apply respects_try_catch; [exact _ | | intros e; names].
  apply respects_bind; [exact _ | apply getProcessStatus_names | intros status].
  destruct (running status); [names|].
  do 4 (apply respects_bind; [exact _ | names | intros ?]).
  apply respects_bind; [exact _ | apply startMinecraftServer_names | intros ?]. names.
Qed.

Lemma api_server_stop_names (events : list Event) :
  respects no_other_name (api_server_stop events).
Proof.
  unfold api_server_stop.
  apply respects_try_catch; [exact _ | | intros e; names].
  apply respects_bind; [exact _ | apply getProcessStatus_names | intros status].
  destruct (negb (running status)); [names|].
  do 2 (apply respects_bind; [exact _ | names | intros ?]).
  apply respects_bind; [exact _ | apply await_stop_names | intros ?; names].
Qed.

Lemma restart_and_wait_names (events : list Event) :
  respects no_other_name (restart_and_wait events).
Proof.
  unfold restart_and_wait.
  apply respects_bind; [exact _ | | intros answer].
  - unfold api_server_restart.
    apply respects_try_catch; [exact _ | | intros e; names].
    apply respects_bind; [exact _ | apply getProcessStatus_names | intros status].
    apply respects_bind; [exact _ | | intros ?; names].
    destruct (running status); [| names].
    do 2 (apply respects_bind; [exact _ | names | intros ?]).
    apply respects_bind; [exact _ | apply await_stop_names | intros ?; names].
  - apply respects_bind; [exact _ | | intros ?; names].
    destruct answer.2; [apply restart_timer_names | names].
Qed.

Lemma api_server_kill_names : respects no_other_name api_server_kill.
Proof.
  unfold api_server_kill.
  apply respects_try_catch; [exact _ | | intros e; names].
  apply respects_bind; [exact _ | apply getProcessStatus_names | intros status].
  destruct (negb (running status)); [names|].
  apply respects_bind; [exact _ | apply killProcess_names | intros ?]. names.
Qed.

Lemma api_server_command_names (command : option string) :
  respects no_other_name (api_server_command command).
Proof.
  unfold api_server_command.
  destruct command as [[| c rest] |]; [names | | names].
  apply respects_try_catch; [exact _ | | intros e; names].
  apply respects_bind; [exact _ | apply sendCommand_names | intros ?; names].
Qed.

(** No call, event or request registers a second name. *)
Lemma perform_names (call : Call) : forall st, no_other_name st (perform call st).
Proof.
  destruct call; simpl; unfold after;
    match goal with |- forall st, no_other_name st (?m st).2 => change (respects no_other_name m) end.
  - apply startMinecraftServer_names.
  - apply stop_and_wait_names.
  - apply killProcess_names.
  - apply sendCommand_names.
  - apply getProcessStatus_names.
  - kept_by getAllProcesses_frame.
  - unfold cleanup. names.
  - kept_by (createBackup_frame fuel processName).
  - unfold stdout_data. names.
  - unfold stderr_data. names.
  - apply child_close_names.
  - unfold child_error. names.
  - unfold api_server_status.
    apply respects_bind; [exact _ | apply getProcessStatus_names | intros status; names].
  - apply api_server_start_names.
  - apply api_server_stop_names.
  - apply restart_and_wait_names.
  - apply api_server_kill_names.
  - apply api_server_command_names.
  - unfold api_config_post. names.
Qed.

Lemma constructor_registry (st : State) :
  processes (processManager (after ProcessManager_new st)) = ∅.
Proof.
  unfold after, ProcessManager_new, bind, gets, modify, existsSync. simpl.
  destruct (negb _); simpl; [| reflexivity].
  unfold mkdirSync_recursive, fs_update. simpl. destruct (Fs.mkdir_recursive _ _); reflexivity.
Qed.

Lemma run_names (calls : list Call) (st : State) (name : string) :
  name <> "minecraft-server" ->
  processes (processManager (run calls st)) !! name = None.
Proof.
  intros Hname. unfold run.
  assert (Hstart : processes (processManager (after ProcessManager_new st)) !! name = None)
    by (rewrite constructor_registry; apply lookup_empty).
  revert Hstart. generalize (after ProcessManager_new st). clear st.
  induction calls as [| call rest IH]; intros st Hnone; simpl; [exact Hnone|].
  apply IH. apply (perform_names call st name Hname Hnone).
Qed.

(** X13. From the constructor on, whatever methods are called, whatever
    events the children raise and whatever requests the routes serve, the
    registry never holds a name other than ["minecraft-server"]: for every
    other name [getProcessStatus] answers [{ running: false }] and
    [stopProcess], [killProcess], [sendCommand] and [createBackup] throw
    "Process <name> not found" without touching anything. In particular the
    [SIGTERM] branch of [stopProcess] for other processes never runs. *)
Theorem only_one_name_is_ever_tracked (calls : list Call) (st : State) (name : string)
    (timeout : Z) (signal command : string) (fuel : nat) :
  String.eqb name "minecraft-server" = false ->
  let now := run calls st in
  let not_found := Error ("Process " +:+ name +:+ " not found") in
  processes (processManager now) !! name = None
  /\ getProcessStatus name now = (Return NotTracked, now)
  /\ stopProcess name timeout now = (Throw not_found, now)
  /\ killProcess name signal now = (Throw not_found, now)
  /\ sendCommand name command now = (Throw not_found, now)
  /\ createBackup fuel name now = (Throw not_found, now).
Proof.
  intros Hname now not_found.
  assert (Hnone : processes (processManager now) !! name = None).
  { apply run_names. intros ->. discriminate. }
  split; [exact Hnone|].
  split; [apply getProcessStatus_untracked; exact Hnone|].
  unfold stopProcess, killProcess, sendCommand, createBackup, processes_get, bind, gets.
  simpl. rewrite Hnone. repeat split.
Qed.

Lemma only_one_name_is_ever_tracked_witness :
  let calls := [PostStart; CallBackup 3 "minecraft-server"; PostStop [TimerExpires];
                OnClose [] [] (Some 0) None; PostRestart []] in
  String.eqb "proxy" "minecraft-server" = false
  /\ processes (processManager (run calls unix_boot)) !! "proxy" = None
  /\ getProcessStatus "proxy" (run calls unix_boot) = (Return NotTracked, run calls unix_boot)
  /\ stopProcess "proxy" 30000 (run calls unix_boot)
       = (Throw (Error ("Process " +:+ "proxy" +:+ " not found")), run calls unix_boot)
  /\ killProcess "proxy" "SIGKILL" (run calls unix_boot)
       = (Throw (Error ("Process " +:+ "proxy" +:+ " not found")), run calls unix_boot)
  /\ sendCommand "proxy" "list" (run calls unix_boot)
       = (Throw (Error ("Process " +:+ "proxy" +:+ " not found")), run calls unix_boot)
  /\ createBackup 3 "proxy" (run calls unix_boot)
       = (Throw (Error ("Process " +:+ "proxy" +:+ " not found")), run calls unix_boot).
Proof.
  intros calls.
  assert (H : String.eqb "proxy" "minecraft-server" = false) by reflexivity.
  exact (conj H (only_one_name_is_ever_tracked calls unix_boot "proxy" 30000 "SIGKILL" "list"
                   3%nat H)).
Defined.

(** * Properties of the installer *)

Module InstallerFacts.
Import Installer.

(** ** [checkNode] and the version it reads *)

Lemma digit_char_facts (d : nat) :
  (d < 10)%nat ->
  is_space (digit_char d) = false
  /\ Ascii.eqb (digit_char d) "." = false
  /\ decimal_digit (digit_char d) = Some (Z.of_nat d)
  /\ digit_char d <> "-"%char /\ digit_char d <> "+"%char /\ digit_char d <> "x"%char
  /\ digit_char d <> "X"%char.
Proof.
  intros Hd. do 10 (destruct d as [| d]; [repeat split; discriminate |]). lia.
Qed.

Lemma trim_end_keeps (c : ascii) (s : string) :
  is_space c = false -> trim_end (String c s) = String c (trim_end s).
Proof. intros Hc. simpl. rewrite Hc. destruct (trim_end s); reflexivity. Qed.

Lemma trim_end_numeral (digits : list nat) (s : string) :
  forallb (fun d => (d <? 10)%nat) digits = true ->
  trim_end (numeral digits +:+ s) = numeral digits +:+ trim_end s.
Proof.
  induction digits as [| d rest IH]; intros Hall; [reflexivity|].
  simpl in Hall. apply andb_prop in Hall as [Hd Hrest]. apply Nat.ltb_lt in Hd.
  destruct (digit_char_facts d Hd) as (Hspace & _).
  change (numeral (d :: rest) +:+ s) with (String (digit_char d) (numeral rest +:+ s)).
  rewrite (trim_end_keeps _ _ Hspace).
  rewrite IH by exact Hrest. reflexivity.
Qed.

Lemma before_numeral (digits : list nat) (s : string) :
  forallb (fun d => (d <? 10)%nat) digits = true ->
  before "." (numeral digits +:+ String "." s) = numeral digits.
Proof.
  induction digits as [| d rest IH]; intros Hall; [reflexivity|].
  simpl in Hall. apply andb_prop in Hall as [Hd Hrest]. apply Nat.ltb_lt in Hd.
  destruct (digit_char_facts d Hd) as (_ & Hdot & _).
  change (numeral (d :: rest) +:+ String "." s)
    with (String (digit_char d) (numeral rest +:+ String "." s)).
  cbn [before]. rewrite Hdot, IH by exact Hrest. reflexivity.
Qed.

Lemma leading_number_numeral (digits : list nat) (acc : option Z) :
  forallb (fun d => (d <? 10)%nat) digits = true ->
  digits <> [] ->
  leading_number decimal_digit 10 acc (numeral digits)
    = Some (foldl (fun a d => 10 * a + Z.of_nat d) (default 0 acc) digits).
Proof.
  revert acc. induction digits as [| d rest IH]; intros acc Hall Hne; [contradiction|].
  simpl in Hall. apply andb_prop in Hall as [Hd Hrest]. apply Nat.ltb_lt in Hd.
  destruct (digit_char_facts d Hd) as (_ & _ & Hdigit & _).
  cbn [numeral leading_number foldl]. rewrite Hdigit.
  destruct rest as [| d' rest']; [reflexivity|].
  rewrite IH by (exact Hrest || discriminate). reflexivity.
Qed.

Lemma parseInt_decimal (c : ascii) (t : string) (v : Z) :
  is_space c = false -> c <> "-"%char -> c <> "+"%char ->
  (forall c' t', t = String c' t' -> c' <> "x"%char /\ c' <> "X"%char) ->
  leading_number decimal_digit 10 None (String c t) = Some v ->
  parseInt (String c t) = Some v.
Proof.
  intros Hspace Hminus Hplus Hsecond Hnum.
  unfold parseInt. cbn [trim_start]. rewrite Hspace.
  destruct c as [[] [] [] [] [] [] [] []]; try congruence;
    try (cbv beta iota; rewrite Hnum; reflexivity).
  destruct t as [| c' t']; [cbv beta iota; rewrite Hnum; reflexivity|].
  destruct (Hsecond c' t' eq_refl) as [Hx HX].
  destruct c' as [[] [] [] [] [] [] [] []]; try congruence;
    cbv beta iota; rewrite Hnum; reflexivity.
Qed.

(** [parseInt] reads a decimal numeral back. *)
Lemma parseInt_numeral (d : nat) (ds : list nat) :
  forallb (fun d => (d <? 10)%nat) (d :: ds) = true ->
  parseInt (numeral (d :: ds)) = Some (value (d :: ds)).
Proof.
  intros Hall.
  pose proof (leading_number_numeral (d :: ds) None Hall ltac:(discriminate)) as Hnum.
  pose proof Hall as Hall'.
  cbn [forallb] in Hall'. apply andb_prop in Hall' as [Hd Hds]. apply Nat.ltb_lt in Hd.
  destruct (digit_char_facts d Hd) as (Hspace & _ & _ & Hminus & Hplus & _).
  change (numeral (d :: ds)) with (String (digit_char d) (numeral ds)) in *.
  apply parseInt_decimal; try assumption.
  intros c' t' Heq. destruct ds as [| d2 ds2]; [discriminate|].
  cbn [numeral] in Heq. injection Heq as <- _.
  cbn [forallb] in Hds. apply andb_prop in Hds as [Hd2 _]. apply Nat.ltb_lt in Hd2.
  destruct (digit_char_facts d2 Hd2) as (_ & _ & _ & _ & _ & Hx & HX). split; assumption.
Qed.

(** X26. [checkNode], when [node --version] prints [v<major>.<rest>] with
    a decimal major version, answers [true] exactly when the major version
    is at least 16; it runs [node --version] twice (once through [spawn],
    once through [exec]) and touches no file. *)
Theorem checkNode_accepts_16_and_up (h : Host) (d : nat) (ds : list nat) (rest : string) :
  h_succeeds h "node" ["--version"] = true ->
  forallb (fun d => (d <? 10)%nat) (d :: ds) = true ->
  h_exec h "node --version" = inl ("v" +:+ numeral (d :: ds) +:+ "." +:+ rest) ->
  (checkNode h).1 = Done (16 <=? value (d :: ds))
  /\ h_ran (after checkNode h) = h_ran h ++ [Spawn "node" ["--version"]; Exec "node --version"]
  /\ h_fs (after checkNode h) = h_fs h.
Proof.
  intros Hnode Hdigits Hversion.
  assert (Hmajor : parseInt (before "." (substring_1 (trim ("v" +:+ numeral (d :: ds)
                                                              +:+ "." +:+ rest))))
                   = Some (value (d :: ds))).
  { unfold trim. change ("v" +:+ numeral (d :: ds) +:+ "." +:+ rest)
      with (String "v" (numeral (d :: ds) +:+ String "." rest)).
    cbn [trim_start]. change (is_space "v") with false. cbv iota.
    rewrite (trim_end_keeps "v" _ eq_refl). cbn [substring_1].
    rewrite (trim_end_numeral _ _ Hdigits).
    rewrite (trim_end_keeps "." _ eq_refl).
    rewrite (before_numeral _ _ Hdigits). apply parseInt_numeral. exact Hdigits. }
  unfold after, checkNode, bind, try_catch, log, checkCommand, execCommand.
  cbn [fst snd h_succeeds h_exec with_ran with_console].
  rewrite Hnode. cbv iota. cbn [h_exec with_ran with_console]. rewrite Hversion. cbv iota beta.
  rewrite Hmajor. unfold at_least, ret.
  destruct (16 <=? value (d :: ds));
    cbn [fst snd h_ran h_fs with_ran with_console]; rewrite <- !app_assoc; repeat split.
Qed.

(** ** What the installer runs, and when *)

Ltac installer_run :=
  unfold after, bind, try_catch, ret, log, checkCommand, execCommand, isWindows, isLinux;
  cbn [fst snd h_platform h_arch h_totalmem h_USER h_dirname h_succeeds h_exec h_fs
       h_console h_errors h_ran with_ran with_console with_fs with_errors].

Lemma installJava_run (h : Host) :
  (installJava h).1 = Done (javaInstalled h)
  /\ h_ran (after installJava h) =
       h_ran h
       ++ (if bool_decide (h_platform h = "linux")
           then [Spawn "apt" ["--version"]; Spawn "yum" ["--version"];
                 Spawn "dnf" ["--version"]]
           else [])
       ++ attempted h (java_plan h)
  /\ h_fs (after installJava h) = h_fs h.
Proof.
  unfold installJava, javaInstalled, java_plan.
  destruct (decide (h_platform h = "win32")) as [Hwin | Hwin].
  - assert (Hlinux : h_platform h <> "linux") by (rewrite Hwin; discriminate).
    installer_run.
    rewrite (bool_decide_eq_true_2 _ Hwin), (bool_decide_eq_false_2 _ Hlinux).
    cbn. rewrite app_nil_r. repeat split.
  - installer_run. rewrite (bool_decide_eq_false_2 _ Hwin).
    destruct (bool_decide (h_platform h = "linux")); cbv iota;
      [| cbn; rewrite app_nil_r; repeat split].
    installer_run.
    destruct (h_succeeds h "apt" ["--version"]); cbv iota; installer_run;
      [| destruct (h_succeeds h "dnf" ["--version"]); cbv iota; installer_run;
         [| destruct (h_succeeds h "yum" ["--version"]); cbv iota; installer_run ]].
    all: unfold all_succeed; cbn [forallb attempted].
    all: repeat match goal with
                | |- context [h_exec ?host ?command] =>
                    let E := fresh "E" in
                    destruct (h_exec host command) eqn:E; cbv iota; installer_run
                end.
    all: cbn; rewrite <- ?app_assoc; repeat split.
Qed.

(** X27. [installJava] runs commands on Linux only: there it probes [apt],
    [yum] and [dnf], then uses the first available of [apt], [dnf], [yum]
    (in this order of preference) and stops at the first command that
    fails; it answers [true] exactly when a package manager was found and
    all of its commands succeeded. On every other platform it runs nothing
    and answers [false]. It never touches a file. *)
Theorem installJava_follows_plan (h : Host) :
  (installJava h).1 = Done (javaInstalled h)
  /\ h_ran (after installJava h) =
       h_ran h
       ++ (if bool_decide (h_platform h = "linux")
           then [Spawn "apt" ["--version"]; Spawn "yum" ["--version"];
                 Spawn "dnf" ["--version"]]
           else [])
       ++ attempted h (java_plan h)
  /\ h_fs (after installJava h) = h_fs h.
Proof. exact (installJava_run h). Qed.

(** ** The memory check *)

Lemma gigabytes_below_two (bytes : Z) : (gigabytes bytes <? 2) = (bytes <? 1610612736).
Proof.
  unfold gigabytes.
  destruct (bytes <? 1610612736) eqn:Hb.
  - apply Z.ltb_lt in Hb. apply Z.ltb_lt. apply Z.div_lt_upper_bound; lia.
  - apply Z.ltb_ge in Hb. apply Z.ltb_ge. apply Z.div_le_lower_bound; lia.
Qed.

(** X28. [checkSystemRequirements] always answers [true], runs no
    command, and prints the platform, the architecture and the memory
    rounded to whole gigabytes; because of the rounding, the warning "Less
    than 2GB RAM detected" is printed exactly when the machine has less
    than 1.5 GiB (1610612736 bytes). *)
Theorem memory_warning_threshold (h : Host) :
  (checkSystemRequirements h).1 = Done true
  /\ h_console (after checkSystemRequirements h) =
       h_console h
       ++ [ "🔍 Checking system requirements...";
            "   Platform: " +:+ h_platform h;
            "   Architecture: " +:+ h_arch h;
            "   Total Memory: " +:+ pretty (gigabytes (h_totalmem h)) +:+ " GB" ]
       ++ (if h_totalmem h <? 1610612736
           then [ "   ⚠️  Warning: Less than 2GB RAM detected"; "   Minecraft servers typically require at least 2GB RAM" ]
           else [ "   ✅ Sufficient memory available" ])
  /\ h_ran (after checkSystemRequirements h) = h_ran h.
Proof.
  unfold checkSystemRequirements. installer_run.
  rewrite gigabytes_below_two.
  destruct (h_totalmem h <? 1610612736); installer_run;
    rewrite <- !app_assoc; repeat split.
Qed.

(** ** The directories *)

Lemma ensure_directory (f : gmap path Entry) (p : path) :
  (forall q data, q `prefix_of` p -> f !! q <> Some (File data)) ->
  exists f',
    (if Fs.exists_ f p then Some f else Fs.mkdir_recursive f p) = Some f'
    /\ f' !! p = Some Directory
    /\ (forall q, f !! q = Some Directory -> f' !! q = Some Directory)
    /\ (forall q data, f' !! q = Some (File data) <-> f !! q = Some (File data)).
Proof.
  intros Hway. unfold Fs.exists_. destruct (f !! p) as [e |] eqn:Hp.
  - exists f. split; [reflexivity|]. split; [| split; [auto | reflexivity]].
    destruct e as [data |]; [| exact Hp]. exfalso. exact (Hway p data (reflexivity _) Hp).
  - destruct (mkdir_recursive_spec f p Hway) as (f1 & Hmk & Hdirs & Hframe).
    exists f1. split; [exact Hmk|]. split; [apply Hdirs; reflexivity|]. split.
    + intros q Hq. destruct (decide (q `prefix_of` p)) as [Hpre | Hpre].
      * apply Hdirs. exact Hpre.
      * rewrite (Hframe q Hpre). exact Hq.
    + intros q data. destruct (decide (q `prefix_of` p)) as [Hpre | Hpre].
      * rewrite (Hdirs q Hpre). split; [discriminate|].
        intros Hfile. exfalso. exact (Hway q data Hpre Hfile).
      * rewrite (Hframe q Hpre). reflexivity.
Qed.

Lemma with_fs_same (h : Host) : with_fs (h_fs h) h = h.
Proof. destruct h; reflexivity. Qed.

Lemma createDirectory_run (dir : string) (h : Host) :
  dir <> ".." ->
  (forall q data, q `prefix_of` removelast (h_dirname h) ++ [dir] ->
     h_fs h !! q <> Some (File data)) ->
  exists f' lines,
    createDirectory dir h = (Done tt, with_console (h_console h ++ lines) (with_fs f' h))
    /\ f' !! (removelast (h_dirname h) ++ [dir]) = Some Directory
    /\ (forall q, h_fs h !! q = Some Directory -> f' !! q = Some Directory)
    /\ (forall q data, f' !! q = Some (File data) <-> h_fs h !! q = Some (File data))
    /\ (h_fs h !! (removelast (h_dirname h) ++ [dir]) = Some Directory -> f' = h_fs h).
Proof.
  intros Hname Hway.
  destruct (ensure_directory _ _ Hway) as (f' & Hrun & Hdir & Hdirs & Hfiles).
  unfold createDirectory, mkdirSync_recursive. installer_run.
  rewrite (path_join_parent (h_dirname h) dir Hname).
  destruct (Fs.exists_ (h_fs h) (removelast (h_dirname h) ++ [dir])) eqn:Hex; cbn [negb].
  - injection Hrun as <-. exists (h_fs h). eexists. split.
    { rewrite with_fs_same. installer_run. reflexivity. }
    repeat split; auto; apply Hfiles.
  - rewrite Hrun. installer_run. eexists _, _. split; [reflexivity|].
    repeat split; auto; try apply Hfiles.
    intros Hthere. unfold Fs.exists_ in Hex. rewrite Hthere in Hex. discriminate.
Qed.

Lemma createDirectory_loop (dirs : list string) :
  forall h : Host,
    (forall dir, dir ∈ dirs -> dir <> "..") ->
    (forall dir q data, dir ∈ dirs -> q `prefix_of` removelast (h_dirname h) ++ [dir] ->
       h_fs h !! q <> Some (File data)) ->
    exists f' lines,
      for_each dirs createDirectory h
        = (Done tt, with_console (h_console h ++ lines) (with_fs f' h))
      /\ (forall dir, dir ∈ dirs -> f' !! (removelast (h_dirname h) ++ [dir]) = Some Directory)
      /\ (forall q, h_fs h !! q = Some Directory -> f' !! q = Some Directory)
      /\ (forall q data, f' !! q = Some (File data) <-> h_fs h !! q = Some (File data))
      /\ ((forall dir, dir ∈ dirs ->
             h_fs h !! (removelast (h_dirname h) ++ [dir]) = Some Directory) -> f' = h_fs h).
Proof.
  induction dirs as [| dir rest IH]; intros h Hnames Hway.
  - exists (h_fs h), []. split.
    { cbn. unfold ret. rewrite app_nil_r, with_fs_same. destruct h; reflexivity. }
    split; [intros dir Hin; inversion Hin|]. split; [auto|]. split; [reflexivity | auto].
  - destruct (createDirectory_run dir h) as (f1 & lines1 & Hrun1 & Hdir1 & Hdirs1 & Hfiles1 & Hid1).
    { apply Hnames. left. }
    { intros q data. apply Hway. left. }
    set (h1 := with_console (h_console h ++ lines1) (with_fs f1 h)) in *.
    destruct (IH h1) as (f2 & lines2 & Hrun2 & Hdir2 & Hdirs2 & Hfiles2 & Hid2).
    { intros d Hd. apply Hnames. right. exact Hd. }
    { intros d q data Hd Hq Hfile. apply Hfiles1 in Hfile.
      revert Hfile. apply (Hway d). right; exact Hd. exact Hq. }
    exists f2, (lines1 ++ lines2). split.
    { cbn [for_each]. unfold bind. rewrite Hrun1. fold h1. rewrite Hrun2.
      unfold h1. installer_run. rewrite <- app_assoc. reflexivity. }
    split; [| split; [| split]].
    + intros d Hd. apply elem_of_cons in Hd as [-> | Hd].
      * apply Hdirs2. exact Hdir1.
      * apply Hdir2. exact Hd.
    + intros q Hq. apply Hdirs2. apply Hdirs1. exact Hq.
    + intros q data. rewrite Hfiles2. apply Hfiles1.
    + intros Hall. rewrite Hid2.
      * apply Hid1. apply Hall. left.
      * intros d Hd. cbn. rewrite Hid1 by (apply Hall; left). apply Hall. right. exact Hd.
Qed.

(** X29. Unless a regular file stands in the way, [createDirectories]
    answers [true], after which [minecraft-server], [backups] and [logs] are
    directories beside the directory of the script; no regular file is
    created, changed or removed; no command is run; and a second run
    changes nothing on disk. *)
Theorem createDirectories_ensures (h : Host) :
  forallb (fun dir => no_file_on_the_way (h_fs h) (removelast (h_dirname h) ++ [dir]))
          directories = true ->
  (createDirectories h).1 = Done true
  /\ (forall dir, dir ∈ directories ->
        h_fs (after createDirectories h) !! (removelast (h_dirname h) ++ [dir])
          = Some Directory)
  /\ (forall q data, h_fs (after createDirectories h) !! q = Some (File data)
                     <-> h_fs h !! q = Some (File data))
  /\ h_fs (after createDirectories (after createDirectories h))
       = h_fs (after createDirectories h)
  /\ h_ran (after createDirectories h) = h_ran h.
Proof.
  intros Hway.
  assert (Hnames : forall dir, dir ∈ directories -> dir <> "..").
  { intros dir Hin ->. revert Hin. unfold directories. intros Hin.
    repeat (apply elem_of_cons in Hin as [Hin | Hin]; [discriminate|]). inversion Hin. }
  assert (Hrun : forall h0 : Host,
            (forall dir q data, dir ∈ directories ->
               q `prefix_of` removelast (h_dirname h0) ++ [dir] ->
               h_fs h0 !! q <> Some (File data)) ->
            exists f' lines,
              createDirectories h0
                = (Done true, with_console (h_console h0 ++ lines) (with_fs f' h0))
              /\ (forall dir, dir ∈ directories ->
                    f' !! (removelast (h_dirname h0) ++ [dir]) = Some Directory)
              /\ (forall q, h_fs h0 !! q = Some Directory -> f' !! q = Some Directory)
              /\ (forall q data, f' !! q = Some (File data) <-> h_fs h0 !! q = Some (File data))
              /\ ((forall dir, dir ∈ directories ->
                     h_fs h0 !! (removelast (h_dirname h0) ++ [dir]) = Some Directory) ->
                  f' = h_fs h0)).
  { intros h0 Hway0.
    set (h1 := with_console (h_console h0 ++ ["📁 Creating necessary directories..."]) h0).
    destruct (createDirectory_loop directories h1 Hnames Hway0)
      as (f' & lines & Hloop & Hfacts).
    exists f', ("📁 Creating necessary directories..." :: lines). split; [| exact Hfacts].
    unfold createDirectories, bind, log. fold h1. rewrite Hloop.
    unfold h1, ret. installer_run. rewrite <- app_assoc. reflexivity. }
  destruct (Hrun h) as (f1 & lines1 & Hrun1 & Hdir1 & Hdirs1 & Hfiles1 & _).
  { intros dir q data Hin. apply no_file_on_the_way_sound.
    rewrite forallb_forall in Hway. apply Hway. apply list_elem_of_In. exact Hin. }
  set (h1 := with_console (h_console h ++ lines1) (with_fs f1 h)) in *.
  destruct (Hrun h1) as (f2 & lines2 & Hrun2 & _ & _ & _ & Hid2).
  { intros dir q data Hin Hq Hfile. apply Hfiles1 in Hfile. revert Hfile.
    apply no_file_on_the_way_sound with (p := removelast (h_dirname h) ++ [dir]); [| exact Hq].
    rewrite forallb_forall in Hway. apply Hway. apply list_elem_of_In. exact Hin. }
  unfold after. rewrite Hrun1. cbn [fst snd]. fold h1. rewrite Hrun2. cbn [fst snd].
  split; [reflexivity|]. split; [exact Hdir1|]. split; [exact Hfiles1|].
  split; [| reflexivity].
  cbn. apply Hid2. exact Hdir1.
Qed.

(** ** The verdict of [main] *)

#[export] Instance later_preorder : PreOrder later.
Proof.
  split.
  - intros h. repeat split. exists []. rewrite app_nil_r. reflexivity.
  - intros a b c (H1 & H2 & H3 & H4 & H5 & H6 & H7 & l1 & H8)
                 (G1 & G2 & G3 & G4 & G5 & G6 & G7 & l2 & G8).
    repeat split; try congruence.
    exists (l1 ++ l2). rewrite G8, H8, app_assoc. reflexivity.
Qed.

Lemma steady_ret {A} (a : A) : steady (ret a).
Proof. intros h. reflexivity. Qed.

Lemma steady_read {A} (f : Host -> A) : steady (fun h => (Done (f h), h)).
Proof. intros h. reflexivity. Qed.

Lemma steady_log (line : string) : steady (log line).
Proof. intros h. repeat split. exists [line]. reflexivity. Qed.

Lemma steady_checkCommand (command : string) (args : list string) :
  steady (checkCommand command args).
Proof. intros h. repeat split. exists []. cbn. rewrite app_nil_r. reflexivity. Qed.

Lemma steady_execCommand (command : string) : steady (execCommand command).
Proof.
  intros h. unfold after, execCommand. destruct (h_exec h command);
    repeat split; exists []; cbn; rewrite app_nil_r; reflexivity.
Qed.

Lemma steady_mkdir (p : path) : steady (mkdirSync_recursive p).
Proof.
  intros h. unfold after, mkdirSync_recursive. destruct (Fs.mkdir_recursive _ _);
    repeat split; exists []; cbn; rewrite app_nil_r; reflexivity.
Qed.

Lemma steady_writeFile (p : path) (data : string) : steady (writeFileSync p data).
Proof.
  intros h. unfold after, writeFileSync. destruct (write_file _ _ _);
    repeat split; exists []; cbn; rewrite app_nil_r; reflexivity.
Qed.

Lemma steady_chmod (p : path) (mode : string) : steady (chmodSync p mode).
Proof. intros h. unfold after, chmodSync. destruct (h_fs h !! p); reflexivity. Qed.

Lemma steady_bind {A B} (m : I A) (k : A -> I B) :
  steady m -> (forall a, steady (k a)) -> steady (bind m k).
Proof.
  intros Hm Hk h. unfold after, bind. specialize (Hm h). unfold after in Hm.
  destruct (m h) as [[a | e] h1]; cbn in *; [| exact Hm].
  transitivity h1; [exact Hm | apply Hk].
Qed.

Lemma steady_try_catch {A} (body : I A) (handler : Thrown -> I A) :
  steady body -> (forall e, steady (handler e)) -> steady (try_catch body handler).
Proof.
  intros Hm Hk h. unfold after, try_catch. specialize (Hm h). unfold after in Hm.
  destruct (body h) as [[a | e] h1]; cbn in *; [exact Hm |].
  transitivity h1; [exact Hm | apply Hk].
Qed.

Lemma steady_for_each {A} (items : list A) (body : A -> I unit) :
  (forall item, steady (body item)) -> steady (for_each items body).
Proof.
  intros Hbody. induction items as [| item rest IH]; cbn [for_each].
  - apply steady_ret.
  - apply steady_bind; [apply Hbody | intros _; exact IH].
Qed.

Ltac steadily :=
  repeat first
    [ apply steady_ret | apply steady_log | apply steady_checkCommand
    | apply steady_execCommand | apply steady_mkdir | apply steady_writeFile
    | apply steady_chmod | apply steady_read
    | apply steady_bind; [| intros ?]
    | apply steady_try_catch; [| intros ?]
    | apply steady_for_each; intros ?
    | lazymatch goal with
      | |- steady (match ?x with _ => _ end) => destruct x
      end ].

Lemma steady_checkSystemRequirements : steady checkSystemRequirements.
Proof. unfold checkSystemRequirements. steadily. Qed.

Lemma steady_checkNode : steady checkNode.
Proof. unfold checkNode. steadily. Qed.

Lemma steady_checkNpm : steady checkNpm.
Proof. unfold checkNpm. steadily. Qed.

Lemma steady_installNodeDependencies : steady installNodeDependencies.
Proof. unfold installNodeDependencies. steadily. Qed.

Lemma steady_checkJava : steady checkJava.
Proof. unfold checkJava. steadily. Qed.

Lemma steady_installJava : steady installJava.
Proof. unfold installJava, isWindows, isLinux. steadily. Qed.

Lemma steady_createDirectories : steady createDirectories.
Proof. unfold createDirectories, createDirectory. steadily. Qed.

Lemma steady_checkFirewall : steady checkFirewall.
Proof. unfold checkFirewall, isWindows, isLinux. steadily. Qed.

Lemma steady_createStartupScripts : steady createStartupScripts.
Proof. unfold createStartupScripts, isWindows. steadily. Qed.

(** What the checks answer. *)
Lemma checkSystemRequirements_value (h : Host) : (checkSystemRequirements h).1 = Done true.
Proof. unfold checkSystemRequirements. installer_run. destruct (_ <? 2); reflexivity. Qed.

Lemma checkNode_value (h : Host) : (checkNode h).1 = Done (nodeOk h).
Proof.
  unfold checkNode, nodeOk. installer_run.
  destruct (h_succeeds h "node" ["--version"]); cbv iota; [| reflexivity].
  installer_run. destruct (h_exec h "node --version"); cbv iota; [| reflexivity].
  installer_run. destruct (at_least _ 16); reflexivity.
Qed.

Lemma checkNpm_value (h : Host) : (checkNpm h).1 = Done (npmOk h).
Proof.
  unfold checkNpm, npmOk, all_succeed. installer_run.
  destruct (h_succeeds h "npm" ["--version"]); cbv iota; [| reflexivity].
  installer_run. cbn [forallb]. destruct (h_exec h "npm --version"); reflexivity.
Qed.

Lemma installNodeDependencies_value (h : Host) :
  (installNodeDependencies h).1 = Done (depsOk h).
Proof.
  unfold installNodeDependencies, depsOk, all_succeed. installer_run.
  cbn [forallb]. destruct (h_exec h "npm install"); reflexivity.
Qed.

Lemma checkJava_value (h : Host) : (checkJava h).1 = Done (javaOk h).
Proof.
  unfold checkJava, javaOk, all_succeed. installer_run.
  destruct (h_succeeds h "java" ["-version"]); cbv iota; [| reflexivity].
  installer_run. cbn [forallb]. destruct (h_exec h "java -version"); reflexivity.
Qed.

Lemma checkFirewall_value (h : Host) : exists b, (checkFirewall h).1 = Done b.
Proof.
  unfold checkFirewall. installer_run.
  destruct (bool_decide (h_platform h = "win32")); cbv iota; [eexists; reflexivity|].
  destruct (bool_decide (h_platform h = "linux")); cbv iota; [| eexists; reflexivity].
  installer_run. destruct (h_succeeds h "ufw" _); cbv iota; [eexists; reflexivity|].
  destruct (h_succeeds h "firewall-cmd" _); eexists; reflexivity.
Qed.

(** The answers of the checks depend on the machine only. *)
Lemma later_answers (h h' : Host) :
  later h h' ->
  nodeOk h' = nodeOk h /\ npmOk h' = npmOk h /\ depsOk h' = depsOk h
  /\ javaOk h' = javaOk h /\ javaInstalled h' = javaInstalled h.
Proof.
  intros (Hplatform & _ & _ & _ & _ & Hsucceeds & Hexec & _).
  unfold nodeOk, npmOk, depsOk, javaOk, javaInstalled, java_plan, all_succeed.
  rewrite Hplatform, Hsucceeds, Hexec. repeat split.
Qed.

Lemma bind_step {A B} (m : I A) (k : A -> I B) (h : Host) (a : A) :
  (m h).1 = Done a -> bind m k h = k a (after m h).
Proof. unfold bind, after. destruct (m h) as [[a' | e] h']; cbn; congruence. Qed.

Lemma bind_fails {A B} (m : I A) (k : A -> I B) (h : Host) (e : Thrown) :
  (m h).1 = Failed e -> (bind m k h).1 = Failed e.
Proof. unfold bind. destruct (m h) as [[a' | e'] h']; cbn; congruence. Qed.

Lemma main_run (h : Host) :
  (main h).1 = Done tt ->
  exists h1, later h h1 /\ main h = summary (verdict h) h1.
Proof.
  unfold main.
  (* the greeting and the system requirements *)
  rewrite (bind_step _ _ h tt) by reflexivity.
  set (h1 := after (log _) h).
  assert (L1 : later h h1) by apply steady_log.
  rewrite (bind_step _ _ h1 true) by apply checkSystemRequirements_value.
  set (h2 := after checkSystemRequirements h1).
  assert (L2 : later h h2) by (transitivity h1; [exact L1 | apply steady_checkSystemRequirements]).
  rewrite (bind_step _ _ h2 tt) by reflexivity.
  set (h3 := after (log _) h2).
  assert (L3 : later h h3) by (transitivity h2; [exact L2 | apply steady_log]).
  (* Node.js *)
  rewrite (bind_step _ _ h3 (nodeOk h)).
  2:{ rewrite checkNode_value. f_equal. apply (later_answers h h3 L3). }
  set (h4 := after checkNode h3).
  assert (L4 : later h h4) by (transitivity h3; [exact L3 | apply steady_checkNode]).
  rewrite (bind_step _ _ h4 (nodeOk h)) by (destruct (nodeOk h); reflexivity).
  match goal with |- context [after ?m h4] => set (h5 := after m h4) end.
  assert (L5 : later h h5).
  { transitivity h4; [exact L4|]. unfold h5. destruct (nodeOk h); cbn [negb]; steadily. }
  rewrite (bind_step _ _ h5 tt) by reflexivity.
  set (h6 := after (log _) h5).
  assert (L6 : later h h6) by (transitivity h5; [exact L5 | apply steady_log]).
  (* npm *)
  rewrite (bind_step _ _ h6 (npmOk h)).
  2:{ rewrite checkNpm_value. f_equal. apply (later_answers h h6 L6). }
  set (h7 := after checkNpm h6).
  assert (L7 : later h h7) by (transitivity h6; [exact L6 | apply steady_checkNpm]).
  rewrite (bind_step _ _ h7 (nodeOk h && npmOk h))
    by (destruct (nodeOk h), (npmOk h); reflexivity).
  match goal with |- context [after ?m h7] => set (h8 := after m h7) end.
  assert (L8 : later h h8).
  { transitivity h7; [exact L7|]. unfold h8.
    destruct (nodeOk h), (npmOk h); cbn [negb andb]; steadily. }
  rewrite (bind_step _ _ h8 tt) by reflexivity.
  set (h9 := after (log _) h8).
  assert (L9 : later h h9) by (transitivity h8; [exact L8 | apply steady_log]).
  (* the dependencies *)
  rewrite (bind_step _ _ h9 (nodeOk h && npmOk h && depsOk h)).
  2:{ destruct (later_answers h h9 L9) as (_ & _ & Hdeps & _).
      destruct (nodeOk h), (npmOk h); cbn [andb]; try reflexivity.
      rewrite (bind_step _ _ h9 (depsOk h))
        by (rewrite installNodeDependencies_value, Hdeps; reflexivity).
      destruct (depsOk h); reflexivity. }
  match goal with |- context [after ?m h9] => set (h10 := after m h9) end.
  assert (L10 : later h h10).
  { transitivity h9; [exact L9|]. unfold h10.
    destruct (nodeOk h), (npmOk h); cbn [andb]; try apply steady_ret.
    apply steady_bind; [apply steady_installNodeDependencies | intros ?; steadily]. }
  (* Java *)
  rewrite (bind_step _ _ h10 (javaOk h)).
  2:{ rewrite checkJava_value. f_equal. apply (later_answers h h10 L10). }
  set (h11 := after checkJava h10).
  assert (L11 : later h h11) by (transitivity h10; [exact L10 | apply steady_checkJava]).
  rewrite (bind_step _ _ h11 (verdict h)).
  2:{ destruct (later_answers h h11 L11) as (_ & _ & _ & _ & Hinstalled).
      unfold verdict. destruct (javaOk h); cbn [negb orb].
      - rewrite andb_true_r. reflexivity.
      - rewrite (bind_step _ _ h11 (javaInstalled h))
          by (rewrite (proj1 (installJava_run h11)), Hinstalled; reflexivity).
        destruct (javaInstalled h); cbn [negb]; [rewrite andb_true_r | rewrite andb_false_r];
          reflexivity. }
  match goal with |- context [after ?m h11] => set (h12 := after m h11) end.
  assert (L12 : later h h12).
  { transitivity h11; [exact L11|]. unfold h12.
    destruct (javaOk h); cbn [negb]; try apply steady_ret.
    apply steady_bind; [apply steady_installJava | intros ?; steadily]. }
  rewrite (bind_step _ _ h12 tt) by reflexivity.
  set (h13 := after (log _) h12).
  assert (L13 : later h h13) by (transitivity h12; [exact L12 | apply steady_log]).
  (* the directories, the firewall and the scripts *)
  destruct ((createDirectories h13).1) as [created | e] eqn:Hcreate;
    [| intros Hdone; rewrite (bind_fails _ _ h13 e Hcreate) in Hdone; discriminate].
  rewrite (bind_step _ _ h13 created Hcreate).
  set (h14 := after createDirectories h13).
  assert (L14 : later h h14)
    by (transitivity h13; [exact L13 | apply steady_createDirectories]).
  rewrite (bind_step _ _ h14 tt) by reflexivity.
  set (h15 := after (log _) h14).
  assert (L15 : later h h15) by (transitivity h14; [exact L14 | apply steady_log]).
  destruct (checkFirewall_value h15) as [checked Hfirewall].
  rewrite (bind_step _ _ h15 checked Hfirewall).
  set (h16 := after checkFirewall h15).
  assert (L16 : later h h16) by (transitivity h15; [exact L15 | apply steady_checkFirewall]).
  rewrite (bind_step _ _ h16 tt) by reflexivity.
  set (h17 := after (log _) h16).
  assert (L17 : later h h17) by (transitivity h16; [exact L16 | apply steady_log]).
  destruct ((createStartupScripts h17).1) as [written | e] eqn:Hscripts;
    [| intros Hdone; rewrite (bind_fails _ _ h17 e Hscripts) in Hdone; discriminate].
  rewrite (bind_step _ _ h17 written Hscripts).
  set (h18 := after createStartupScripts h17).
  assert (L18 : later h h18)
    by (transitivity h17; [exact L17 | apply steady_createStartupScripts]).
  rewrite (bind_step _ _ h18 tt) by reflexivity.
  set (h19 := after (log _) h18).
  assert (L19 : later h h19) by (transitivity h18; [exact L18 | apply steady_log]).
  intros _. exists h19. split; [exact L19 | reflexivity].
Qed.

(** X30. When [main] runs to its end, the summary it prints is the one for
    [allGood] being: Node.js is there in version 16 or later, npm is there,
    [npm install] succeeded, and Java is there or could be installed. The
    machine and its answers are the same throughout, and the console has
    only grown; the second line of the summary is the success line or the
    warning line accordingly. *)
Theorem main_verdict (h : Host) :
  (main h).1 = Done tt ->
  exists h1 rest,
    later h h1
    /\ main h = summary (verdict h) h1
    /\ h_console (after main h) =
         h_console h1 ++ rule :: (if verdict h then "🎉 Installation completed successfully!" else "⚠️  Installation completed with warnings") :: rest.
Proof.
  intros Hdone. destruct (main_run h Hdone) as (h1 & Hlater & Hrun).
  assert (Hsummary : exists rest,
            h_console (after (summary (verdict h)) h1) =
              h_console h1 ++ rule :: (if verdict h then "🎉 Installation completed successfully!" else "⚠️  Installation completed with warnings") :: rest).
  { unfold summary. destruct (verdict h); installer_run;
      [destruct (bool_decide (h_platform h1 = "win32")); installer_run |];
      eexists; rewrite <- !app_assoc; reflexivity. }
  destruct Hsummary as [rest Hsummary].
  exists h1, rest. split; [exact Hlater|]. split; [exact Hrun|].
  unfold after in *. rewrite Hrun. exact Hsummary.
Qed.

Lemma main_verdict_witness :
  (main example_host).1 = Done tt
  /\ exists h1 rest,
       later example_host h1
       /\ main example_host = summary (verdict example_host) h1
       /\ h_console (after main example_host) =
            h_console h1
            ++ rule :: (if verdict example_host then "🎉 Installation completed successfully!" else "⚠️  Installation completed with warnings") :: rest.
Proof.
  assert (H : (main example_host).1 = Done tt) by (vm_compute; reflexivity).
  exact (conj H (main_verdict example_host H)).
Defined.

Lemma checkNode_accepts_16_and_up_witness :
  h_succeeds example_host "node" ["--version"] = true
  /\ forallb (fun d => (d <? 10)%nat) [1; 8]%nat = true
  /\ h_exec example_host "node --version"
       = inl ("v" +:+ numeral [1; 8]%nat +:+ "." +:+ ("17.0" +:+ nl))
  /\ (checkNode example_host).1 = Done (16 <=? value [1; 8]%nat)
  /\ h_ran (after checkNode example_host)
       = h_ran example_host ++ [Spawn "node" ["--version"]; Exec "node --version"]
  /\ h_fs (after checkNode example_host) = h_fs example_host.
Proof.
  assert (H1 : h_succeeds example_host "node" ["--version"] = true)
    by (vm_compute; reflexivity).
  assert (H2 : forallb (fun d => (d <? 10)%nat) [1; 8]%nat = true) by reflexivity.
  assert (H3 : h_exec example_host "node --version"
               = inl ("v" +:+ numeral [1; 8]%nat +:+ "." +:+ ("17.0" +:+ nl)))
    by (vm_compute; reflexivity).
  repeat (split; [assumption|]).
  exact (checkNode_accepts_16_and_up example_host 1 [8]%nat ("17.0" +:+ nl) H1 H2 H3).
Defined.

Lemma createDirectories_ensures_witness :
  forallb (fun dir => no_file_on_the_way (h_fs example_host)
                        (removelast (h_dirname example_host) ++ [dir]))
          directories = true
  /\ (createDirectories example_host).1 = Done true
  /\ (forall dir, dir ∈ directories ->
        h_fs (after createDirectories example_host)
          !! (removelast (h_dirname example_host) ++ [dir]) = Some Directory)
  /\ (forall q data, h_fs (after createDirectories example_host) !! q = Some (File data)
                     <-> h_fs example_host !! q = Some (File data))
  /\ h_fs (after createDirectories (after createDirectories example_host))
       = h_fs (after createDirectories example_host)
  /\ h_ran (after createDirectories example_host) = h_ran example_host.
Proof.
  assert (H : forallb (fun dir => no_file_on_the_way (h_fs example_host)
                                    (removelast (h_dirname example_host) ++ [dir]))
                      directories = true) by (vm_compute; reflexivity).
  exact (conj H (createDirectories_ensures example_host H)).
Defined.

End InstallerFacts.
